(** * Batch management routes (routes/batches.py): a shallow embedding

    The handlers of [routes/batches.py] are embedded as total functions from
    the persisted database and the request to a response and the database
    that is persisted afterwards.  A handler works on the objects of its
    unit of work; [db.session.commit()] persists them, an error response
    returned before the commit persists nothing (the session ends with the
    request), and an exception reaches the handler's [except Exception]
    clause, which rolls back and answers 500.

    The handlers are taken after their decorators: the session is
    authenticated and has the required role.  What the request context and
    the Python runtime provide is passed in: the current user, the readings
    of the clock, today's date, and the two conversions of the standard
    library that [update_batch] names. *)

From Stdlib Require Import Ascii.
From stdpp Require Import gmap strings list fin_maps pretty sorting.

#[local] Set Warnings "-register-all".
#[local] Open Scope Z_scope.

(** ** Python values and built-ins used by the handlers *)

(** A decoded JSON value, as [request.get_json()] hands it to the handler
    (numbers are the integers; a request body is an object or absent). *)
Inductive json :=
| JNull
| JBool (b : bool)
| JInt (z : Z)
| JStr (s : string)
| JList (l : list json)
| JDict (l : list (string * json)).

(** Python truthiness: [if v], [not v]. *)
Definition truthy (v : json) : bool :=
  match v with
  | JNull => false
  | JBool b => b
  | JInt z => negb (z =? 0)
  | JStr s => negb (String.eqb s "")
  | JList l => match l with [] => false | _ => true end
  | JDict l => match l with [] => false | _ => true end
  end.

(** [data.get(k)] with the default [None]. *)
Definition dict_get (data : gmap string json) (k : string) : json :=
  default JNull (data !! k).

(** [data.get(k, d)]. *)
Definition dict_get_default (data : gmap string json) (k : string) (d : json) : json :=
  default d (data !! k).

(** The exceptions the handlers can meet. *)
Inductive exn :=
| AttributeError (msg : string)
| TypeError (msg : string)
| ValueError (msg : string)
| InvalidOperation (msg : string)
| StatementError (msg : string).

(** [str(e)]. *)
Definition str_exn (e : exn) : string :=
  match e with
  | AttributeError m | TypeError m | ValueError m
  | InvalidOperation m | StatementError m => m
  end.

(** [str.isspace] on one character (code points below 256). *)
Definition is_space (c : ascii) : bool :=
  let n := nat_of_ascii c in
  ((9 <=? n) && (n <=? 13) || (28 <=? n) && (n <=? 32)
   || (n =? 133) || (n =? 160))%nat.

Fixpoint lstrip (s : string) : string :=
  match s with
  | EmptyString => EmptyString
  | String c s' => if is_space c then lstrip s' else s
  end.

Fixpoint rstrip (s : string) : string :=
  match s with
  | EmptyString => EmptyString
  | String c s' =>
      match rstrip s' with
      | EmptyString => if is_space c then EmptyString else String c EmptyString
      | r => String c r
      end
  end.

(** [s.strip()]. *)
Definition strip (s : string) : string := rstrip (lstrip s).

(** [type(v).__name__]. *)
Definition type_name (v : json) : string :=
  match v with
  | JNull => "NoneType"
  | JBool _ => "bool"
  | JInt _ => "int"
  | JStr _ => "str"
  | JList _ => "list"
  | JDict _ => "dict"
  end.

(** [v.strip()] on a decoded value: only a [str] has the method. *)
Definition py_strip (v : json) : exn + string :=
  match v with
  | JStr s => inr (strip s)
  | _ => inl (AttributeError
                ("'" +:+ type_name v +:+ "' object has no attribute 'strip'"))
  end.

(** [sub in s] on strings. *)
Fixpoint contains (sub s : string) : bool :=
  String.prefix sub s ||
  match s with
  | EmptyString => false
  | String _ s' => contains sub s'
  end.

(** [s.split(sep)[0]]: the part of [s] before the first [sep]. *)
Fixpoint split_head (sep s : string) : string :=
  if String.prefix sep s then EmptyString
  else match s with
       | EmptyString => EmptyString
       | String c s' => String c (split_head sep s')
       end.

(** [", ".join(l)]. *)
Fixpoint join (sep : string) (l : list string) : string :=
  match l with
  | [] => EmptyString
  | [x] => x
  | x :: rest => x +:+ sep +:+ join sep rest
  end.

(** [x in l] for a string [x] and a list of strings. *)
Definition in_list (x : string) (l : list string) : bool :=
  existsb (String.eqb x) l.

(** [v in l] for a decoded value: only a [str] equals a [str]. *)
Definition json_in_list (v : json) (l : list string) : bool :=
  match v with
  | JStr s => in_list s l
  | _ => false
  end.

(** [datetime.date]; the comparison is the lexicographic one. *)
Record date := mkdate { d_year : Z; d_month : Z; d_day : Z }.

Definition date_leb (a b : date) : bool :=
  (d_year a <? d_year b)
  || (d_year a =? d_year b)
     && ((d_month a <? d_month b)
         || (d_month a =? d_month b) && (d_day a <=? d_day b)).

(** [decimal.Decimal], finite values: (-1)^sign * coefficient * 10^exponent. *)
Record Decimal := mkdec { dec_sign : bool; dec_coeff : N; dec_exp : Z }.

(** [d < 0]. *)
Definition dec_negative (d : Decimal) : bool :=
  dec_sign d && negb (dec_coeff d =? 0)%N.

(** [Decimal('0.00')]. *)
Definition dec_zero_2 : Decimal := mkdec false 0 (-2).

(** A [datetime] instant. *)
Definition timestamp := Z.

(** ** The persistence model *)

(** Modelled from the spec: [UserRole] of models.py, which this module
    imports. *)
Inductive UserRole := STUDENT | TEACHER | SUPER_USER.

#[global] Instance UserRole_eq_dec : EqDecision UserRole.
Proof. solve_decision. Defined.

Definition role_eqb (a b : UserRole) : bool :=
  match a, b with
  | STUDENT, STUDENT | TEACHER, TEACHER | SUPER_USER, SUPER_USER => true
  | _, _ => false
  end.

(** Modelled from the spec: the [Batch] model of models.py, which this module
    imports, with the columns the handlers read and write.  The primary key [id] is
    the key of the table. *)
Record Batch := mkBatch {
  b_name : string;
  b_subject : string;
  b_description : string;
  b_start_date : date;
  b_end_date : option date;
  b_fee_amount : Decimal;
  b_max_students : Z;
  b_status : string;
  b_is_active : bool;
  b_is_archived : bool;
  b_archived_at : option timestamp;
  b_archived_by : option positive;
  b_archive_reason : option string;
  b_created_at : timestamp;
  b_updated_at : timestamp
}.

(** Modelled from the spec: the [User] model of models.py, which this module
    imports; a student is a user whose role is [STUDENT]. *)
Record User := mkUser {
  u_role : UserRole;
  u_phoneNumber : string;
  u_first_name : string;
  u_last_name : string;
  u_email : string;
  u_guardian_phone : string;
  u_emergency_contact : string;
  u_created_at : timestamp;
  u_is_active : bool;
  u_is_archived : bool;
  u_archived_at : option timestamp;
  u_archived_by : option positive;
  u_archive_reason : option string
}.

(** Modelled from the spec: [MonthlyExam] and [MonthlyRanking] of models.py,
    which this module imports. *)
Record MonthlyExam := mkExam {
  me_id : positive;
  me_batch_id : positive;
  me_year : Z;
  me_month : Z
}.

Record MonthlyRanking := mkRanking {
  mr_monthly_exam_id : positive;
  mr_user_id : positive;
  mr_position : option Z;
  mr_is_final : bool
}.

(** The persisted tables.  [db_user_batches] is the association table
    [user_batches]: rows (user id, batch id), in insertion order. *)
Record DB := mkDB {
  db_batches : gmap positive Batch;
  db_users : gmap positive User;
  db_user_batches : list (positive * positive);
  db_exams : list MonthlyExam;
  db_rankings : list MonthlyRanking
}.

(** The four assignments to the archive columns of a batch. *)
Definition batch_set_archive (b : Batch) (flag : bool) (at_ : option timestamp)
    (by_ : option positive) (reason : option string) : Batch :=
  mkBatch (b_name b) (b_subject b) (b_description b) (b_start_date b)
    (b_end_date b) (b_fee_amount b) (b_max_students b) (b_status b)
    (b_is_active b) flag at_ by_ reason (b_created_at b) (b_updated_at b).

(** The four assignments to the archive columns of a user. *)
Definition user_set_archive (u : User) (flag : bool) (at_ : option timestamp)
    (by_ : option positive) (reason : option string) : User :=
  mkUser (u_role u) (u_phoneNumber u) (u_first_name u) (u_last_name u)
    (u_email u) (u_guardian_phone u) (u_emergency_contact u) (u_created_at u)
    (u_is_active u) flag at_ by_ reason.

Definition batch_set_name (b : Batch) (n : string) : Batch :=
  mkBatch n (b_subject b) (b_description b) (b_start_date b)
    (b_end_date b) (b_fee_amount b) (b_max_students b) (b_status b)
    (b_is_active b) (b_is_archived b) (b_archived_at b) (b_archived_by b)
    (b_archive_reason b) (b_created_at b) (b_updated_at b).

Definition batch_set_subject (b : Batch) (s : string) : Batch :=
  mkBatch (b_name b) s (b_description b) (b_start_date b)
    (b_end_date b) (b_fee_amount b) (b_max_students b) (b_status b)
    (b_is_active b) (b_is_archived b) (b_archived_at b) (b_archived_by b)
    (b_archive_reason b) (b_created_at b) (b_updated_at b).

Definition batch_set_description (b : Batch) (d : string) : Batch :=
  mkBatch (b_name b) (b_subject b) d (b_start_date b)
    (b_end_date b) (b_fee_amount b) (b_max_students b) (b_status b)
    (b_is_active b) (b_is_archived b) (b_archived_at b) (b_archived_by b)
    (b_archive_reason b) (b_created_at b) (b_updated_at b).

Definition batch_set_start_date (b : Batch) (d : date) : Batch :=
  mkBatch (b_name b) (b_subject b) (b_description b) d
    (b_end_date b) (b_fee_amount b) (b_max_students b) (b_status b)
    (b_is_active b) (b_is_archived b) (b_archived_at b) (b_archived_by b)
    (b_archive_reason b) (b_created_at b) (b_updated_at b).

Definition batch_set_end_date (b : Batch) (d : option date) : Batch :=
  mkBatch (b_name b) (b_subject b) (b_description b) (b_start_date b)
    d (b_fee_amount b) (b_max_students b) (b_status b)
    (b_is_active b) (b_is_archived b) (b_archived_at b) (b_archived_by b)
    (b_archive_reason b) (b_created_at b) (b_updated_at b).

Definition batch_set_fee_amount (b : Batch) (f : Decimal) : Batch :=
  mkBatch (b_name b) (b_subject b) (b_description b) (b_start_date b)
    (b_end_date b) f (b_max_students b) (b_status b)
    (b_is_active b) (b_is_archived b) (b_archived_at b) (b_archived_by b)
    (b_archive_reason b) (b_created_at b) (b_updated_at b).

Definition batch_set_updated_at (b : Batch) (t : timestamp) : Batch :=
  mkBatch (b_name b) (b_subject b) (b_description b) (b_start_date b)
    (b_end_date b) (b_fee_amount b) (b_max_students b) (b_status b)
    (b_is_active b) (b_is_archived b) (b_archived_at b) (b_archived_by b)
    (b_archive_reason b) (b_created_at b) t.

Definition db_with_batches (db : DB) (bs : gmap positive Batch) : DB :=
  mkDB bs (db_users db) (db_user_batches db) (db_exams db) (db_rankings db).

Definition db_with_users (db : DB) (us : gmap positive User) : DB :=
  mkDB (db_batches db) us (db_user_batches db) (db_exams db) (db_rankings db).

Definition db_with_user_batches (db : DB) (ub : list (positive * positive)) : DB :=
  mkDB (db_batches db) (db_users db) ub (db_exams db) (db_rankings db).

(** [batch.students]: the users the association table links to the batch,
    in the order of its rows, each with its primary key. *)
Definition student_ids (db : DB) (batch_id : positive) : list positive :=
  (filter (λ r, r.2 = batch_id) (db_user_batches db)).*1.

(** The rows of [ids] found in the users table, each with its key. *)
Definition load (users : gmap positive User) (ids : list positive) : list (positive * User) :=
  omap (λ i, (λ u, (i, u)) <$> users !! i) ids.

Definition batch_students (db : DB) (batch_id : positive) : list (positive * User) :=
  load (db_users db) (student_ids db batch_id).

(** [batch in student.batches]. *)
Definition enrolled (db : DB) (user_id batch_id : positive) : bool :=
  bool_decide ((user_id, batch_id) ∈ db_user_batches db).

(** ** Responses *)

(** One entry of the roster listing; [full_name], [student_id] and the
    formatted [created_at] are computed by the absent model and follow from
    the user carried in [sd_user]. *)
Record student_data := mkStudentData {
  sd_id : positive;
  sd_user : User;
  sd_roll_number : option Z;
  sd_current_rank : option Z
}.

Inductive payload :=
| NoPayload
| BatchPayload (id : positive) (b : Batch) (class : option string)
| StudentsPayload (students : list student_data)
| ArchivePayload (batch_id : positive) (batch_name : string)
    (archived_students : nat) (archived_at : option timestamp)
    (reason : json)
| RestorePayload (batch_id : positive) (batch_name : string)
    (restored_students : nat).

(** Modelled from the spec: the response envelope of utils/response.py, which
    this module imports: success flag, message, optional payload, HTTP
    status. *)
Record Response := mkResponse {
  success : bool;
  message : string;
  data : payload;
  status : Z
}.

Definition success_response (msg : string) (d : payload) (code : Z) : Response :=
  mkResponse true msg d code.

Definition error_response (msg : string) (code : Z) : Response :=
  mkResponse false msg NoPayload code.

(** ** Control flow of a handler body *)

(** A step of a handler body goes on with a value, returns a response
    without committing, or raises. *)
Inductive flow (A : Type) :=
| Go (a : A)
| Reply (r : Response)
| Raise (e : exn).
Arguments Go {A} a.
Arguments Reply {A} r.
Arguments Raise {A} e.

#[global] Instance flow_ret : MRet flow := λ A a, Go a.
#[global] Instance flow_bind : MBind flow := λ A B f m,
  match m with
  | Go a => f a
  | Reply r => Reply r
  | Raise e => Raise e
  end.

(** [if c: return r]. *)
Definition reply_if (c : bool) (r : Response) : flow unit :=
  if c then Reply r else Go tt.

(** A Python operation that may raise. *)
Definition lift {A} (x : exn + A) : flow A :=
  match x with
  | inr a => Go a
  | inl e => Raise e
  end.

(** The [try: ... except Exception as e: db.session.rollback(); return
    error_response(prefix + str(e), 500)] frame of a handler.  The body ends
    with the response and the database it committed. *)
Definition handle (prefix : string) (db : DB) (body : flow (Response * DB)) : Response * DB :=
  match body with
  | Go (r, db') => (r, db')
  | Reply r => (r, db)
  | Raise e => (error_response (prefix +:+ str_exn e) 500, db)
  end.

(** ** Archive management *)

(** The integers of 64 bits. *)
Definition int64 (z : Z) : bool := (-(2 ^ 63) <=? z) && (z <? 2 ^ 63).

(** A value assigned to a text column reaches the database at the commit,
    where the driver binds it as SQLite's does: a [str] and [None] are stored
    as they are; an [int] of 64 bits is stored in its decimal form, which is
    what a column of text affinity keeps of a number, and a [bool] is the
    [int] 1 or 0; a larger [int], a [list] and a [dict] are refused, which
    surfaces as an exception of the commit. *)
Definition text_column (v : json) : exn + option string :=
  match v with
  | JStr s => inr (Some s)
  | JNull => inr None
  | JInt z =>
      if int64 z then inr (Some (pretty z))
      else inl (StatementError "Python int too large to convert to SQLite INTEGER")
  | JBool b => inr (Some (if b then "1" else "0"))
  | JList _ | JDict _ =>
      inl (StatementError "Error binding parameter: type is not supported")
  end.

(** [f"Archived with batch: {batch.name}"]. *)
Definition cascade_marker (batch_name : string) : string :=
  "Archived with batch: " +:+ batch_name.

(** The guard of the archive loop. *)
Definition archivable (u : User) : bool :=
  negb (u_is_archived u) && role_eqb (u_role u) STUDENT.

(** The loop [for student in batch.students] of [archive_batch], over the
    primary keys of the loaded students.  The students are rows of the one
    users table; [count] is [archived_students_count], and the k-th student
    archived reads the clock for the (k+1)-th time in the request. *)
Fixpoint archive_students (clock : nat → timestamp) (cu : positive)
    (batch_name : string) (ids : list positive)
    (users : gmap positive User) (count : nat) : gmap positive User * nat :=
  match ids with
  | [] => (users, count)
  | i :: rest =>
      match users !! i with
      | Some student =>
          if archivable student then
            archive_students clock cu batch_name rest
              (<[i := user_set_archive student true (Some (clock (S count)))
                        (Some cu) (Some (cascade_marker batch_name))]> users)
              (S count)
          else archive_students clock cu batch_name rest users count
      | None => archive_students clock cu batch_name rest users count
      end
  end.

Definition archive_batch (clock : nat → timestamp) (current_user : positive)
    (db : DB) (batch_id : positive) (body : option (gmap string json))
    : Response * DB :=
  handle "Failed to archive batch: " db
    match db_batches db !! batch_id with
    | None => Reply (error_response "Batch not found" 404)
    | Some batch =>
        _ ← reply_if (b_is_archived batch)
              (error_response "Batch is already archived" 400);
        let data := default ∅ body in
        let reason := dict_get_default data "reason" (JStr "Archived by teacher") in
        archive_reason ← lift (text_column reason);
        let batch := batch_set_archive batch true (Some (clock 0%nat))
                       (Some current_user) archive_reason in
        let '(users, archived_students_count) :=
          archive_students clock current_user (b_name batch)
            (student_ids db batch_id) (db_users db) 0%nat in
        Go (success_response "Batch and students archived successfully"
              (ArchivePayload batch_id (b_name batch) archived_students_count
                 (b_archived_at batch) reason) 200,
            db_with_users
              (db_with_batches db (<[batch_id := batch]> (db_batches db)))
              users)
    end.

(** The guard of the restore loop: archived, a student, and archived with
    this batch. *)
Definition restorable (batch_name : string) (u : User) : bool :=
  u_is_archived u && role_eqb (u_role u) STUDENT &&
  match u_archive_reason u with
  | Some r => negb (String.eqb r "") && contains (cascade_marker batch_name) r
  | None => false
  end.

(** The loop [for student in batch.students] of [restore_batch]. *)
Fixpoint restore_students_loop (batch_name : string) (ids : list positive)
    (users : gmap positive User) (count : nat) : gmap positive User * nat :=
  match ids with
  | [] => (users, count)
  | i :: rest =>
      match users !! i with
      | Some student =>
          if restorable batch_name student then
            restore_students_loop batch_name rest
              (<[i := user_set_archive student false None None None]> users)
              (S count)
          else restore_students_loop batch_name rest users count
      | None => restore_students_loop batch_name rest users count
      end
  end.

Definition restore_batch (db : DB) (batch_id : positive)
    (body : option (gmap string json)) : Response * DB :=
  handle "Failed to restore batch: " db
    match db_batches db !! batch_id with
    | None => Reply (error_response "Batch not found" 404)
    | Some batch =>
        _ ← reply_if (negb (b_is_archived batch))
              (error_response "Batch is not archived" 400);
        let data := default ∅ body in
        let restore_students := dict_get_default data "restore_students" (JBool true) in
        let batch := batch_set_archive batch false None None None in
        let '(users, restored_students_count) :=
          if truthy restore_students then
            restore_students_loop (b_name batch) (student_ids db batch_id)
              (db_users db) 0%nat
          else (db_users db, 0%nat) in
        Go (success_response "Batch restored successfully"
              (RestorePayload batch_id (b_name batch) restored_students_count) 200,
            db_with_users
              (db_with_batches db (<[batch_id := batch]> (db_batches db)))
              users)
    end.

(** ** Batch CRUD *)

Definition allowed_classes : list string :=
  ["Class 1"; "Class 2"; "Class 3"; "Class 4"; "Class 5";
   "Class 6"; "Class 7"; "Class 8"; "Class 9"; "Class 10";
   "HSC 1st Year"; "HSC 2nd Year"].

Definition allowed_subjects : list string :=
  ["Mathematics"; "Higher Mathematics"; "Physics"; "Chemistry";
   "Biology"; "English"; "Bangla"; "ICT"; "General Science"].

Definition required_fields : list string := ["name"; "class"; "subject"].

(** [updatable_fields] of [update_batch]. *)
Definition updatable_fields : list string := ["name"].

(** [if not data: return error_response('Request data is required', 400)]. *)
Definition require_data (body : option (gmap string json)) : flow (gmap string json) :=
  match body with
  | Some data =>
      if (size data =? 0)%nat
      then Reply (error_response "Request data is required" 400)
      else Go data
  | None => Reply (error_response "Request data is required" 400)
  end.

(** [Batch.query.filter_by(name=n).first()] finds a row. *)
Definition name_exists (db : DB) (n : string) : bool :=
  bool_decide (map_Exists (λ _ b, b_name b = n) (db_batches db)).

(** [Batch.query.filter(Batch.name == n, Batch.id != batch_id).first()]
    finds a row. *)
Definition name_taken_by_other (db : DB) (n : string) (batch_id : positive) : bool :=
  bool_decide (map_Exists (λ i b, b_name b = n ∧ i ≠ batch_id) (db_batches db)).

Definition create_batch (today : date) (now : timestamp) (db : DB)
    (body : option (gmap string json)) : Response * DB :=
  handle "Failed to create batch: " db
    (data ← require_data body;
     let missing_fields :=
       filter (λ field, truthy (dict_get data field) = false) required_fields in
     _ ← reply_if (negb (bool_decide (missing_fields = [])))
           (error_response
              ("Missing required fields: " +:+ join ", " missing_fields) 400);
     class_name ← lift (py_strip (dict_get data "class"));
     _ ← reply_if (negb (in_list class_name allowed_classes))
           (error_response
              ("Class must be one of: " +:+ join ", " allowed_classes) 400);
     subject ← lift (py_strip (dict_get data "subject"));
     _ ← reply_if (negb (in_list subject allowed_subjects))
           (error_response
              ("Subject must be one of: " +:+ join ", " allowed_subjects) 400);
     name ← lift (py_strip (dict_get data "name"));
     _ ← reply_if (name_exists db name)
           (error_response "Batch with this name already exists" 409);
     let batch :=
       mkBatch name subject (class_name +:+ " - " +:+ subject) today None
         dec_zero_2 50 "active" true false None None None now now in
     let batch_id := fresh (dom (db_batches db)) in
     Go (success_response "Batch created successfully"
           (BatchPayload batch_id batch (Some class_name)) 201,
         db_with_batches db (<[batch_id := batch]> (db_batches db)))).

(** [str(v)] inside an f-string; the handlers format validated strings
    only, containers are never formatted. *)
Definition py_str (v : json) : string :=
  match v with
  | JNull => "None"
  | JBool true => "True"
  | JBool false => "False"
  | JInt z => pretty z
  | JStr s => s
  | JList _ => "[...]"
  | JDict _ => "{...}"
  end.

(** The block [if 'class' in data or 'subject' in data] of [update_batch]. *)
Definition update_class_subject (data : gmap string json) (batch : Batch) : flow Batch :=
  if bool_decide (is_Some (data !! "class")) || bool_decide (is_Some (data !! "subject"))
  then
    let current_class :=
      if contains " - " (b_description batch)
      then JStr (split_head " - " (b_description batch)) else JNull in
    let current_subject := JStr (b_subject batch) in
    let new_class := dict_get_default data "class" current_class in
    let new_subject := dict_get_default data "subject" current_subject in
    _ ← reply_if (truthy new_class && negb (json_in_list new_class allowed_classes))
          (error_response
             ("Class must be one of: " +:+ join ", " allowed_classes) 400);
    batch ← (if truthy new_subject then
               _ ← reply_if (negb (json_in_list new_subject allowed_subjects))
                     (error_response
                        ("Subject must be one of: " +:+ join ", " allowed_subjects) 400);
               Go (batch_set_subject batch (py_str new_subject))
             else Go batch);
    if truthy new_class && truthy new_subject
    then Go (batch_set_description batch
               (py_str new_class +:+ " - " +:+ py_str new_subject))
    else Go batch
  else Go batch.

Section UpdateBatch.

(** The two conversions of the Python standard library that [update_batch]
    calls: [datetime.strptime(s, '%Y-%m-%d').date()], [None] for the
    [ValueError] of a malformed date, and [Decimal(str(v))]. *)
Variable strptime_ymd : string → option date.
Variable decimal_of_str : json → exn + Decimal.

(** [setattr(batch, field, d)] for the two date columns. *)
Definition setattr_date (batch : Batch) (field : string) (d : date) : Batch :=
  if String.eqb field "start_date" then batch_set_start_date batch d
  else batch_set_end_date batch (Some d).

(** [setattr(batch, field, data[field])] of the last branch: the value is
    stored as it is.  A value the column cannot hold fails at the commit; a
    name that is no column is a plain attribute of the object. *)
Definition setattr_json (batch : Batch) (field : string) (v : json) : flow Batch :=
  if String.eqb field "name" then
    match v with
    | JStr s => Go (batch_set_name batch s)
    | _ => Raise (StatementError "unsupported value for column name")
    end
  else if String.eqb field "end_date" then
    match v with
    | JNull => Go (batch_set_end_date batch None)
    | _ => Raise (StatementError "unsupported value for column end_date")
    end
  else if String.eqb field "start_date" || String.eqb field "fee_amount" then
    Raise (StatementError "unsupported value for a column")
  else Go batch.

(** The body of [for field in updatable_fields], for one field. *)
Definition update_field (data : gmap string json) (batch : Batch) (field : string)
    : flow Batch :=
  match data !! field with
  | None => Go batch
  | Some v =>
      if in_list field ["start_date"; "end_date"] && truthy v then
        match v with
        | JStr s =>
            match strptime_ymd s with
            | Some d => Go (setattr_date batch field d)
            | None =>
                Reply (error_response
                         ("Invalid " +:+ field +:+ " format. Use YYYY-MM-DD") 400)
            end
        | _ => Raise (TypeError "strptime() argument 1 must be str")
        end
      else if String.eqb field "fee_amount"
              && negb (match v with JNull => true | _ => false end) then
        match decimal_of_str v with
        | inr fee_amount =>
            if dec_negative fee_amount
            then Reply (error_response "Fee amount cannot be negative" 400)
            else Go (batch_set_fee_amount batch fee_amount)
        | inl (ValueError _) | inl (TypeError _) =>
            Reply (error_response "Invalid fee amount" 400)
        | inl e => Raise e
        end
      else setattr_json batch field v
  end.

Fixpoint update_fields (data : gmap string json) (batch : Batch) (fields : list string)
    : flow Batch :=
  match fields with
  | [] => Go batch
  | field :: rest =>
      batch ← update_field data batch field;
      update_fields data batch rest
  end.

(** [batch.end_date and batch.end_date <= batch.start_date]. *)
Definition bad_date_range (batch : Batch) : bool :=
  match b_end_date batch with
  | Some e => date_leb e (b_start_date batch)
  | None => false
  end.

Definition update_batch (now : timestamp) (db : DB) (batch_id : positive)
    (body : option (gmap string json)) : Response * DB :=
  handle "Failed to update batch: " db
    match db_batches db !! batch_id with
    | None => Reply (error_response "Batch not found" 404)
    | Some batch =>
        data ← require_data body;
        _ ← match data !! "name" with
            | Some v =>
                name ← lift (py_strip v);
                reply_if (negb (String.eqb name (b_name batch))
                          && name_taken_by_other db name batch_id)
                  (error_response "Batch with this name already exists" 409)
            | None => Go tt
            end;
        batch ← update_class_subject data batch;
        batch ← update_fields data batch updatable_fields;
        _ ← reply_if (bad_date_range batch)
              (error_response "End date must be after start date" 400);
        let batch := batch_set_updated_at batch now in
        Go (success_response "Batch updated successfully"
              (BatchPayload batch_id batch None) 200,
            db_with_batches db (<[batch_id := batch]> (db_batches db)))
    end.

End UpdateBatch.

(** The double quote character of the deletion message. *)
Definition dquote : string := String (ascii_of_nat 34) EmptyString.

(** [[s for s in batch.students if s.is_active]]. *)
Definition active_students (db : DB) (batch_id : positive) : list (positive * User) :=
  filter (λ s, u_is_active s.2 = true) (batch_students db batch_id).

(** [batch.students.clear()]: the rows of the association table that link
    a user to the batch go. *)
Definition students_clear (db : DB) (batch_id : positive) : DB :=
  db_with_user_batches db (filter (λ r, r.2 ≠ batch_id) (db_user_batches db)).

(** [db.session.delete(batch)]. *)
Definition session_delete (db : DB) (batch_id : positive) : DB :=
  db_with_batches db (delete batch_id (db_batches db)).

Definition delete_batch (db : DB) (batch_id : positive) : Response * DB :=
  handle "Failed to delete batch: " db
    match db_batches db !! batch_id with
    | None => Reply (error_response "Batch not found" 404)
    | Some batch =>
        let active := active_students db batch_id in
        _ ← reply_if (negb (bool_decide (active = [])))
              (error_response
                 ("Cannot delete batch with " +:+ pretty (length active)
                  +:+ " active students. Please remove students first.") 400);
        let batch_name := b_name batch in
        let db := students_clear db batch_id in
        let db := session_delete db batch_id in
        Go (success_response
              ("Batch " +:+ dquote +:+ batch_name +:+ dquote +:+ " deleted permanently")
              NoPayload 200,
            db)
    end.

(** ** Ranked roster *)

(** Python's [list.sort(key=...)] is stable, and the result of a stable sort
    is determined by the keys: it is embedded as the insertion sort that
    keeps equal keys in their order. *)
Section StableSort.
Context {A : Type} (leb : A → A → bool).

Fixpoint insert_sorted (x : A) (l : list A) : list A :=
  match l with
  | [] => [x]
  | y :: l' => if leb x y then x :: y :: l' else y :: insert_sorted x l'
  end.

Fixpoint stable_sort (l : list A) : list A :=
  match l with
  | [] => []
  | x :: l' => insert_sorted x (stable_sort l')
  end.

End StableSort.

(** [order_by(MonthlyExam.year.desc(), MonthlyExam.month.desc())]: [a] is
    not after [b] in that order. *)
Definition exam_order (a b : MonthlyExam) : bool :=
  (me_year b <? me_year a)
  || (me_year b =? me_year a) && (me_month b <=? me_month a).

(** [MonthlyExam.query.filter_by(batch_id=batch_id).order_by(...).first()]. *)
Definition most_recent_exam (db : DB) (batch_id : positive) : option MonthlyExam :=
  head (stable_sort exam_order
          (filter (λ e, me_batch_id e = batch_id) (db_exams db))).

(** [if ranking.position]: a position that is neither NULL nor 0. *)
Definition position_set (r : MonthlyRanking) : bool :=
  match mr_position r with
  | Some p => negb (p =? 0)
  | None => false
  end.

(** The body of the loop [for ranking in rankings]:
    [if ranking.position: rank_map[ranking.user_id] = ranking.position]. *)
Definition rank_step (rank_map : gmap positive Z) (ranking : MonthlyRanking)
    : gmap positive Z :=
  match mr_position ranking with
  | Some p => if negb (p =? 0) then <[mr_user_id ranking := p]> rank_map else rank_map
  | None => rank_map
  end.

(** The loop [for ranking in rankings] that fills [rank_map]. *)
Definition fill_rank_map (rankings : list MonthlyRanking) : gmap positive Z :=
  foldl rank_step ∅ rankings.

(** [MonthlyRanking.query.filter_by(monthly_exam_id=..., is_final=True).all()]. *)
Definition final_rankings (db : DB) (exam_id : positive) : list MonthlyRanking :=
  filter (λ r, mr_monthly_exam_id r = exam_id ∧ mr_is_final r = true) (db_rankings db).

Definition rank_map_of (db : DB) (batch_id : positive) : gmap positive Z :=
  match most_recent_exam db batch_id with
  | Some exam => fill_rank_map (final_rankings db (me_id exam))
  | None => ∅
  end.

(** The sort key [(s['current_rank'] is None,
    s['current_rank'] if s['current_rank'] else 999999)]. *)
Definition sort_key (s : student_data) : bool * Z :=
  match sd_current_rank s with
  | None => (true, 999999)
  | Some r => (false, if r =? 0 then 999999 else r)
  end.

(** Python's order on the key tuples, [False < True] first. *)
Definition key_leb (a b : bool * Z) : bool :=
  match a.1, b.1 with
  | false, true => true
  | true, false => false
  | _, _ => a.2 <=? b.2
  end.

Definition student_leb (a b : student_data) : bool :=
  key_leb (sort_key a) (sort_key b).

(** The entries built by the loop [for student in batch.students]. *)
Definition roster_entries (db : DB) (batch_id : positive) : list student_data :=
  let rank_map := rank_map_of db batch_id in
  (λ s, mkStudentData s.1 s.2 (rank_map !! s.1) (rank_map !! s.1))
    <$> active_students db batch_id.

Definition get_batch_students (db : DB) (batch_id : positive) : Response * DB :=
  handle "Failed to get batch students: " db
    match db_batches db !! batch_id with
    | None => Reply (error_response "Batch not found" 404)
    | Some batch =>
        let students := roster_entries db batch_id in
        Reply (success_response "Batch students retrieved"
                 (StudentsPayload (stable_sort student_leb students)) 200)
    end.

(** ** Enrollment *)

(** The value of a decimal digit, and of a text made of decimal digits. *)
Definition digit (c : ascii) : option Z :=
  let n := nat_of_ascii c in
  if ((48 <=? n) && (n <=? 57))%nat then Some (Z.of_nat (n - 48)) else None.

Fixpoint digits_value_from (acc : Z) (s : string) : option Z :=
  match s with
  | EmptyString => Some acc
  | String c s' => d ← digit c; digits_value_from (10 * acc + d) s'
  end.

Definition digits_value (s : string) : option Z :=
  match s with
  | EmptyString => None
  | _ => digits_value_from 0 s
  end.

(** The primary key that the comparison [id = student_id] of the query
    selects for a decoded [student_id]: a positive integer is a key, [True]
    is the integer 1, and a text made of decimal digits is compared as the
    integer it writes.  What the database makes of any other text is its
    own conversion; such a text is taken to match no row. *)
Definition json_key (v : json) : option positive :=
  match v with
  | JInt z => if 0 <? z then Some (Z.to_pos z) else None
  | JBool true => Some 1%positive
  | JStr s => z ← digits_value s; if 0 <? z then Some (Z.to_pos z) else None
  | _ => None
  end.

(** The values the driver refuses to bind to the query: a [list], a [dict],
    and an [int] beyond 64 bits. *)
Definition unbindable (v : json) : bool :=
  match v with
  | JInt z => negb (int64 z)
  | JList _ | JDict _ => true
  | _ => false
  end.

(** [User.query.filter_by(id=student_id, role=UserRole.STUDENT,
    is_active=True).first()].  The keys of the table are integers of
    64 bits, so a value the driver refuses is the key of no row: the
    refusal is met where the lookup finds no row. *)
Definition find_active_student (db : DB) (student_id : json)
    : exn + option (positive * User) :=
  match i ← json_key student_id; u ← db_users db !! i; Some (i, u) with
  | Some (i, u) =>
      inr (if role_eqb (u_role u) STUDENT && u_is_active u
           then Some (i, u) else None)
  | None =>
      if unbindable student_id
      then inl (StatementError "Error binding parameter")
      else inr None
  end.

(** [User.query.filter_by(id=student_id, role=UserRole.STUDENT).first()]. *)
Definition find_student (db : DB) (student_id : positive) : option User :=
  u ← db_users db !! student_id;
  if role_eqb (u_role u) STUDENT then Some u else None.

Definition add_student_to_batch (db : DB) (batch_id : positive)
    (body : option (gmap string json)) : Response * DB :=
  handle "Failed to add student to batch: " db
    match db_batches db !! batch_id with
    | None => Reply (error_response "Batch not found" 404)
    | Some batch =>
        data ← match body with
               | Some d => Go d
               | None => Raise (AttributeError
                                  "'NoneType' object has no attribute 'get'")
               end;
        let student_id := dict_get data "student_id" in
        _ ← reply_if (negb (truthy student_id))
              (error_response "Student ID is required" 400);
        student ← lift (find_active_student db student_id);
        match student with
        | None => Reply (error_response "Student not found" 404)
        | Some (sid, student) =>
            _ ← reply_if (enrolled db sid batch_id)
                  (error_response "Student is already enrolled in this batch" 409);
            Go (success_response "Student added to batch successfully" NoPayload 200,
                db_with_user_batches db (db_user_batches db ++ [(sid, batch_id)]))
        end
    end.

Definition remove_student_from_batch (db : DB) (batch_id student_id : positive)
    : Response * DB :=
  handle "Failed to remove student from batch: " db
    match db_batches db !! batch_id with
    | None => Reply (error_response "Batch not found" 404)
    | Some batch =>
        match find_student db student_id with
        | None => Reply (error_response "Student not found" 404)
        | Some student =>
            _ ← reply_if (negb (enrolled db student_id batch_id))
                  (error_response "Student is not enrolled in this batch" 404);
            Go (success_response "Student removed from batch successfully"
                  NoPayload 200,
                db_with_user_batches db
                  (filter (λ r, r ≠ (student_id, batch_id)) (db_user_batches db)))
        end
    end.

(** ** Listings *)

(** The envelope of the read-only handlers, with the payload each of them
    builds.  These handlers commit nothing; the database is as before. *)
Record Answer (A : Type) := mkAnswer {
  a_success : bool;
  a_message : string;
  a_data : option A;
  a_status : Z
}.
Arguments mkAnswer {A} _ _ _ _.
Arguments a_success {A} _.
Arguments a_message {A} _.
Arguments a_data {A} _.
Arguments a_status {A} _.

Definition success_answer {A} (msg : string) (d : A) : Answer A :=
  mkAnswer true msg (Some d) 200.

Definition error_answer {A} (msg : string) (code : Z) : Answer A :=
  mkAnswer false msg None code.

(** The rows of the batches table, each with its primary key. *)
Definition batch_rows (db : DB) : list (positive * Batch) :=
  map_to_list (db_batches db).

(** [batch.max_students or 50]. *)
Definition max_students_or_50 (b : Batch) : Z :=
  if b_max_students b =? 0 then 50 else b_max_students b.

(** The class shown for a batch: [batch.description.split(' - ')[0]] when
    [' - ' in batch.description], no [class] key otherwise. *)
Definition class_of_description (description : string) : option string :=
  if contains " - " description
  then Some (split_head " - " description) else None.

(** One entry of [get_batches]: [serialize_batch(batch)] with the keys
    [class], [currentStudents] and [maxStudents]. *)
Record batch_info := mkBatchInfo {
  bi_id : positive;
  bi_batch : Batch;
  bi_class : option string;
  bi_currentStudents : nat;
  bi_maxStudents : Z
}.

Section GetBatches.

(** What the database and the framework do for [get_batches]: the SQL
    operator [ILIKE] (pattern first), and the rows [query.paginate(page=...,
    per_page=..., error_out=False).items] keeps of the ordered query. *)
Variable ilike : string → string → bool.
Variable paginate_items : Z → Z → list (positive * Batch) → list (positive * Batch).

(** [order_by(Batch.created_at.desc())]. *)
Definition created_at_desc (a b : positive * Batch) : bool :=
  b_created_at b.2 <=? b_created_at a.2.

(** The loop [for batch in pagination.items]. *)
Definition batch_info_of (db : DB) (row : positive * Batch) : batch_info :=
  mkBatchInfo row.1 row.2 (class_of_description (b_description row.2))
    (length (active_students db row.1)) (max_students_or_50 row.2).

(** The query of [get_batches] before pagination. *)
Definition batches_query (db : DB) (search : string) : list (positive * Batch) :=
  let query := filter (λ r, b_is_archived r.2 = false) (batch_rows db) in
  let query :=
    if negb (String.eqb search "")
    then filter (λ r, ilike ("%" +:+ search +:+ "%") (b_name r.2)
                      || ilike ("%" +:+ search +:+ "%") (b_description r.2) = true)
           query
    else query in
  stable_sort created_at_desc query.

(** [page], [per_page] and [search] are the query arguments as
    [request.args.get] reads them: [None] for an argument that is absent or,
    for the two numbers, not an integer. *)
Definition get_batches (db : DB) (page per_page : option Z) (search : option string)
    : Answer (list batch_info) :=
  let page := default 1 page in
  let per_page := Z.min (default 20 per_page) 100 in
  let search := strip (default "" search) in
  let items := paginate_items page per_page (batches_query db search) in
  success_answer "Batches retrieved successfully" (batch_info_of db <$> items).

End GetBatches.

(** The payload of [get_batch]: the serialized batch, and the [students] key
    for a teacher or a super user. *)
Record batch_detail := mkBatchDetail {
  bd_id : positive;
  bd_batch : Batch;
  bd_students : option (list (positive * User))
}.

Definition get_batch (current_user : User) (db : DB) (batch_id : positive)
    : Answer batch_detail :=
  match db_batches db !! batch_id with
  | None => error_answer "Batch not found" 404
  | Some batch =>
      let students :=
        if role_eqb (u_role current_user) TEACHER
           || role_eqb (u_role current_user) SUPER_USER
        then Some (active_students db batch_id) else None in
      success_answer "Batch details retrieved"
        (mkBatchDetail batch_id batch students)
  end.

(** [current_user.batches]: the batches the association table links to the
    user.  The order of the rows of this query is the database's; they are
    listed here in the order of the association table. *)
Definition batches_of_user (db : DB) (user_id : positive) : list (positive * Batch) :=
  omap (λ i, (λ b, (i, b)) <$> db_batches db !! i)
       (filter (λ r, r.1 = user_id) (db_user_batches db)).*2.

(** The entries of [get_my_batches]; [enrollment_date] is always [None]. *)
Definition get_my_batches (db : DB) (current_user : positive)
    : Answer (list (positive * Batch)) :=
  success_answer "Student batches retrieved"
    (filter (λ r, b_is_active r.2 = true) (batches_of_user db current_user)).

(** One entry of [get_active_batches]; the fee is carried as the decimal
    that [float] converts. *)
Record active_batch := mkActiveBatch {
  ab_id : positive;
  ab_name : string;
  ab_description : string;
  ab_fee_amount : Decimal;
  ab_start_date : date;
  ab_end_date : option date;
  ab_student_count : nat
}.

(** [order_by(Batch.name)], in the order of the code points. *)
Definition name_order (a b : positive * Batch) : bool :=
  String.leb (b_name a.2) (b_name b.2).

(** [len([s for s in batch.students if s.is_active and not s.is_archived])]. *)
Definition active_unarchived_count (db : DB) (batch_id : positive) : nat :=
  length (filter (λ s, u_is_active s.2 && negb (u_is_archived s.2) = true)
            (batch_students db batch_id)).

Definition active_batch_of (db : DB) (row : positive * Batch) : active_batch :=
  mkActiveBatch row.1 (b_name row.2) (b_description row.2) (b_fee_amount row.2)
    (b_start_date row.2) (b_end_date row.2) (active_unarchived_count db row.1).

Definition get_active_batches (db : DB) : Answer (list active_batch) :=
  let batches :=
    stable_sort name_order
      (filter (λ r, b_is_active r.2 = true ∧ b_is_archived r.2 = false)
         (batch_rows db)) in
  success_answer "Active batches retrieved" (active_batch_of db <$> batches).

(** One entry of [get_archived_batches].  [ar_archived_by] is the user whose
    [full_name] is shown, [None] where the handler writes ['Unknown']. *)
Record archived_batch := mkArchivedBatch {
  ar_id : positive;
  ar_batch : Batch;
  ar_archived_at : option timestamp;
  ar_archive_reason : option string;
  ar_archived_by : option User;
  ar_archived_students_count : nat;
  ar_total_students_count : nat
}.

(** [order_by(Batch.archived_at.desc())]; where the database puts the rows
    without [archived_at] is given by [nulls_first]. *)
Definition archived_at_desc (nulls_first : bool) (a b : positive * Batch) : bool :=
  match b_archived_at a.2, b_archived_at b.2 with
  | None, None => true
  | None, Some _ => nulls_first
  | Some _, None => negb nulls_first
  | Some x, Some y => y <=? x
  end.

Definition archived_batch_of (db : DB) (row : positive * Batch) : archived_batch :=
  mkArchivedBatch row.1 row.2 (b_archived_at row.2) (b_archive_reason row.2)
    (i ← b_archived_by row.2; db_users db !! i)
    (length (filter (λ s, u_is_archived s.2 && role_eqb (u_role s.2) STUDENT = true)
               (batch_students db row.1)))
    (length (filter (λ s, role_eqb (u_role s.2) STUDENT = true)
               (batch_students db row.1))).

Definition get_archived_batches (nulls_first : bool) (db : DB)
    : Answer (list archived_batch) :=
  let batches :=
    stable_sort (archived_at_desc nulls_first)
      (filter (λ r, b_is_archived r.2 = true) (batch_rows db)) in
  success_answer "Archived batches retrieved" (archived_batch_of db <$> batches).

(** ** Vocabulary of the properties *)

(** The state of a student after the cascade archived it at time [t]. *)
Definition cascaded (cu : positive) (batch_name : string) (t : timestamp) (u : User) : User :=
  user_set_archive u true (Some t) (Some cu) (Some (cascade_marker batch_name)).


(** The state of a batch or a student once its archive columns are cleared. *)
Definition batch_restored (b : Batch) : Batch := batch_set_archive b false None None None.
Definition user_restored (u : User) : User := user_set_archive u false None None None.

(** [b'] differs from [b] in the archive columns at most. *)
Definition batch_archive_frame (b b' : Batch) : Prop :=
  b' = batch_set_archive b (b_is_archived b') (b_archived_at b')
         (b_archived_by b') (b_archive_reason b').

(** [u'] differs from [u] in the archive columns at most. *)
Definition user_archive_frame (u u' : User) : Prop :=
  u' = user_set_archive u (u_is_archived u') (u_archived_at u')
         (u_archived_by u') (u_archive_reason u').

(** What a request on the batch [batch_id] may change from [db] to [db']:
    the archive columns of that batch and of the students of its roster. *)
Definition archive_frame (batch_id : positive) (db db' : DB) : Prop :=
  db_user_batches db' = db_user_batches db
  ∧ db_exams db' = db_exams db
  ∧ db_rankings db' = db_rankings db
  ∧ (∀ i, option_Forall2
            (λ b b', b_is_active b' = b_is_active b
                     ∧ batch_archive_frame b b'
                     ∧ (i ≠ batch_id → b' = b))
            (db_batches db !! i) (db_batches db' !! i))
  ∧ (∀ i, option_Forall2
            (λ u u', u_is_active u' = u_is_active u
                     ∧ user_archive_frame u u'
                     ∧ (i ∉ student_ids db batch_id → u' = u))
            (db_users db !! i) (db_users db' !! i)).


(** The listing [get_batch_students] answers with. *)
Definition ranked_roster (db : DB) (batch_id : positive) : list student_data :=
  stable_sort student_leb (roster_entries db batch_id).

(** The order of the sort keys, as a relation on the entries. *)
Definition student_le (a b : student_data) : Prop := student_leb a b = true.

(** [a] is not after [b] in the order of the exams query. *)
Definition exam_le (a b : MonthlyExam) : Prop := exam_order a b = true.

(** The database without the ranking rows whose position is NULL or 0. *)
Definition drop_unset_positions (db : DB) : DB :=
  mkDB (db_batches db) (db_users db) (db_user_batches db) (db_exams db)
       (filter (λ r, position_set r = true) (db_rankings db)).

(** The position a row writes for the user [i], if it writes one. *)
Definition written_for (i : positive) (r : MonthlyRanking) : option Z :=
  if bool_decide (mr_user_id r = i) && position_set r then mr_position r else None.

(** Ranked students first, by ascending rank; students without a rank after. *)
Definition rank_le (a b : option Z) : Prop :=
  match a, b with
  | Some x, Some y => x ≤ y
  | Some _, None => True
  | None, Some _ => False
  | None, None => True
  end.

(** What holds of a step that goes on ([ok]) or returns a response ([err]);
    a step that raises is left to the frame of the handler. *)
Definition flow_post {A} (m : flow A) (ok : A → Prop) (err : Response → Prop) : Prop :=
  match m with
  | Go a => ok a
  | Reply r => err r
  | Raise _ => True
  end.

(** [b'] has the dates and the fee of [b]. *)
Definition same_dates_fee (b b' : Batch) : Prop :=
  b_start_date b' = b_start_date b ∧ b_end_date b' = b_end_date b
  ∧ b_fee_amount b' = b_fee_amount b.

(** The response of the date-range check of [update_batch]. *)
Definition date_range_error : Response :=
  error_response "End date must be after start date" 400.

(** No two batches have the same name. *)
Definition names_unique (db : DB) : Prop :=
  ∀ i j b b', db_batches db !! i = Some b → db_batches db !! j = Some b' →
              b_name b = b_name b' → i = j.

(** [b'] differs from [b] in the name, the subject, the description and
    [updated_at] at most. *)
Definition update_frame (b b' : Batch) : Prop :=
  b' = batch_set_updated_at
         (batch_set_name
            (batch_set_description (batch_set_subject b (b_subject b'))
               (b_description b'))
            (b_name b'))
         (b_updated_at b').

(** The description has the form "<allowed class> - <allowed subject>". *)
Definition description_wf (b : Batch) : Prop :=
  ∃ c sj, in_list c allowed_classes = true ∧ in_list sj allowed_subjects = true
          ∧ b_description b = c +:+ " - " +:+ sj.

Definition descriptions_wf (db : DB) : Prop :=
  ∀ i b, db_batches db !! i = Some b → description_wf b.

(** ** Sample data *)

Definition sample_clock : nat → timestamp := λ n, 1000 + Z.of_nat n.

Definition sample_user (role : UserRole) (first_name : string) (active : bool) : User :=
  mkUser role "01700000000" first_name "Khan" "" "01800000000" "" 0
    active false None None None.

Definition sample_batch (name : string) : Batch :=
  mkBatch name "Physics" "Class 5 - Physics" (mkdate 2024 1 10) None
    dec_zero_2 50 "active" true false None None None 0 0.

(** A student who left: archived on its own, not with a batch. *)
Definition left_student : User :=
  user_set_archive (sample_user STUDENT "Chhaya" true) true (Some 500)
    (Some 9%positive) (Some "Left the coaching").

(** Batch 1 with the students 1 and 2, active and not archived, and the
    student 3, archived for a reason of its own; user 9 is the teacher. *)
Definition sample_db : DB :=
  mkDB {[ 1%positive := sample_batch "Physics A" ]}
       (<[ 1%positive := sample_user STUDENT "Anik" true ]>
        (<[ 2%positive := sample_user STUDENT "Bithi" true ]>
         (<[ 3%positive := left_student ]>
          {[ 9%positive := sample_user TEACHER "Rahim" true ]})))
       [(1, 1); (2, 1); (3, 1)]%positive [] [].



(** [sample_db] after batch 1 was archived by the teacher. *)
Definition sample_archived_db : DB :=
  (archive_batch sample_clock 9%positive sample_db 1%positive None).2.

(** Batch 1 with Anik (A), Bithi (B) and Chhaya (C), and the inactive Dipu.
    The latest exam of the batch is exam 2 (May 2024): A has the final
    position 3 and B the final position 1; C has a position that is not
    final, a final position 0, and a final position in the older exam 1. *)
Definition ranking_db : DB :=
  mkDB {[ 1%positive := sample_batch "Physics A" ]}
       (<[ 1%positive := sample_user STUDENT "Anik" true ]>
        (<[ 2%positive := sample_user STUDENT "Bithi" true ]>
         (<[ 3%positive := sample_user STUDENT "Chhaya" true ]>
          {[ 4%positive := sample_user STUDENT "Dipu" false ]})))
       [(1, 1); (2, 1); (3, 1); (4, 1)]%positive
       [mkExam 1 1 2023 12; mkExam 2 1 2024 5; mkExam 3 2 2025 1]
       [mkRanking 1 3 (Some 1) true; mkRanking 2 1 (Some 3) true;
        mkRanking 2 2 (Some 1) true; mkRanking 2 3 (Some 2) false;
        mkRanking 2 3 (Some 0) true].

(** Conversions for the examples: zero-padded [YYYY-MM-DD] dates up to the
    28th of a month, which [strptime] reads the same way, and integers as
    decimals. *)
Definition sample_strptime (s : string) : option date :=
  match s with
  | String y1 (String y2 (String y3 (String y4 (String sep1
      (String m1 (String m2 (String sep2 (String d1 (String d2 EmptyString))))))))) =>
      y1 ← digit y1; y2 ← digit y2; y3 ← digit y3; y4 ← digit y4;
      m1 ← digit m1; m2 ← digit m2; d1 ← digit d1; d2 ← digit d2;
      let y := 1000 * y1 + 100 * y2 + 10 * y3 + y4 in
      let m := 10 * m1 + m2 in
      let d := 10 * d1 + d2 in
      if (nat_of_ascii sep1 =? 45)%nat && (nat_of_ascii sep2 =? 45)%nat
         && (1 <=? y) && (1 <=? m) && (m <=? 12) && (1 <=? d) && (d <=? 28)
      then Some (mkdate y m d) else None
  | _ => None
  end.

Definition sample_decimal (v : json) : exn + Decimal :=
  match v with
  | JInt z => inr (mkdec (z <? 0) (Z.abs_N z) 0)
  | _ => inl (InvalidOperation "Invalid literal for Decimal")
  end.

(** The body of a creation request. *)
Definition creation (name class subject : string) : option (gmap string json) :=
  Some (<["name" := JStr name]> (<["class" := JStr class]>
         {["subject" := JStr subject]})).

(** Two batches created one after the other, then the first one renamed
    with a trailing blank. *)
Definition empty_db : DB := mkDB ∅ ∅ [] [] [].

Definition two_batches_db : DB :=
  (create_batch (mkdate 2024 1 10) 1
     (create_batch (mkdate 2024 1 10) 0 empty_db
        (creation "A" "Class 5" "Physics")).2
     (creation "B" "Class 5" "Physics")).2.

Definition renamed_db : DB :=
  (update_batch sample_strptime sample_decimal 2 two_batches_db 1%positive
     (Some {["name" := JStr "C "]})).2.

(** Two batches; Anik is on the roster of batch 1 only, the inactive Dipu on
    the rosters of both. *)
Definition two_students_db : DB :=
  mkDB (<[ 1%positive := sample_batch "Physics A" ]>
        {[ 2%positive := sample_batch "Physics B" ]})
       (<[ 1%positive := sample_user STUDENT "Anik" true ]>
        {[ 4%positive := sample_user STUDENT "Dipu" false ]})
       [(1, 1); (4, 1); (4, 2)]%positive [] [].

(** The batches of [two_students_db], the second created later, with the
    capacity 0 and a description without the separator, and a third one
    that is archived. *)
Definition capacity_db : DB :=
  mkDB (<[ 1%positive := sample_batch "Physics A" ]>
        (<[ 2%positive :=
              mkBatch "Physics B" "Physics" "Evening group" (mkdate 2024 1 10) None
                dec_zero_2 0 "active" true false None None None 5 5 ]>
         {[ 3%positive :=
              batch_set_archive (sample_batch "Physics C") true (Some 700)
                (Some 9%positive) (Some "Closed") ]}))
       (<[ 1%positive := sample_user STUDENT "Anik" true ]>
        {[ 4%positive := sample_user STUDENT "Dipu" false ]})
       [(1, 1); (4, 1); (4, 2)]%positive [] [].

(** The pages of the examples: [per_page] rows from the row
    [(page - 1) * per_page] on; and a pattern that every value matches. *)
Definition sample_paginate (page per_page : Z) (rows : list (positive * Batch))
    : list (positive * Batch) :=
  take (Z.to_nat per_page) (drop (Z.to_nat ((page - 1) * per_page)) rows).

Definition sample_ilike (pattern value : string) : bool := true.

(** * Properties *)

(** ** Python built-ins *)




Lemma role_eqb_eq (a b : UserRole) : role_eqb a b = true ↔ a = b.
Proof. destruct a, b; simpl; split; congruence. Qed.

(** ** The association table *)


Lemma elem_of_student_ids (db : DB) (batch_id i : positive) :
  i ∈ student_ids db batch_id ↔ (i, batch_id) ∈ db_user_batches db.
Proof.
  unfold student_ids. rewrite list_elem_of_fmap. split.
  - intros [[u b] [-> Hin]]. apply list_elem_of_filter in Hin as [Hb Hin].
    simpl in *. by subst b.
  - intros Hin. exists (i, batch_id). split; [done|].
    apply list_elem_of_filter. done.
Qed.

Lemma elem_of_batch_students (db : DB) (batch_id i : positive) (u : User) :
  (i, u) ∈ batch_students db batch_id ↔
  i ∈ student_ids db batch_id ∧ db_users db !! i = Some u.
Proof.
  unfold batch_students, load. rewrite list_elem_of_omap. split.
  - intros [j [Hj Hlk]]. destruct (db_users db !! j) as [u'|] eqn:E; simpl in Hlk; [|done].
    injection Hlk as -> ->. done.
  - intros [Hi Hlk]. exists i. split; [done|]. by rewrite Hlk.
Qed.

(** The guard of [add_student_to_batch] keeps the association table free of
    duplicate rows. *)
Lemma add_student_to_batch_NoDup db batch_id body :
  NoDup (db_user_batches db) →
  NoDup (db_user_batches (add_student_to_batch db batch_id body).2).
Proof.
  intros Hnd. unfold add_student_to_batch.
  destruct (db_batches db !! batch_id) as [batch|]; [|done].
  destruct body as [data|]; [|done]. cbn [mbind flow_bind].
  destruct (truthy (dict_get data "student_id")); [|done].
  cbn [negb reply_if mbind flow_bind].
  destruct (find_active_student db (dict_get data "student_id"))
    as [e|[[sid student]|]]; [done| |done]. cbn [lift mbind flow_bind].
  unfold enrolled. case_bool_decide as Hin; [done|]. simpl.
  apply NoDup_app. split; [done|]. split; [|apply NoDup_singleton].
  intros r Hr ->%list_elem_of_singleton. done.
Qed.

(** ** The archive cascade *)

Lemma cascaded_not_archivable cu n t u : archivable (cascaded cu n t u) = false.
Proof. done. Qed.


Lemma user_restored_cascaded cu n t u :
  user_restored (cascaded cu n t u) = user_restored u.
Proof. done. Qed.

Lemma bool_decide_elem_of_cons_ne (i j : positive) (ids : list positive) :
  i ≠ j → bool_decide (i ∈ j :: ids) = bool_decide (i ∈ ids).
Proof. intros Hne. apply bool_decide_ext. rewrite elem_of_cons. tauto. Qed.

Lemma bool_decide_elem_of_cons_eq (j : positive) (ids : list positive) :
  bool_decide (j ∈ j :: ids) = true.
Proof. apply bool_decide_eq_true. set_solver. Qed.

Lemma archive_students_lookup clock cu n ids :
  ∀ users count users' count',
    archive_students clock cu n ids users count = (users', count') →
    ∀ i, match users !! i with
         | None => users' !! i = None
         | Some u =>
             if bool_decide (i ∈ ids) && archivable u
             then ∃ t, users' !! i = Some (cascaded cu n t u)
             else users' !! i = Some u
         end.
Proof.
  induction ids as [|j ids IH]; intros users count users' count' Hrun i.
  - simpl in Hrun. injection Hrun as <- <-. by destruct (users !! i).
  - simpl in Hrun.
    destruct (users !! j) as [s|] eqn:Ej;
      [destruct (archivable s) eqn:Ea|];
      specialize (IH _ _ _ _ Hrun i);
      (destruct (decide (i = j)) as [->|Hne];
       [|rewrite bool_decide_elem_of_cons_ne by done]).
    + rewrite lookup_insert_eq in IH. fold (cascaded cu n (clock (S count)) s) in IH.
      rewrite cascaded_not_archivable, andb_false_r in IH.
      rewrite Ej, Ea, andb_true_r, bool_decide_elem_of_cons_eq. eauto.
    + by rewrite lookup_insert_ne in IH by done.
    + rewrite Ej in *. by rewrite Ea, andb_false_r in *.
    + done.
    + by rewrite Ej in *.
    + done.
Qed.

Lemma load_cons (users : gmap positive User) j ids :
  load users (j :: ids) =
  match users !! j with
  | Some u => (j, u) :: load users ids
  | None => load users ids
  end.
Proof. unfold load. simpl. by destruct (users !! j). Qed.



Lemma user_restored_not_restorable n u : restorable n (user_restored u) = false.
Proof. done. Qed.

Lemma restore_students_loop_lookup n ids :
  ∀ users count users' count',
    restore_students_loop n ids users count = (users', count') →
    ∀ i, users' !! i =
         (λ u, if bool_decide (i ∈ ids) && restorable n u
               then user_restored u else u) <$> users !! i.
Proof.
  induction ids as [|j ids IH]; intros users count users' count' Hrun i.
  - simpl in Hrun. injection Hrun as <- <-. by destruct (users !! i).
  - simpl in Hrun.
    destruct (users !! j) as [s|] eqn:Ej;
      [destruct (restorable n s) eqn:Er|];
      rewrite (IH _ _ _ _ Hrun i);
      (destruct (decide (i = j)) as [->|Hne];
       [rewrite bool_decide_elem_of_cons_eq
       |rewrite bool_decide_elem_of_cons_ne by done]).
    + rewrite lookup_insert_eq, Ej. simpl.
      fold (user_restored s).
      by rewrite user_restored_not_restorable, andb_false_r, Er.
    + by rewrite lookup_insert_ne by done.
    + rewrite Ej. simpl. by rewrite Er, andb_false_r.
    + done.
    + by rewrite Ej.
    + done.
Qed.








(** ** What archive and restore leave alone *)

Lemma archive_frame_refl batch_id db : archive_frame batch_id db db.
Proof.
  repeat split; intros i.
  - destruct (db_batches db !! i) as [b|]; constructor.
    repeat split. by destruct b.
  - destruct (db_users db !! i) as [u|]; constructor.
    repeat split. by destruct u.
Qed.

Lemma batch_set_archive_frame b flag at_ by_ reason :
  batch_archive_frame b (batch_set_archive b flag at_ by_ reason).
Proof. done. Qed.

Lemma user_set_archive_frame u flag at_ by_ reason :
  user_archive_frame u (user_set_archive u flag at_ by_ reason).
Proof. done. Qed.

Lemma user_archive_frame_refl u : user_archive_frame u u.
Proof. by destruct u. Qed.

Lemma batch_archive_frame_refl b : batch_archive_frame b b.
Proof. by destruct b. Qed.

Lemma archive_frame_batches batch_id batch db flag at_ by_ reason i :
  db_batches db !! batch_id = Some batch →
  option_Forall2
    (λ b b', b_is_active b' = b_is_active b ∧ batch_archive_frame b b'
             ∧ (i ≠ batch_id → b' = b))
    (db_batches db !! i)
    (<[batch_id := batch_set_archive batch flag at_ by_ reason]> (db_batches db) !! i).
Proof.
  intros Hb. destruct (decide (i = batch_id)) as [->|Hne].
  - rewrite lookup_insert_eq, Hb. constructor. repeat split. done.
  - rewrite lookup_insert_ne by done.
    destruct (db_batches db !! i) as [b|]; constructor.
    repeat split. apply batch_archive_frame_refl.
Qed.

Lemma archive_batch_frame clock cu db batch_id body :
  archive_frame batch_id db (archive_batch clock cu db batch_id body).2.
Proof.
  unfold archive_batch.
  destruct (db_batches db !! batch_id) as [batch|] eqn:Hb;
    [|apply archive_frame_refl].
  simpl. destruct (b_is_archived batch); [apply archive_frame_refl|]. simpl.
  destruct (text_column _) as [e|reason]; [apply archive_frame_refl|]. simpl.
  destruct (archive_students clock cu (b_name batch) (student_ids db batch_id)
              (db_users db) 0) as [users' n] eqn:Hrun.
  simpl. repeat split; simpl.
  - intros i. by apply archive_frame_batches.
  - intros i. pose proof (archive_students_lookup _ _ _ _ _ _ _ _ Hrun i) as Hi.
    destruct (db_users db !! i) as [u|]; [|rewrite Hi; constructor].
    destruct (bool_decide (i ∈ student_ids db batch_id)) eqn:Hin; simpl in Hi.
    + destruct (archivable u).
      * destruct Hi as [t ->]. constructor. repeat split.
        intros Hnot. by apply bool_decide_eq_true in Hin.
      * rewrite Hi. constructor. repeat split. apply user_archive_frame_refl.
    + rewrite Hi. constructor. repeat split. apply user_archive_frame_refl.
Qed.

Lemma restore_batch_frame db batch_id body :
  archive_frame batch_id db (restore_batch db batch_id body).2.
Proof.
  unfold restore_batch.
  destruct (db_batches db !! batch_id) as [batch|] eqn:Hb;
    [|apply archive_frame_refl].
  simpl. destruct (b_is_archived batch); [|apply archive_frame_refl]. simpl.
  destruct (truthy _).
  - destruct (restore_students_loop (b_name batch) (student_ids db batch_id)
                (db_users db) 0) as [users' n] eqn:Hrun.
    simpl. repeat split; simpl.
    + intros i. by apply archive_frame_batches.
    + intros i. rewrite (restore_students_loop_lookup _ _ _ _ _ _ Hrun i).
      destruct (db_users db !! i) as [u|]; constructor.
      destruct (bool_decide (i ∈ student_ids db batch_id)) eqn:Hin; simpl.
      * destruct (restorable (b_name batch) u); repeat split;
          try apply user_archive_frame_refl;
          intros Hnot; by apply bool_decide_eq_true in Hin.
      * repeat split. apply user_archive_frame_refl.
  - simpl. repeat split; simpl.
    + intros i. by apply archive_frame_batches.
    + intros i. destruct (db_users db !! i) as [u|]; constructor.
      repeat split. apply user_archive_frame_refl.
Qed.

(** C9: [archive_batch] and [restore_batch] never change the [is_active]
    flag of the batch or of a user: from the database before to the database
    after, only the archive columns (is_archived, archived_at, archived_by,
    archive_reason) of the batch and of the students of its roster can
    differ; other batches, other users, the enrollments, the exams and the
    rankings are the same. *)
Theorem archive_restore_frame clock cu db batch_id body :
  archive_frame batch_id db (archive_batch clock cu db batch_id body).2
  ∧ archive_frame batch_id db (restore_batch db batch_id body).2.
Proof. split; [apply archive_batch_frame | apply restore_batch_frame]. Qed.

(** ** Restore, and the round trip of archive and restore *)
















(** ** The stable sort *)

Section StableSortFacts.
Context {A : Type} (leb : A → A → bool).
Hypothesis leb_total : ∀ x y, leb x y = false → leb y x = true.
Hypothesis leb_trans : ∀ x y z, leb x y = true → leb y z = true → leb x z = true.

Lemma insert_sorted_perm x l : insert_sorted leb x l ≡ₚ x :: l.
Proof.
  induction l as [|y l IH]; simpl; [done|].
  destruct (leb x y); [done|]. rewrite IH. apply Permutation_swap.
Qed.

Lemma stable_sort_perm l : stable_sort leb l ≡ₚ l.
Proof.
  induction l as [|x l IH]; simpl; [done|].
  by rewrite insert_sorted_perm, IH.
Qed.

Lemma insert_sorted_sorted x l :
  StronglySorted (λ a b, leb a b = true) l →
  StronglySorted (λ a b, leb a b = true) (insert_sorted leb x l).
Proof.
  induction l as [|y l IH]; intros Hs; simpl.
  - repeat constructor.
  - apply StronglySorted_cons in Hs as [Hy Hs].
    destruct (leb x y) eqn:Exy.
    + apply StronglySorted_cons. split.
      * constructor; [done|].
        eapply Forall_impl; [exact Hy|]. intros z Hz. by eapply leb_trans.
      * by apply StronglySorted_cons.
    + apply StronglySorted_cons. split; [|by apply IH].
      rewrite insert_sorted_perm. constructor; [by apply leb_total | done].
Qed.

Lemma stable_sort_sorted l :
  StronglySorted (λ a b, leb a b = true) (stable_sort leb l).
Proof.
  induction l as [|x l IH]; simpl; [constructor|].
  by apply insert_sorted_sorted.
Qed.

(** Entries that the order does not tell apart keep their order. *)
Lemma insert_sorted_stable (P : A → Prop) `{∀ x, Decision (P x)} x l :
  (∀ y, P x → P y → leb x y = true) →
  filter P (insert_sorted leb x l) = filter P (x :: l).
Proof.
  intros Hk. induction l as [|y l IH]; simpl; [done|].
  destruct (leb x y) eqn:Exy; [done|].
  rewrite filter_cons, IH, !filter_cons.
  destruct (decide (P y)) as [Hy|Hy]; [|done].
  destruct (decide (P x)) as [Hx|Hx]; [|done].
  rewrite Hk in Exy; done.
Qed.

Lemma stable_sort_stable (P : A → Prop) `{∀ x, Decision (P x)} l :
  (∀ x y, P x → P y → leb x y = true) →
  filter P (stable_sort leb l) = filter P l.
Proof.
  intros Hk. induction l as [|x l IH]; simpl; [done|].
  rewrite insert_sorted_stable by auto.
  by rewrite !filter_cons, IH.
Qed.

Lemma stable_sort_head l x :
  head (stable_sort leb l) = Some x →
  x ∈ l ∧ ∀ y, y ∈ l → y = x ∨ leb x y = true.
Proof.
  intros Hh. pose proof (stable_sort_sorted l) as Hs.
  pose proof (stable_sort_perm l) as Hp.
  destruct (stable_sort leb l) as [|z l'] eqn:E; [done|].
  injection Hh as ->. apply StronglySorted_cons in Hs as [Hx _].
  split.
  - rewrite <- Hp. by apply elem_of_cons; left.
  - intros y Hy. rewrite <- Hp in Hy. apply elem_of_cons in Hy as [->|Hy].
    + by left.
    + right. by apply (proj1 (Forall_forall _ _) Hx).
Qed.

Lemma stable_sort_head_None l : head (stable_sort leb l) = None ↔ l = [].
Proof.
  pose proof (stable_sort_perm l) as Hp. split.
  - intros Hh. destruct (stable_sort leb l) as [|z l'] eqn:E; [|done].
    by apply Permutation_nil_l in Hp.
  - by intros ->.
Qed.

End StableSortFacts.

(** ** The ranked roster *)

Lemma key_leb_total a b : key_leb a b = false → key_leb b a = true.
Proof.
  destruct a as [[] x], b as [[] y]; unfold key_leb; simpl; try done;
    intros H%Z.leb_gt; apply Z.leb_le; lia.
Qed.

Lemma key_leb_trans a b c :
  key_leb a b = true → key_leb b c = true → key_leb a c = true.
Proof.
  destruct a as [[] x], b as [[] y], c as [[] z]; unfold key_leb; simpl;
    try done; intros H1%Z.leb_le H2%Z.leb_le; apply Z.leb_le; lia.
Qed.

Lemma key_leb_refl a : key_leb a a = true.
Proof. destruct a as [[] x]; unfold key_leb; simpl; apply Z.leb_le; lia. Qed.

Lemma student_leb_total a b : student_leb a b = false → student_leb b a = true.
Proof. apply key_leb_total. Qed.

Lemma student_leb_trans a b c :
  student_leb a b = true → student_leb b c = true → student_leb a c = true.
Proof. apply key_leb_trans. Qed.

Lemma exam_order_total a b : exam_order a b = false → exam_order b a = true.
Proof.
  unfold exam_order. intros H.
  apply orb_false_iff in H as [H1%Z.ltb_ge H2].
  apply orb_true_iff.
  destruct (Z.ltb_spec (me_year a) (me_year b)); [by left|right].
  apply andb_false_iff in H2 as [H2%Z.eqb_neq|H2%Z.leb_gt]; [lia|].
  apply andb_true_iff. split; [apply Z.eqb_eq | apply Z.leb_le]; lia.
Qed.

Lemma exam_order_spec a b :
  exam_order a b = true ↔
  me_year b < me_year a ∨ (me_year b = me_year a ∧ me_month b ≤ me_month a).
Proof.
  unfold exam_order.
  rewrite orb_true_iff, andb_true_iff, Z.ltb_lt, Z.eqb_eq, Z.leb_le. done.
Qed.

Lemma exam_order_trans a b c :
  exam_order a b = true → exam_order b c = true → exam_order a c = true.
Proof. rewrite !exam_order_spec. lia. Qed.

Lemma fill_rank_map_snoc rs r :
  fill_rank_map (rs ++ [r]) = rank_step (fill_rank_map rs) r.
Proof. unfold fill_rank_map. by rewrite foldl_snoc. Qed.

(** Last write wins. *)
Lemma fill_rank_map_lookup rs i :
  fill_rank_map rs !! i = last (omap (written_for i) rs).
Proof.
  induction rs as [|r rs IH] using rev_ind; [done|].
  rewrite fill_rank_map_snoc, omap_app. simpl.
  unfold rank_step, written_for, position_set.
  destruct (mr_position r) as [p|]; simpl.
  - destruct (p =? 0) eqn:Ep; simpl.
    + rewrite andb_false_r, app_nil_r. done.
    + destruct (decide (mr_user_id r = i)) as [->|Hne].
      * rewrite lookup_insert_eq, bool_decide_eq_true_2 by done. simpl.
        by rewrite last_snoc.
      * rewrite lookup_insert_ne, bool_decide_eq_false_2 by done. simpl.
        by rewrite app_nil_r.
  - rewrite andb_false_r, app_nil_r. done.
Qed.

Lemma fill_rank_map_Some rs i p :
  fill_rank_map rs !! i = Some p →
  ∃ r, r ∈ rs ∧ mr_user_id r = i ∧ mr_position r = Some p ∧ p ≠ 0.
Proof.
  rewrite fill_rank_map_lookup. intros Hl.
  assert (p ∈ omap (written_for i) rs) as Hin.
  { destruct (omap (written_for i) rs) as [|x l] using rev_ind; [done|].
    rewrite last_snoc in Hl. injection Hl as ->.
    apply elem_of_app. right. by apply list_elem_of_singleton. }
  apply list_elem_of_omap in Hin as [r [Hr Hw]]. exists r. split; [done|].
  unfold written_for, position_set in Hw.
  destruct (bool_decide (mr_user_id r = i)) eqn:Eu; [|done].
  apply bool_decide_eq_true in Eu. simpl in Hw.
  destruct (mr_position r) as [q|]; [|done].
  destruct (q =? 0) eqn:Eq; simpl in Hw; [done|].
  injection Hw as ->. apply Z.eqb_neq in Eq. done.
Qed.

Lemma fill_rank_map_None rs i :
  (∀ r, r ∈ rs → mr_user_id r = i → position_set r = false) →
  fill_rank_map rs !! i = None.
Proof.
  intros Hun. rewrite fill_rank_map_lookup.
  assert (omap (written_for i) rs = []) as ->; [|done].
  induction rs as [|r rs IH]; [done|]. simpl.
  assert (written_for i r = None) as ->.
  { unfold written_for. destruct (decide (mr_user_id r = i)) as [Hi|Hi].
    - rewrite (Hun r), andb_false_r; [done| |done]. by apply elem_of_cons; left.
    - by rewrite bool_decide_eq_false_2. }
  apply IH. intros r' Hr'. apply Hun. by apply elem_of_cons; right.
Qed.

Lemma fill_rank_map_filter rs :
  fill_rank_map (filter (λ r, position_set r = true) rs) = fill_rank_map rs.
Proof.
  induction rs as [|r rs IH] using rev_ind; [done|].
  rewrite filter_app, filter_cons, filter_nil.
  case_decide as Hp.
  - by rewrite !fill_rank_map_snoc, IH.
  - rewrite app_nil_r, fill_rank_map_snoc, IH.
    unfold rank_step. unfold position_set in Hp.
    destruct (mr_position r) as [p|]; [|done].
    by destruct (negb (p =? 0)).
Qed.

Lemma most_recent_exam_spec db batch_id :
  match most_recent_exam db batch_id with
  | Some e =>
      e ∈ db_exams db ∧ me_batch_id e = batch_id
      ∧ ∀ e', e' ∈ db_exams db → me_batch_id e' = batch_id →
              me_year e' < me_year e
              ∨ (me_year e' = me_year e ∧ me_month e' ≤ me_month e)
  | None => ∀ e', e' ∈ db_exams db → me_batch_id e' ≠ batch_id
  end.
Proof.
  unfold most_recent_exam.
  destruct (head _) as [e|] eqn:Hh.
  - apply (stable_sort_head _ exam_order_total exam_order_trans) in Hh as [Hin Hmax].
    apply list_elem_of_filter in Hin as [Hb Hin]. repeat split; [done..|].
    intros e' Hin' Hb'.
    destruct (Hmax e') as [->|Hle].
    + by apply list_elem_of_filter.
    + lia.
    + by apply exam_order_spec in Hle.
  - apply stable_sort_head_None in Hh. intros e' Hin' Hb'.
    assert (e' ∈ filter (λ e, me_batch_id e = batch_id) (db_exams db)) as Hf
      by by apply list_elem_of_filter.
    rewrite Hh in Hf. by apply not_elem_of_nil in Hf.
Qed.

Lemma rank_map_of_Some db batch_id i p :
  rank_map_of db batch_id !! i = Some p →
  p ≠ 0 ∧
  ∃ e r, most_recent_exam db batch_id = Some e ∧ r ∈ db_rankings db
         ∧ mr_monthly_exam_id r = me_id e ∧ mr_is_final r = true
         ∧ mr_user_id r = i ∧ mr_position r = Some p.
Proof.
  unfold rank_map_of. destruct (most_recent_exam db batch_id) as [e|]; [|done].
  intros (r & Hr & Hu & Hp & Hnz)%fill_rank_map_Some. split; [done|].
  apply list_elem_of_filter in Hr as [[He Hf] Hr]. by exists e, r.
Qed.

Lemma roster_entry_rank db batch_id s :
  s ∈ roster_entries db batch_id →
  sd_current_rank s = rank_map_of db batch_id !! sd_id s
  ∧ sd_roll_number s = rank_map_of db batch_id !! sd_id s
  ∧ sd_current_rank s ≠ Some 0.
Proof.
  unfold roster_entries. intros [[i u] [-> Hin]]%list_elem_of_fmap. simpl.
  repeat split. intros Hz. by apply rank_map_of_Some in Hz as [Hz _].
Qed.

Lemma student_leb_rank_le a b :
  sd_current_rank a ≠ Some 0 → sd_current_rank b ≠ Some 0 →
  student_leb a b = true ↔ rank_le (sd_current_rank a) (sd_current_rank b).
Proof.
  unfold student_leb, sort_key, key_leb, rank_le.
  destruct (sd_current_rank a) as [x|], (sd_current_rank b) as [y|]; simpl;
    intros Ha Hb; try done.
  - destruct (Z.eqb_spec x 0); [congruence|].
    destruct (Z.eqb_spec y 0); [congruence|]. apply Z.leb_le.
Qed.

Lemma student_leb_same_rank a b :
  sd_current_rank a = sd_current_rank b → student_leb a b = true.
Proof.
  unfold student_leb, sort_key. intros ->. apply key_leb_refl.
Qed.

Lemma StronglySorted_impl_elem {A} (R R' : A → A → Prop) (l : list A) :
  (∀ a b, a ∈ l → b ∈ l → R a b → R' a b) →
  StronglySorted R l → StronglySorted R' l.
Proof.
  induction l as [|x l IH]; intros Himp Hs; [constructor|].
  apply StronglySorted_cons in Hs as [Hx Hs]. apply StronglySorted_cons. split.
  - apply Forall_forall. intros y Hy. apply Himp.
    + by apply elem_of_cons; left.
    + by apply elem_of_cons; right.
    + by apply (proj1 (Forall_forall _ _) Hx).
  - apply IH; [|done]. intros a b Ha Hb. apply Himp; by apply elem_of_cons; right.
Qed.

Lemma ranked_roster_perm db batch_id :
  ranked_roster db batch_id ≡ₚ roster_entries db batch_id.
Proof. apply stable_sort_perm. Qed.

Lemma ranked_roster_sorted db batch_id :
  StronglySorted (λ a b, rank_le (sd_current_rank a) (sd_current_rank b))
    (ranked_roster db batch_id).
Proof.
  apply (StronglySorted_impl_elem (λ a b, student_leb a b = true)).
  - intros a b Ha Hb Hle. rewrite ranked_roster_perm in Ha, Hb.
    apply roster_entry_rank in Ha as (_ & _ & Ha).
    apply roster_entry_rank in Hb as (_ & _ & Hb).
    by apply student_leb_rank_le.
  - apply stable_sort_sorted; [apply student_leb_total | apply student_leb_trans].
Qed.

Lemma ranked_roster_stable db batch_id (k : option Z) :
  filter (λ s, sd_current_rank s = k) (ranked_roster db batch_id) =
  filter (λ s, sd_current_rank s = k) (roster_entries db batch_id).
Proof.
  apply stable_sort_stable. intros a b Ha Hb.
  apply student_leb_same_rank. congruence.
Qed.

Lemma get_batch_students_run db batch_id batch :
  db_batches db !! batch_id = Some batch →
  get_batch_students db batch_id =
    (success_response "Batch students retrieved"
       (StudentsPayload (ranked_roster db batch_id)) 200, db).
Proof. intros Hb. unfold get_batch_students. by rewrite Hb. Qed.

(** C5: for an existing batch, the roster listing takes the exam of the
    batch with the latest (year, month), builds the rank map from the final
    rankings of that exam only (the last row that gives a student a position
    decides), and answers with the active students of the
    batch, each with its rank from the map, sorted so that ranked students
    come first by ascending rank and the students without a rank after them,
    students of equal rank (and the students without a rank) in their
    original order.  Three students A (rank 3), B (rank 1) and C (no rank)
    are listed as B, A, C. *)
Theorem get_batch_students_ranked db batch_id batch :
  db_batches db !! batch_id = Some batch →
  get_batch_students db batch_id =
    (success_response "Batch students retrieved"
       (StudentsPayload (ranked_roster db batch_id)) 200, db)
  ∧ match most_recent_exam db batch_id with
    | Some e =>
        e ∈ db_exams db ∧ me_batch_id e = batch_id
        ∧ ∀ e', e' ∈ db_exams db → me_batch_id e' = batch_id →
                me_year e' < me_year e
                ∨ (me_year e' = me_year e ∧ me_month e' ≤ me_month e)
    | None => ∀ e', e' ∈ db_exams db → me_batch_id e' ≠ batch_id
    end
  ∧ (∀ i p, rank_map_of db batch_id !! i = Some p →
            ∃ e r, most_recent_exam db batch_id = Some e ∧ r ∈ db_rankings db
                   ∧ mr_monthly_exam_id r = me_id e ∧ mr_is_final r = true
                   ∧ mr_user_id r = i ∧ mr_position r = Some p)
  ∧ (∀ i, rank_map_of db batch_id !! i =
          match most_recent_exam db batch_id with
          | Some e => last (omap (written_for i) (final_rankings db (me_id e)))
          | None => None
          end)
  ∧ roster_entries db batch_id =
      (λ s, mkStudentData s.1 s.2 (rank_map_of db batch_id !! s.1)
              (rank_map_of db batch_id !! s.1))
        <$> filter (λ s, u_is_active s.2 = true) (batch_students db batch_id)
  ∧ ranked_roster db batch_id ≡ₚ roster_entries db batch_id
  ∧ StronglySorted (λ a b, rank_le (sd_current_rank a) (sd_current_rank b))
      (ranked_roster db batch_id)
  ∧ (∀ k : option Z,
       filter (λ s, sd_current_rank s = k) (ranked_roster db batch_id) =
       filter (λ s, sd_current_rank s = k) (roster_entries db batch_id))
  ∧ (∀ a b c,
       roster_entries db batch_id = [a; b; c] →
       sd_current_rank a = Some 3 → sd_current_rank b = Some 1 →
       sd_current_rank c = None →
       ranked_roster db batch_id = [b; a; c]).
Proof.
  intros Hb. split; [by eapply get_batch_students_run|].
  split; [apply most_recent_exam_spec|].
  split; [intros i p Hp; by apply rank_map_of_Some in Hp as [_ Hp]|].
  split.
  { intros i. unfold rank_map_of.
    destruct (most_recent_exam db batch_id); [apply fill_rank_map_lookup|done]. }
  split; [done|].
  split; [apply ranked_roster_perm|].
  split; [apply ranked_roster_sorted|].
  split; [apply ranked_roster_stable|].
  intros a b c Hl Ha Hbr Hc. unfold ranked_roster. rewrite Hl.
  assert (student_leb b c = true) as Hbc
    by (unfold student_leb, sort_key; by rewrite Hbr, Hc).
  assert (student_leb a b = false) as Hab
    by (unfold student_leb, sort_key; by rewrite Ha, Hbr).
  assert (student_leb a c = true) as Hac
    by (unfold student_leb, sort_key; by rewrite Ha, Hc).
  cbn [stable_sort insert_sorted]. rewrite Hbc. cbn [insert_sorted].
  by rewrite Hab, Hac.
Qed.

Lemma get_batch_students_ranked_witness :
  get_batch_students ranking_db 1%positive =
    (success_response "Batch students retrieved"
       (StudentsPayload (ranked_roster ranking_db 1%positive)) 200, ranking_db)
  ∧ sd_id <$> ranked_roster ranking_db 1%positive = [2; 1; 3]%positive
  ∧ sd_current_rank <$> ranked_roster ranking_db 1%positive = [Some 1; Some 3; None].
Proof.
  split.
  - apply (get_batch_students_ranked ranking_db 1%positive (sample_batch "Physics A")).
    reflexivity.
  - split; vm_compute; reflexivity.
Defined.

(** ** Rankings without a position *)

Lemma rank_map_of_drop_unset db batch_id :
  rank_map_of (drop_unset_positions db) batch_id = rank_map_of db batch_id.
Proof.
  unfold rank_map_of.
  change (most_recent_exam (drop_unset_positions db) batch_id)
    with (most_recent_exam db batch_id).
  destruct (most_recent_exam db batch_id) as [e|]; [|done].
  unfold final_rankings, drop_unset_positions. simpl.
  rewrite <- (fill_rank_map_filter (filter _ (db_rankings db))).
  f_equal. rewrite !list_filter_filter. apply list_filter_iff. tauto.
Qed.

Lemma ranked_roster_drop_unset db batch_id :
  ranked_roster (drop_unset_positions db) batch_id = ranked_roster db batch_id.
Proof.
  unfold ranked_roster, roster_entries.
  rewrite rank_map_of_drop_unset. done.
Qed.

Lemma rank_map_of_None db batch_id i :
  (∀ e r, most_recent_exam db batch_id = Some e →
          r ∈ final_rankings db (me_id e) → mr_user_id r = i →
          position_set r = false) →
  rank_map_of db batch_id !! i = None.
Proof.
  intros Hun. unfold rank_map_of.
  destruct (most_recent_exam db batch_id) as [e|]; [|done].
  apply fill_rank_map_None. intros r Hr Hi. by apply (Hun e r).
Qed.

(** C10: a final ranking whose position is 0 or NULL puts nothing into the
    rank map: the listing is the one of the database without these rows,
    and a student whose final rankings in the latest exam all lack a
    position has no roll_number and no current_rank in the response and
    is followed by students without a rank only. *)
Theorem unset_position_is_unranked db batch_id :
  (get_batch_students (drop_unset_positions db) batch_id).1 =
    (get_batch_students db batch_id).1
  ∧ ∀ i,
      (∀ e r, most_recent_exam db batch_id = Some e →
              r ∈ final_rankings db (me_id e) → mr_user_id r = i →
              position_set r = false) →
      rank_map_of db batch_id !! i = None
      ∧ ∀ l1 s l2,
          ranked_roster db batch_id = l1 ++ s :: l2 → sd_id s = i →
          sd_roll_number s = None ∧ sd_current_rank s = None
          ∧ Forall (λ s', sd_current_rank s' = None) l2.
Proof.
  split.
  - destruct (db_batches db !! batch_id) as [batch|] eqn:Hb.
    + rewrite (get_batch_students_run db batch_id batch Hb).
      rewrite (get_batch_students_run (drop_unset_positions db) batch_id batch Hb).
      simpl. by rewrite ranked_roster_drop_unset.
    + unfold get_batch_students.
      change (db_batches (drop_unset_positions db)) with (db_batches db).
      by rewrite Hb.
  - intros i Hun. pose proof (rank_map_of_None db batch_id i Hun) as Hnone.
    split; [done|]. intros l1 s l2 Hl Hi.
    assert (s ∈ roster_entries db batch_id) as Hs.
    { rewrite <- ranked_roster_perm, Hl. apply elem_of_app. right.
      by apply elem_of_cons; left. }
    apply roster_entry_rank in Hs as (Hrank & Hroll & _).
    rewrite Hi, Hnone in Hrank, Hroll. split; [done|]. split; [done|].
    pose proof (ranked_roster_sorted db batch_id) as Hsorted.
    rewrite Hl in Hsorted. apply StronglySorted_app in Hsorted as (_ & _ & Hsorted).
    apply StronglySorted_cons in Hsorted as [Hafter _].
    eapply Forall_impl; [exact Hafter|]. intros s' Hle. simpl in Hle.
    rewrite Hrank in Hle. by destruct (sd_current_rank s').
Qed.

Lemma unset_position_is_unranked_witness :
  rank_map_of ranking_db 1%positive !! 3%positive = None
  ∧ ∀ l1 s l2,
      ranked_roster ranking_db 1%positive = l1 ++ s :: l2 → sd_id s = 3%positive →
      sd_roll_number s = None ∧ sd_current_rank s = None
      ∧ Forall (λ s', sd_current_rank s' = None) l2.
Proof.
  apply (proj2 (unset_position_is_unranked ranking_db 1%positive) 3%positive).
  intros e r He Hr Hu.
  assert (Forall (λ r, mr_user_id r = 3%positive → position_set r = false)
            (final_rankings ranking_db 2%positive)) as Hall.
  { apply (bool_decide_unpack _). vm_compute. exact I. }
  injection He as <-.
  apply (proj1 (Forall_forall _ _) Hall r Hr Hu).
Defined.

(** ** Deletion *)

(** C6: a batch with an active enrolled student cannot be deleted: the
    answer is an error that gives the number of active students of its
    roster, and nothing changes; a batch without an active student, with
    students that are not active or with none, is deleted: its enrollment
    rows are cleared and the batch row is removed, and nothing else
    changes. *)
Theorem delete_batch_guarded db batch_id batch :
  db_batches db !! batch_id = Some batch →
  ((∃ i u, (i, batch_id) ∈ db_user_batches db ∧ db_users db !! i = Some u
           ∧ u_is_active u = true) →
   delete_batch db batch_id =
     (error_response
        ("Cannot delete batch with "
         +:+ pretty (length (filter (λ s, u_is_active s.2 = true)
                               (batch_students db batch_id)))
         +:+ " active students. Please remove students first.") 400,
      db)
   ∧ (0 < length (filter (λ s, u_is_active s.2 = true)
                    (batch_students db batch_id)))%nat)
  ∧ ((∀ i u, (i, batch_id) ∈ db_user_batches db → db_users db !! i = Some u →
             u_is_active u = false) →
     delete_batch db batch_id =
       (success_response
          ("Batch " +:+ dquote +:+ b_name batch +:+ dquote
           +:+ " deleted permanently") NoPayload 200,
        mkDB (delete batch_id (db_batches db)) (db_users db)
          (filter (λ r, r.2 ≠ batch_id) (db_user_batches db))
          (db_exams db) (db_rankings db))).
Proof.
  intros Hb. unfold delete_batch, active_students. rewrite Hb. split.
  - intros (i & u & Hin & Hu & Hact).
    assert ((i, u) ∈ filter (λ s, u_is_active s.2 = true)
                       (batch_students db batch_id)) as Hel.
    { apply list_elem_of_filter. split; [done|].
      apply elem_of_batch_students. by rewrite elem_of_student_ids. }
    destruct (filter (λ s, u_is_active s.2 = true) (batch_students db batch_id))
      as [|s l] eqn:Hf; [by apply elem_of_nil in Hel|].
    rewrite bool_decide_eq_false_2 by done. split; [done|simpl; lia].
  - intros Hnone.
    assert (filter (λ s, u_is_active s.2 = true) (batch_students db batch_id) = [])
      as ->.
    { destruct (filter (λ s, u_is_active s.2 = true) (batch_students db batch_id))
        as [|[i u] l] eqn:Hf; [done|].
      assert ((i, u) ∈ filter (λ s, u_is_active s.2 = true)
                         (batch_students db batch_id)) as Hel
        by (rewrite Hf; apply elem_of_cons; by left).
      apply list_elem_of_filter in Hel as [Hact Hin]. simpl in Hact.
      apply elem_of_batch_students in Hin as [Hin Hu].
      apply elem_of_student_ids in Hin.
      by rewrite (Hnone i u Hin Hu) in Hact. }
    rewrite bool_decide_eq_true_2 by done. done.
Qed.

Lemma delete_batch_guarded_witness :
  delete_batch two_students_db 1%positive =
    (error_response
       "Cannot delete batch with 1 active students. Please remove students first."
       400, two_students_db)
  ∧ batch_students two_students_db 2%positive =
      [(4%positive, sample_user STUDENT "Dipu" false)]
  ∧ delete_batch two_students_db 2%positive =
      (success_response
         ("Batch " +:+ dquote +:+ "Physics B" +:+ dquote +:+ " deleted permanently")
         NoPayload 200,
       mkDB {[ 1%positive := sample_batch "Physics A" ]}
         (db_users two_students_db) [(1, 1); (4, 1)]%positive [] []).
Proof.
  split; [|split; [vm_compute; reflexivity|]].
  - refine (proj1 (proj1 (delete_batch_guarded two_students_db 1%positive
                            (sample_batch "Physics A") eq_refl) _)).
    exists 1%positive, (sample_user STUDENT "Anik" true).
    split; [|split; reflexivity].
    apply (bool_decide_unpack _). vm_compute. exact I.
  - assert (mkDB {[ 1%positive := sample_batch "Physics A" ]}
              (db_users two_students_db) [(1, 1); (4, 1)]%positive [] []
            = mkDB (delete 2%positive (db_batches two_students_db))
                (db_users two_students_db)
                (filter (λ r, r.2 ≠ 2%positive) (db_user_batches two_students_db))
                (db_exams two_students_db) (db_rankings two_students_db)) as ->
      by (vm_compute; reflexivity).
    refine (proj2 (delete_batch_guarded two_students_db 2%positive
                     (sample_batch "Physics B") eq_refl) _).
    intros i u Hin Hu.
    assert (i = 4%positive) as ->.
    { assert (Forall (λ r, r.2 = 2%positive → r.1 = 4%positive)
                (db_user_batches two_students_db)) as Hall
        by (repeat constructor; simpl; congruence).
      apply (proj1 (Forall_forall _ _) Hall _ Hin). reflexivity. }
    vm_compute in Hu. by injection Hu as <-.
Defined.

(** ** Enrollment *)

(** C8: adding an active student that is already enrolled in the batch is
    answered with the conflict 409, and removing a student that is not
    enrolled in the batch is answered with 404; neither changes the roster
    or anything else. *)
Theorem enrollment_guards db batch_id student_id student :
  db_users db !! student_id = Some student →
  u_role student = STUDENT →
  (∀ batch data,
     db_batches db !! batch_id = Some batch →
     u_is_active student = true →
     (student_id, batch_id) ∈ db_user_batches db →
     data !! "student_id" = Some (JInt (Z.pos student_id)) →
     add_student_to_batch db batch_id (Some data) =
       (error_response "Student is already enrolled in this batch" 409, db))
  ∧ ((student_id, batch_id) ∉ db_user_batches db →
     remove_student_from_batch db batch_id student_id =
       (error_response
          (match db_batches db !! batch_id with
           | Some _ => "Student is not enrolled in this batch"
           | None => "Batch not found"
           end)
          404, db)).
Proof.
  intros Hu Hrole. split.
  - intros batch data Hb Hact Hin Hid.
    unfold add_student_to_batch. rewrite Hb. simpl.
    unfold dict_get. rewrite Hid. simpl.
    unfold find_active_student. simpl. rewrite Hu. simpl.
    rewrite Hrole, Hact. simpl.
    unfold enrolled. by rewrite bool_decide_eq_true_2.
  - intros Hnot. unfold remove_student_from_batch.
    destruct (db_batches db !! batch_id) as [batch|]; [|done].
    unfold find_student. rewrite Hu. simpl. rewrite Hrole. simpl.
    unfold enrolled. by rewrite bool_decide_eq_false_2.
Qed.

Lemma enrollment_guards_witness :
  add_student_to_batch sample_db 1%positive (Some {["student_id" := JInt 2]}) =
    (error_response "Student is already enrolled in this batch" 409, sample_db)
  ∧ remove_student_from_batch sample_db 1%positive 9%positive =
      (error_response "Student not found" 404, sample_db)
  ∧ remove_student_from_batch ranking_db 2%positive 1%positive =
      (error_response "Batch not found" 404, ranking_db)
  ∧ remove_student_from_batch two_students_db 2%positive 1%positive =
      (error_response "Student is not enrolled in this batch" 404,
       two_students_db).
Proof.
  split; [|split; [|split]].
  - apply (proj1 (enrollment_guards sample_db 1%positive 2%positive
                    (sample_user STUDENT "Bithi" true) eq_refl eq_refl)
             (sample_batch "Physics A")); try reflexivity.
    apply (bool_decide_unpack _). vm_compute. exact I.
  - reflexivity.
  - apply (proj2 (enrollment_guards ranking_db 2%positive 1%positive
                    (sample_user STUDENT "Anik" true) eq_refl eq_refl)).
    apply (bool_decide_unpack _). vm_compute. exact I.
  - refine (proj2 (enrollment_guards two_students_db 2%positive 1%positive
                     (sample_user STUDENT "Anik" true) eq_refl eq_refl) _).
    apply (bool_decide_unpack _). vm_compute. exact I.
Defined.

(** ** Update *)

Lemma flow_post_bind {A B} (m : flow A) (f : A → flow B)
    (ok' : A → Prop) (ok : B → Prop) (err : Response → Prop) :
  flow_post m ok' err →
  (∀ a, ok' a → flow_post (f a) ok err) →
  flow_post (m ≫= f) ok err.
Proof. destruct m; simpl; auto. Qed.

Lemma flow_post_impl {A} (m : flow A) (ok ok' : A → Prop) (err err' : Response → Prop) :
  flow_post m ok err →
  (∀ a, ok a → ok' a) → (∀ r, err r → err' r) →
  flow_post m ok' err'.
Proof. destruct m; simpl; auto. Qed.

Lemma handle_post prefix db (body : flow (Response * DB))
    (ok : Response * DB → Prop) (err : Response → Prop) :
  flow_post body ok err →
  ok (handle prefix db body)
  ∨ ((handle prefix db body).2 = db
     ∧ (err (handle prefix db body).1
        ∨ (handle prefix db body).1
          = error_response (message (handle prefix db body).1) 500)).
Proof.
  destruct body as [[r db']|r|e]; simpl; intros H.
  - by left.
  - right. split; [done|]. by left.
  - right. split; [done|]. by right.
Qed.

Lemma require_data_post body :
  flow_post (require_data body)
    (λ data, body = Some data ∧ size data ≠ 0%nat)
    (λ r, r = error_response "Request data is required" 400).
Proof.
  destruct body as [data|]; simpl; [|done].
  destruct (Nat.eqb_spec (size data) 0); simpl; done.
Qed.

Lemma reply_if_post c r :
  flow_post (reply_if c r) (λ _, c = false) (λ r', r' = r ∧ c = true).
Proof. by destruct c. Qed.

Lemma update_class_subject_post data batch :
  flow_post (update_class_subject data batch)
    (λ b', same_dates_fee batch b' ∧ b_name b' = b_name batch)
    (λ r, success r = false ∧ status r = 400 ∧ r ≠ date_range_error).
Proof.
  unfold update_class_subject.
  destruct (_ || _); [|by simpl].
  set (new_class := dict_get_default data "class" _).
  set (new_subject := dict_get_default data "subject" _).
  destruct (truthy new_class && negb (json_in_list new_class allowed_classes)).
  { simpl. repeat split. intros [= H]. }
  simpl. destruct (truthy new_subject).
  - destruct (json_in_list new_subject allowed_subjects); simpl.
    + by destruct (truthy new_class).
    + repeat split. intros [= H].
  - simpl. rewrite andb_false_r. done.
Qed.

Lemma update_fields_name strptime_ymd decimal_of_str data batch :
  update_fields strptime_ymd decimal_of_str data batch updatable_fields =
  match data !! "name" with
  | Some v => setattr_json batch "name" v
  | None => Go batch
  end.
Proof.
  unfold updatable_fields, update_fields, update_field.
  destruct (data !! "name") as [v|]; [|done].
  simpl. by destruct (setattr_json batch "name" v).
Qed.

Lemma update_fields_post strptime_ymd decimal_of_str data batch :
  flow_post (update_fields strptime_ymd decimal_of_str data batch updatable_fields)
    (λ b', same_dates_fee batch b') (λ _, False).
Proof.
  rewrite update_fields_name.
  destruct (data !! "name") as [[]|]; simpl; done.
Qed.

Lemma bad_date_range_same b b' :
  same_dates_fee b b' → bad_date_range b' = bad_date_range b.
Proof. intros (Hs & He & _). unfold bad_date_range. by rewrite Hs, He. Qed.

Lemma update_batch_outcome strptime_ymd decimal_of_str now db batch_id body batch :
  db_batches db !! batch_id = Some batch →
  (∃ batch',
     update_batch strptime_ymd decimal_of_str now db batch_id body =
       (success_response "Batch updated successfully"
          (BatchPayload batch_id batch' None) 200,
        db_with_batches db (<[batch_id := batch']> (db_batches db)))
     ∧ same_dates_fee batch batch' ∧ bad_date_range batch = false)
  ∨ (∃ r,
       update_batch strptime_ymd decimal_of_str now db batch_id body = (r, db)
       ∧ success r = false ∧ status r ≠ 200
       ∧ (r = date_range_error → bad_date_range batch = true)).
Proof.
  intros Hb. unfold update_batch. rewrite Hb.
  match goal with |- context [handle ?p db ?b] => set (body' := b) end.
  assert (flow_post body'
            (λ res, ∃ batch',
               res = (success_response "Batch updated successfully"
                        (BatchPayload batch_id batch' None) 200,
                      db_with_batches db (<[batch_id := batch']> (db_batches db)))
               ∧ same_dates_fee batch batch' ∧ bad_date_range batch = false)
            (λ r, success r = false ∧ status r ≠ 200
                  ∧ (r = date_range_error → bad_date_range batch = true))) as Hpost.
  { unfold body'.
    eapply flow_post_bind.
    { eapply flow_post_impl; [apply require_data_post|intros a Ha; exact Ha|].
      intros r ->. repeat split; [done|]. intros [= H]. }
    intros data _.
    eapply flow_post_bind with (ok' := λ _, True).
    { destruct (data !! "name") as [v|]; [|done].
      destruct (py_strip v) as [e|name]; [done|]. simpl.
      destruct (_ && _); simpl; [|done]. repeat split; [done|]. intros [= H]. }
    intros _ _.
    eapply flow_post_bind.
    { eapply flow_post_impl; [apply update_class_subject_post|intros a Ha; exact Ha|].
      intros r (Hs & Hst & Hne). repeat split; [done|by rewrite Hst|done]. }
    intros b1 [Hb1 _].
    eapply flow_post_bind.
    { eapply flow_post_impl; [apply update_fields_post|intros a Ha; exact Ha|done]. }
    intros b2 Hb2. simpl in Hb2.
    assert (same_dates_fee batch b2) as Hsame.
    { destruct Hb1 as (?&?&?), Hb2 as (?&?&?). repeat split; congruence. }
    eapply flow_post_bind.
    { eapply flow_post_impl; [apply reply_if_post|intros a Ha; exact Ha|].
      intros r [-> Hbad]. repeat split; [done|].
      intros _. by rewrite <- (bad_date_range_same batch b2). }
    intros ? Hok. simpl in Hok. simpl.
    exists (batch_set_updated_at b2 now). split; [done|]. split.
    - destruct Hsame as (?&?&?). repeat split; done.
    - by rewrite <- (bad_date_range_same batch b2). }
  destruct (handle_post "Failed to update batch: " db body' _ _ Hpost)
    as [Hok | [Hdb [Herr|H500]]].
  - left. destruct Hok as (batch' & Heq & Hsame & Hbad). by exists batch'.
  - right. exists (handle "Failed to update batch: " db body').1.
    split; [|done]. rewrite <- Hdb at 3. by destruct (handle _ _ _).
  - right. exists (handle "Failed to update batch: " db body').1.
    split; [rewrite <- Hdb at 3; by destruct (handle _ _ _)|].
    rewrite H500. repeat split; [done|]. intros [= H].
Qed.

Lemma update_class_subject_ext data data' batch :
  data !! "class" = data' !! "class" →
  data !! "subject" = data' !! "subject" →
  update_class_subject data batch = update_class_subject data' batch.
Proof.
  intros Hc Hs. unfold update_class_subject, dict_get_default.
  by rewrite Hc, Hs.
Qed.

Lemma update_batch_ext strptime_ymd decimal_of_str strptime_ymd' decimal_of_str'
    now db batch_id data data' :
  size data ≠ 0%nat → size data' ≠ 0%nat →
  data !! "name" = data' !! "name" →
  data !! "class" = data' !! "class" →
  data !! "subject" = data' !! "subject" →
  update_batch strptime_ymd decimal_of_str now db batch_id (Some data) =
  update_batch strptime_ymd' decimal_of_str' now db batch_id (Some data').
Proof.
  intros Hd Hd' Hname Hclass Hsubject. unfold update_batch.
  destruct (db_batches db !! batch_id) as [batch|]; [|done].
  unfold require_data.
  rewrite (proj2 (Nat.eqb_neq _ _) Hd), (proj2 (Nat.eqb_neq _ _) Hd').
  cbn [mbind flow_bind].
  rewrite <- Hname, (update_class_subject_ext data data') by done.
  destruct (match data !! "name" with Some _ => _ | None => _ end) as [[]|r|e];
    [|done..].
  destruct (update_class_subject data' batch) as [b1|r|e]; [|done..].
  unfold mbind, flow_bind.
  by rewrite !update_fields_name, <- Hname.
Qed.

(** C3, as the code has it: [update_batch] does not read the end_date of
    the request, and checks the date range on the dates the batch has.  For
    an existing batch, an update that is not answered with 200 leaves the
    database as it was; an update answered with 200 keeps start_date and
    end_date and is only given when the end_date of the batch, if set, is
    after its start_date; and the date-range error is only given when the
    end_date of the batch is set and not after its start_date. *)
Theorem update_batch_date_range strptime_ymd decimal_of_str now db batch_id body batch :
  db_batches db !! batch_id = Some batch →
  ∃ r db',
    update_batch strptime_ymd decimal_of_str now db batch_id body = (r, db')
    ∧ (status r ≠ 200 → db' = db)
    ∧ (status r = 200 →
       bad_date_range batch = false
       ∧ ∃ batch',
           db' = db_with_batches db (<[batch_id := batch']> (db_batches db))
           ∧ b_start_date batch' = b_start_date batch
           ∧ b_end_date batch' = b_end_date batch)
    ∧ (r = date_range_error → bad_date_range batch = true)
    ∧ (bad_date_range batch = true → status r ≠ 200).
Proof.
  intros Hb.
  destruct (update_batch_outcome strptime_ymd decimal_of_str now db batch_id body
              batch Hb) as [(batch' & Heq & Hsame & Hbad) | (r & Heq & Hs & Hst & Hdate)].
  - eexists _, _. split; [exact Heq|]. simpl. repeat split; try done.
    + exists batch'. destruct Hsame as (?&?&?). done.
    + intros H. congruence.
  - exists r, db. split; [exact Heq|]. repeat split; done.
Qed.

Lemma update_batch_date_range_witness :
  ∃ r db',
    update_batch sample_strptime sample_decimal 2000 sample_db 1%positive
      (Some {["end_date" := JStr "2024-01-01"]}) = (r, db')
    ∧ (status r ≠ 200 → db' = sample_db)
    ∧ (status r = 200 →
       bad_date_range (sample_batch "Physics A") = false
       ∧ ∃ batch',
           db' = db_with_batches sample_db
                   (<[1%positive := batch']> (db_batches sample_db))
           ∧ b_start_date batch' = mkdate 2024 1 10
           ∧ b_end_date batch' = None)
    ∧ (r = date_range_error → bad_date_range (sample_batch "Physics A") = true)
    ∧ (bad_date_range (sample_batch "Physics A") = true → status r ≠ 200).
Proof.
  apply (update_batch_date_range sample_strptime sample_decimal 2000 sample_db
           1%positive _ (sample_batch "Physics A")).
  reflexivity.
Defined.

(** The update of C3, as the claim states it, is not rejected: an end_date
    before the start_date of the batch is answered with 200, and the batch
    keeps the end_date it had. *)
Lemma update_end_date_before_start_accepted :
  db_batches sample_db !! 1%positive = Some (sample_batch "Physics A")
  ∧ sample_strptime "2024-01-01" = Some (mkdate 2024 1 1)
  ∧ date_leb (mkdate 2024 1 1) (b_start_date (sample_batch "Physics A")) = true
  ∧ update_batch sample_strptime sample_decimal 2000 sample_db 1%positive
      (Some {["end_date" := JStr "2024-01-01"]}) =
    (success_response "Batch updated successfully"
       (BatchPayload 1%positive
          (batch_set_updated_at (sample_batch "Physics A") 2000) None) 200,
     db_with_batches sample_db
       (<[1%positive := batch_set_updated_at (sample_batch "Physics A") 2000]>
          (db_batches sample_db)))
  ∧ status (update_batch sample_strptime sample_decimal 2000 sample_db 1%positive
              (Some {["end_date" := JStr "2024-01-01"]})).1 ≠ 400
  ∧ (update_batch sample_strptime sample_decimal 2000 sample_db 1%positive
       (Some {["end_date" := JStr "2024-01-01"]})).2 ≠ sample_db.
Proof.
  split; [reflexivity|]. split; [reflexivity|]. split; [reflexivity|].
  split; [vm_compute; reflexivity|]. split.
  - vm_compute. discriminate.
  - intros H.
    apply (f_equal (λ d, b_updated_at <$> db_batches d !! 1%positive)) in H.
    vm_compute in H. discriminate H.
Qed.

(** C4, as the code has it: [update_batch] reads the name, the class and the
    subject of the request only.  Two non-empty requests with the same name,
    class and subject are answered alike and leave the same database,
    whatever their start_date, end_date and fee_amount and whatever the
    date and decimal conversions do; and an update answered with 200 keeps
    the start_date, the end_date and the fee_amount of the batch. *)
Theorem update_batch_ignores_dates_and_fee strptime_ymd decimal_of_str
    strptime_ymd' decimal_of_str' now db batch_id batch data data' :
  db_batches db !! batch_id = Some batch →
  size data ≠ 0%nat → size data' ≠ 0%nat →
  data !! "name" = data' !! "name" →
  data !! "class" = data' !! "class" →
  data !! "subject" = data' !! "subject" →
  update_batch strptime_ymd decimal_of_str now db batch_id (Some data) =
    update_batch strptime_ymd' decimal_of_str' now db batch_id (Some data')
  ∧ ∃ r db',
      update_batch strptime_ymd decimal_of_str now db batch_id (Some data) = (r, db')
      ∧ (status r = 200 →
         ∃ batch',
           db' = db_with_batches db (<[batch_id := batch']> (db_batches db))
           ∧ same_dates_fee batch batch').
Proof.
  intros Hb Hd Hd' Hname Hclass Hsubject.
  split; [by apply update_batch_ext|].
  destruct (update_batch_outcome strptime_ymd decimal_of_str now db batch_id
              (Some data) batch Hb)
    as [(batch' & Heq & Hsame & Hbad) | (r & Heq & Hs & Hst & Hdate)].
  - eexists _, _. split; [exact Heq|]. intros _. by exists batch'.
  - exists r, db. split; [exact Heq|]. done.
Qed.

Lemma update_batch_ignores_dates_and_fee_witness :
  update_batch sample_strptime sample_decimal 2000 sample_db 1%positive
    (Some (<["start_date" := JStr "10/01/2024"]>
           (<["fee_amount" := JInt (-5)]> {["name" := JStr "Physics B"]}))) =
  update_batch (λ _, None) (λ _, inl (ValueError "")) 2000 sample_db 1%positive
    (Some {["name" := JStr "Physics B"]}).
Proof.
  apply (update_batch_ignores_dates_and_fee sample_strptime sample_decimal
           (λ _, None) (λ _, inl (ValueError "")) 2000 sample_db 1%positive
           (sample_batch "Physics A")); try reflexivity.
  - vm_compute. discriminate.
  - vm_compute. discriminate.
Defined.

(** The updates of C4, as the claim states them, do not happen: a malformed
    start_date and a negative fee_amount are answered with 200, and a
    well-formed start_date is not stored. *)
Lemma update_dates_and_fee_not_read :
  sample_strptime "10/01/2024" = None
  ∧ (update_batch sample_strptime sample_decimal 2000 sample_db 1%positive
       (Some {["start_date" := JStr "10/01/2024"]})).1 =
    success_response "Batch updated successfully"
      (BatchPayload 1%positive
         (batch_set_updated_at (sample_batch "Physics A") 2000) None) 200
  ∧ sample_decimal (JInt (-5)) = inr (mkdec true 5 0)
  ∧ dec_negative (mkdec true 5 0) = true
  ∧ (update_batch sample_strptime sample_decimal 2000 sample_db 1%positive
       (Some {["fee_amount" := JInt (-5)]})).1 =
    success_response "Batch updated successfully"
      (BatchPayload 1%positive
         (batch_set_updated_at (sample_batch "Physics A") 2000) None) 200
  ∧ sample_strptime "2025-02-03" = Some (mkdate 2025 2 3)
  ∧ (update_batch sample_strptime sample_decimal 2000 sample_db 1%positive
       (Some {["start_date" := JStr "2025-02-03"]})).1 =
    success_response "Batch updated successfully"
      (BatchPayload 1%positive
         (batch_set_updated_at (sample_batch "Physics A") 2000) None) 200
  ∧ b_start_date (batch_set_updated_at (sample_batch "Physics A") 2000)
    = mkdate 2024 1 10
  ∧ status (update_batch sample_strptime sample_decimal 2000 sample_db 1%positive
              (Some {["start_date" := JStr "10/01/2024"]})).1 ≠ 400
  ∧ status (update_batch sample_strptime sample_decimal 2000 sample_db 1%positive
              (Some {["fee_amount" := JInt (-5)]})).1 ≠ 400.
Proof. repeat (split; [vm_compute; reflexivity|]). split; vm_compute; discriminate. Qed.

(** ** Names *)

Lemma name_exists_spec db n :
  name_exists db n = true ↔ ∃ i b, db_batches db !! i = Some b ∧ b_name b = n.
Proof.
  unfold name_exists. rewrite bool_decide_eq_true. apply map_Exists_lookup.
Qed.

Lemma name_taken_by_other_spec db n batch_id :
  name_taken_by_other db n batch_id = true ↔
  ∃ i b, db_batches db !! i = Some b ∧ b_name b = n ∧ i ≠ batch_id.
Proof.
  unfold name_taken_by_other. rewrite bool_decide_eq_true.
  apply (map_Exists_lookup (λ i b, b_name b = n ∧ i ≠ batch_id)).
Qed.

(** [create_batch] refuses the name of an existing batch, after stripping. *)
Lemma create_batch_conflict today now db data n c sj :
  data !! "name" = Some (JStr n) →
  data !! "class" = Some (JStr c) →
  data !! "subject" = Some (JStr sj) →
  n ≠ "" → c ≠ "" → sj ≠ "" →
  in_list (strip c) allowed_classes = true →
  in_list (strip sj) allowed_subjects = true →
  name_exists db (strip n) = true →
  create_batch today now db (Some data) =
    (error_response "Batch with this name already exists" 409, db).
Proof.
  intros Hn Hc Hs Hne Hce Hse Hclass Hsubject Hexists.
  unfold create_batch, require_data.
  rewrite (proj2 (Nat.eqb_neq _ _) (map_size_ne_0_lookup_2 data "name" (mk_is_Some _ _ Hn))).
  cbn [mbind flow_bind]. unfold required_fields, dict_get.
  rewrite !filter_cons, filter_nil, Hn, Hc, Hs. cbn [default truthy id].
  rewrite (proj2 (String.eqb_neq _ _) Hne), (proj2 (String.eqb_neq _ _) Hce),
    (proj2 (String.eqb_neq _ _) Hse).
  cbn [negb]. rewrite !decide_False by done.
  rewrite bool_decide_eq_true_2 by done.
  cbn [negb reply_if py_strip lift mbind flow_bind].
  rewrite Hclass. cbn [negb reply_if py_strip lift mbind flow_bind].
  rewrite Hsubject. cbn [negb reply_if py_strip lift mbind flow_bind].
  by rewrite Hexists.
Qed.

(** [create_batch] keeps the names of the batches unique. *)
Lemma create_batch_names_unique today now db body :
  names_unique db → names_unique (create_batch today now db body).2.
Proof.
  intros Huniq. unfold create_batch.
  destruct (require_data body) as [data| |]; [|done..]. cbn [mbind flow_bind].
  destruct (reply_if (negb (bool_decide (_ = []))) _) as [[]| |]; [|done..].
  cbn [mbind flow_bind].
  destruct (py_strip (dict_get data "class")) as [e|c]; [done|]. cbn [lift mbind flow_bind].
  destruct (in_list c allowed_classes); [|done]. cbn [negb reply_if mbind flow_bind].
  destruct (py_strip (dict_get data "subject")) as [e|sj]; [done|]. cbn [lift mbind flow_bind].
  destruct (in_list sj allowed_subjects); [|done]. cbn [negb reply_if mbind flow_bind].
  destruct (py_strip (dict_get data "name")) as [e|n]; [done|]. cbn [lift mbind flow_bind].
  destruct (name_exists db n) eqn:Hex; [done|]. cbn [reply_if mbind flow_bind handle snd].
  assert (∀ i b, db_batches db !! i = Some b → b_name b ≠ n) as Hfree.
  { intros i b Hi Hb. assert (name_exists db n = true) as Ht; [|congruence].
    apply name_exists_spec. eauto. }
  set (new_id := fresh (dom (db_batches db))).
  assert (db_batches db !! new_id = None) as Hnew.
  { apply not_elem_of_dom. apply is_fresh. }
  intros i j b b' Hi Hj Hname. simpl in Hi, Hj.
  destruct (decide (i = new_id)) as [->|Hin], (decide (j = new_id)) as [->|Hjn];
    [done| | |].
  - rewrite lookup_insert_eq in Hi. rewrite lookup_insert_ne in Hj by done.
    injection Hi as <-. simpl in Hname. by destruct (Hfree j b' Hj).
  - rewrite lookup_insert_eq in Hj. rewrite lookup_insert_ne in Hi by done.
    injection Hj as <-. simpl in Hname. by destruct (Hfree i b Hi).
  - rewrite lookup_insert_ne in Hi, Hj by done. by apply (Huniq i j b b').
Qed.

(** [update_batch] refuses a name that, stripped, is the name of another
    batch. *)
Lemma update_batch_conflict strptime_ymd decimal_of_str now db batch_id batch
    data n j other :
  db_batches db !! batch_id = Some batch →
  data !! "name" = Some (JStr n) →
  strip n ≠ b_name batch →
  db_batches db !! j = Some other → j ≠ batch_id → b_name other = strip n →
  update_batch strptime_ymd decimal_of_str now db batch_id (Some data) =
    (error_response "Batch with this name already exists" 409, db).
Proof.
  intros Hb Hn Hne Hj Hjb Hother. unfold update_batch, require_data.
  rewrite Hb.
  rewrite (proj2 (Nat.eqb_neq _ _) (map_size_ne_0_lookup_2 data "name" (mk_is_Some _ _ Hn))).
  cbn [mbind flow_bind]. rewrite Hn. cbn [py_strip lift mbind flow_bind].
  rewrite (proj2 (String.eqb_neq _ _) Hne).
  assert (name_taken_by_other db (strip n) batch_id = true) as ->.
  { apply name_taken_by_other_spec. eauto. }
  done.
Qed.

(** C7: [update_batch] compares the stripped name with the names of the
    other batches and then stores the name as it was sent.  From the empty
    database, two batches are created and the first is renamed to "C "
    (with a trailing blank); renaming the second to "C " is then answered
    with 200, not with 409, and the two batches have the same name. *)
Theorem update_batch_stores_duplicate_name :
  status (create_batch (mkdate 2024 1 10) 0 empty_db
            (creation "A" "Class 5" "Physics")).1 = 201
  ∧ status (create_batch (mkdate 2024 1 10) 1
              (create_batch (mkdate 2024 1 10) 0 empty_db
                 (creation "A" "Class 5" "Physics")).2
              (creation "B" "Class 5" "Physics")).1 = 201
  ∧ status (update_batch sample_strptime sample_decimal 2 two_batches_db
              1%positive (Some {["name" := JStr "C "]})).1 = 200
  ∧ b_name <$> db_batches renamed_db !! 1%positive = Some "C "
  ∧ b_name <$> db_batches renamed_db !! 2%positive = Some "B"
  ∧ ∃ r db',
      update_batch sample_strptime sample_decimal 3 renamed_db 2%positive
        (Some {["name" := JStr "C "]}) = (r, db')
      ∧ status r = 200
      ∧ b_name <$> db_batches db' !! 1%positive = Some "C "
      ∧ b_name <$> db_batches db' !! 2%positive = Some "C "
      ∧ ¬ names_unique db'.
Proof.
  repeat split.
  eexists _, _. split; [reflexivity|]. repeat split.
  intros Huniq.
  pose proof (Huniq 1%positive 2%positive _ _ eq_refl eq_refl eq_refl) as H.
  discriminate H.
Qed.

(** * Further properties of the handlers *)

(** ** Creation *)

Lemma create_batch_cases today now db body :
  (∃ r, create_batch today now db body = (r, db)
        ∧ success r = false ∧ status r ≠ 201)
  ∨ (∃ data n c sj,
       body = Some data
       ∧ data !! "name" = Some (JStr n) ∧ n ≠ ""
       ∧ data !! "class" = Some (JStr c) ∧ c ≠ ""
       ∧ data !! "subject" = Some (JStr sj) ∧ sj ≠ ""
       ∧ in_list (strip c) allowed_classes = true
       ∧ in_list (strip sj) allowed_subjects = true
       ∧ name_exists db (strip n) = false
       ∧ create_batch today now db body =
           (success_response "Batch created successfully"
              (BatchPayload (fresh (dom (db_batches db)))
                 (mkBatch (strip n) (strip sj) (strip c +:+ " - " +:+ strip sj)
                    today None dec_zero_2 50 "active" true false None None None
                    now now)
                 (Some (strip c))) 201,
            db_with_batches db
              (<[fresh (dom (db_batches db)) :=
                   mkBatch (strip n) (strip sj) (strip c +:+ " - " +:+ strip sj)
                     today None dec_zero_2 50 "active" true false None None None
                     now now]> (db_batches db)))).
Proof.
  unfold create_batch.
  destruct body as [data|]; [|left; eexists; by repeat split].
  unfold require_data.
  destruct (size data =? 0)%nat; [left; eexists; by repeat split|].
  cbn [mbind flow_bind].
  destruct (bool_decide (filter _ required_fields = [])) eqn:Hmiss;
    [|left; eexists; by repeat split].
  apply bool_decide_eq_true in Hmiss.
  cbn [negb reply_if mbind flow_bind].
  assert (∀ f, f ∈ required_fields → truthy (dict_get data f) = true) as Hpresent.
  { intros f Hf. destruct (truthy (dict_get data f)) eqn:Ht; [done|].
    assert (f ∈ filter (λ field, truthy (dict_get data field) = false)
                  required_fields) as Hin by by apply list_elem_of_filter.
    rewrite Hmiss in Hin. by apply not_elem_of_nil in Hin. }
  assert (∀ f, f ∈ required_fields →
               (∃ e, py_strip (dict_get data f) = inl e)
               ∨ ∃ v, data !! f = Some (JStr v) ∧ v ≠ "") as Hstr.
  { intros f Hf. specialize (Hpresent f Hf). unfold dict_get in *.
    destruct (data !! f) as [[| | |v| |]|]; simpl in *; eauto.
    right. exists v. split; [done|]. intros ->. done. }
  unfold dict_get in Hstr |- *.
  destruct (Hstr "class") as [[e He]|(c & Hc & Hcne)];
    [unfold required_fields; set_solver
    |rewrite He; left; eexists; by repeat split|].
  rewrite Hc. cbn [default from_option id py_strip lift mbind flow_bind].
  destruct (in_list (strip c) allowed_classes) eqn:Hclass;
    cbn [negb reply_if mbind flow_bind]; [|left; eexists; by repeat split].
  destruct (Hstr "subject") as [[e He]|(sj & Hsj & Hsjne)];
    [unfold required_fields; set_solver
    |rewrite He; left; eexists; by repeat split|].
  rewrite Hsj. cbn [default from_option id py_strip lift mbind flow_bind].
  destruct (in_list (strip sj) allowed_subjects) eqn:Hsubject;
    cbn [negb reply_if mbind flow_bind]; [|left; eexists; by repeat split].
  destruct (Hstr "name") as [[e He]|(n & Hn & Hnne)];
    [unfold required_fields; set_solver
    |rewrite He; left; eexists; by repeat split|].
  rewrite Hn. cbn [default from_option id py_strip lift mbind flow_bind].
  destruct (name_exists db (strip n)) eqn:Hex;
    cbn [negb reply_if mbind flow_bind]; [left; eexists; by repeat split|].
  right. exists data, n, c, sj. by repeat split.
Qed.

Lemma create_batch_run today now db data n c sj :
  data !! "name" = Some (JStr n) →
  data !! "class" = Some (JStr c) →
  data !! "subject" = Some (JStr sj) →
  n ≠ "" → c ≠ "" → sj ≠ "" →
  in_list (strip c) allowed_classes = true →
  in_list (strip sj) allowed_subjects = true →
  name_exists db (strip n) = false →
  create_batch today now db (Some data) =
    (success_response "Batch created successfully"
       (BatchPayload (fresh (dom (db_batches db)))
          (mkBatch (strip n) (strip sj) (strip c +:+ " - " +:+ strip sj)
             today None dec_zero_2 50 "active" true false None None None now now)
          (Some (strip c))) 201,
     db_with_batches db
       (<[fresh (dom (db_batches db)) :=
            mkBatch (strip n) (strip sj) (strip c +:+ " - " +:+ strip sj)
              today None dec_zero_2 50 "active" true false None None None
              now now]> (db_batches db)))
  ∧ db_batches db !! fresh (dom (db_batches db)) = None.
Proof.
  intros Hn Hc Hs Hne Hce Hse Hclass Hsubject Hexists. split.
  - unfold create_batch, require_data.
    rewrite (proj2 (Nat.eqb_neq _ _)
               (map_size_ne_0_lookup_2 data "name" (mk_is_Some _ _ Hn))).
    cbn [mbind flow_bind]. unfold required_fields, dict_get.
    rewrite !filter_cons, filter_nil, Hn, Hc, Hs. cbn [default truthy id].
    rewrite (proj2 (String.eqb_neq _ _) Hne), (proj2 (String.eqb_neq _ _) Hce),
      (proj2 (String.eqb_neq _ _) Hse).
    cbn [negb]. rewrite !decide_False by done.
    rewrite bool_decide_eq_true_2 by done.
    cbn [negb reply_if py_strip lift mbind flow_bind].
    rewrite Hclass. cbn [negb reply_if py_strip lift mbind flow_bind].
    rewrite Hsubject. cbn [negb reply_if py_strip lift mbind flow_bind].
    by rewrite Hexists.
  - apply not_elem_of_dom. apply is_fresh.
Qed.

(** X1: a request whose name, class and subject are non-empty strings, with
    the stripped class and subject among the allowed ones and a stripped
    name no batch has, creates one batch under a fresh key: its name,
    subject and class are the stripped values (a name of blanks gives the
    empty name), its description is "<class> - <subject>", it starts today,
    with no end date, fee 0.00, 50 students at most, active and not
    archived; the answer is 201. *)
Theorem create_batch_creates today now db data n c sj :
  data !! "name" = Some (JStr n) →
  data !! "class" = Some (JStr c) →
  data !! "subject" = Some (JStr sj) →
  n ≠ "" → c ≠ "" → sj ≠ "" →
  in_list (strip c) allowed_classes = true →
  in_list (strip sj) allowed_subjects = true →
  name_exists db (strip n) = false →
  create_batch today now db (Some data) =
    (success_response "Batch created successfully"
       (BatchPayload (fresh (dom (db_batches db)))
          (mkBatch (strip n) (strip sj) (strip c +:+ " - " +:+ strip sj)
             today None dec_zero_2 50 "active" true false None None None now now)
          (Some (strip c))) 201,
     db_with_batches db
       (<[fresh (dom (db_batches db)) :=
            mkBatch (strip n) (strip sj) (strip c +:+ " - " +:+ strip sj)
              today None dec_zero_2 50 "active" true false None None None
              now now]> (db_batches db)))
  ∧ db_batches db !! fresh (dom (db_batches db)) = None.
Proof. apply create_batch_run. Qed.

Lemma create_batch_creates_witness :
  create_batch (mkdate 2024 1 10) 7 sample_db
    (creation "   " " Class 9 " "ICT ") =
    (success_response "Batch created successfully"
       (BatchPayload 2%positive
          (mkBatch "" "ICT" "Class 9 - ICT" (mkdate 2024 1 10) None dec_zero_2
             50 "active" true false None None None 7 7)
          (Some "Class 9")) 201,
     db_with_batches sample_db
       (<[2%positive :=
            mkBatch "" "ICT" "Class 9 - ICT" (mkdate 2024 1 10) None dec_zero_2
              50 "active" true false None None None 7 7]>
          (db_batches sample_db)))
  ∧ db_batches sample_db !! 2%positive = None.
Proof.
  apply (create_batch_creates (mkdate 2024 1 10) 7 sample_db
           (<["name" := JStr "   "]> (<["class" := JStr " Class 9 "]>
              {["subject" := JStr "ICT "]}))
           "   " " Class 9 " "ICT "); try reflexivity; try discriminate.
Defined.

(** X2: [create_batch] answers 201 only to a request whose name, class and
    subject are non-empty strings, whose stripped class and subject are
    allowed, and whose stripped name no batch has. *)
Theorem create_batch_created_only_if today now db body :
  status (create_batch today now db body).1 = 201 →
  ∃ data n c sj,
    body = Some data
    ∧ data !! "name" = Some (JStr n) ∧ n ≠ ""
    ∧ data !! "class" = Some (JStr c) ∧ c ≠ ""
    ∧ data !! "subject" = Some (JStr sj) ∧ sj ≠ ""
    ∧ in_list (strip c) allowed_classes = true
    ∧ in_list (strip sj) allowed_subjects = true
    ∧ name_exists db (strip n) = false.
Proof.
  intros Hst.
  destruct (create_batch_cases today now db body)
    as [(r & Hr & _ & Hne) | (data & n & c & sj & H)].
  - rewrite Hr in Hst. done.
  - exists data, n, c, sj.
    destruct H as (?&?&?&?&?&?&?&?&?&?&_). by repeat split.
Qed.

Lemma create_batch_created_only_if_witness :
  ∃ data n c sj,
    creation "B" "Class 5" "Physics" = Some data
    ∧ data !! "name" = Some (JStr n) ∧ n ≠ ""
    ∧ data !! "class" = Some (JStr c) ∧ c ≠ ""
    ∧ data !! "subject" = Some (JStr sj) ∧ sj ≠ ""
    ∧ in_list (strip c) allowed_classes = true
    ∧ in_list (strip sj) allowed_subjects = true
    ∧ name_exists sample_db (strip n) = false.
Proof.
  apply (create_batch_created_only_if (mkdate 2024 1 10) 7 sample_db).
  vm_compute. reflexivity.
Defined.

(** X3: whatever the request, [create_batch] leaves every existing batch,
    the users, the enrollments, the exams and the rankings as they are, and
    an answer other than 201 leaves the whole database as it is. *)
Theorem create_batch_keeps_rows today now db body :
  (∀ i b, db_batches db !! i = Some b →
          db_batches (create_batch today now db body).2 !! i = Some b)
  ∧ db_users (create_batch today now db body).2 = db_users db
  ∧ db_user_batches (create_batch today now db body).2 = db_user_batches db
  ∧ db_exams (create_batch today now db body).2 = db_exams db
  ∧ db_rankings (create_batch today now db body).2 = db_rankings db
  ∧ (status (create_batch today now db body).1 ≠ 201 →
     (create_batch today now db body).2 = db).
Proof.
  destruct (create_batch_cases today now db body)
    as [(r & Hr & _ & Hne) | (data & n & c & sj & H)].
  - rewrite Hr. simpl. by repeat split.
  - destruct H as (_ & _ & _ & _ & _ & _ & _ & _ & _ & _ & ->). simpl.
    repeat split; try done.
    intros i b Hi. rewrite lookup_insert_ne; [done|].
    intros <-. assert (db_batches db !! fresh (dom (db_batches db)) = None) as Hf
      by (apply not_elem_of_dom; apply is_fresh).
    congruence.
Qed.

(** X4: after a batch was created, a request with the same name up to
    surrounding blanks (and an allowed class and subject) is answered with
    the conflict 409 and changes nothing. *)
Theorem create_batch_twice_conflicts today now today' now' db data n c sj
    data' n' c' sj' :
  data !! "name" = Some (JStr n) →
  data !! "class" = Some (JStr c) →
  data !! "subject" = Some (JStr sj) →
  n ≠ "" → c ≠ "" → sj ≠ "" →
  in_list (strip c) allowed_classes = true →
  in_list (strip sj) allowed_subjects = true →
  name_exists db (strip n) = false →
  data' !! "name" = Some (JStr n') →
  data' !! "class" = Some (JStr c') →
  data' !! "subject" = Some (JStr sj') →
  n' ≠ "" → c' ≠ "" → sj' ≠ "" →
  in_list (strip c') allowed_classes = true →
  in_list (strip sj') allowed_subjects = true →
  strip n' = strip n →
  create_batch today' now' (create_batch today now db (Some data)).2 (Some data') =
    (error_response "Batch with this name already exists" 409,
     (create_batch today now db (Some data)).2).
Proof.
  intros Hn Hc Hs Hne Hce Hse Hclass Hsubject Hfree
         Hn' Hc' Hs' Hne' Hce' Hse' Hclass' Hsubject' Hsame.
  destruct (create_batch_run today now db data n c sj) as [-> _]; try done.
  apply (create_batch_conflict _ _ _ data' n' c' sj'); try done.
  apply name_exists_spec. eexists _, _. split.
  - simpl. apply lookup_insert_eq.
  - simpl. congruence.
Qed.

Lemma create_batch_twice_conflicts_witness :
  create_batch (mkdate 2024 2 1) 8
    (create_batch (mkdate 2024 1 10) 7 sample_db
       (creation "Chemistry B" "Class 9" "Chemistry")).2
    (creation "  Chemistry B " "Class 10" "Physics") =
    (error_response "Batch with this name already exists" 409,
     (create_batch (mkdate 2024 1 10) 7 sample_db
        (creation "Chemistry B" "Class 9" "Chemistry")).2).
Proof.
  apply (create_batch_twice_conflicts (mkdate 2024 1 10) 7 (mkdate 2024 2 1) 8
           sample_db
           (<["name" := JStr "Chemistry B"]> (<["class" := JStr "Class 9"]>
              {["subject" := JStr "Chemistry"]}))
           "Chemistry B" "Class 9" "Chemistry"
           (<["name" := JStr "  Chemistry B "]> (<["class" := JStr "Class 10"]>
              {["subject" := JStr "Physics"]}))
           "  Chemistry B " "Class 10" "Physics");
    try reflexivity; try discriminate.
Defined.

Lemma names_unique_empty : names_unique empty_db.
Proof. intros i j b b' Hi. simpl in Hi. by rewrite lookup_empty in Hi. Qed.

(** X25: [create_batch] keeps the names of the batches unique, whatever the
    request. *)
Theorem create_batch_keeps_names_unique today now db body :
  names_unique db → names_unique (create_batch today now db body).2.
Proof. apply create_batch_names_unique. Qed.

Lemma create_batch_keeps_names_unique_witness :
  b_name <$> db_batches two_batches_db
    = <[ 1%positive := "A" ]> {[ 2%positive := "B" ]}
  ∧ names_unique
      (create_batch (mkdate 2024 1 11) 2 two_batches_db
         (creation " C " "Class 6" "Chemistry")).2
  ∧ b_name <$> db_batches
                 (create_batch (mkdate 2024 1 11) 2 two_batches_db
                    (creation " C " "Class 6" "Chemistry")).2
    = <[ 1%positive := "A" ]> (<[ 2%positive := "B" ]> {[ 3%positive := "C" ]})
  ∧ names_unique
      (create_batch (mkdate 2024 1 11) 2 two_batches_db
         (creation " B " "Class 6" "Chemistry")).2
  ∧ create_batch (mkdate 2024 1 11) 2 two_batches_db
      (creation " B " "Class 6" "Chemistry")
    = (error_response "Batch with this name already exists" 409, two_batches_db).
Proof.
  assert (names_unique two_batches_db) as Huniq.
  { unfold two_batches_db.
    apply create_batch_names_unique, create_batch_names_unique, names_unique_empty. }
  split; [vm_compute; reflexivity|]. split; [|split; [|split]].
  - by apply (create_batch_keeps_names_unique (mkdate 2024 1 11) 2 two_batches_db
                (creation " C " "Class 6" "Chemistry")).
  - vm_compute. reflexivity.
  - by apply (create_batch_keeps_names_unique (mkdate 2024 1 11) 2 two_batches_db
                (creation " B " "Class 6" "Chemistry")).
  - vm_compute. reflexivity.
Defined.

(** ** Enrollment: success, round trip and invariants *)

Lemma student_ids_app db batch_id rows :
  student_ids (db_with_user_batches db (db_user_batches db ++ rows)) batch_id =
  student_ids db batch_id ++ (filter (λ r, r.2 = batch_id) rows).*1.
Proof. unfold student_ids. simpl. by rewrite filter_app, fmap_app. Qed.

Lemma load_app users ids ids' :
  load users (ids ++ ids') = load users ids ++ load users ids'.
Proof. unfold load. apply omap_app. Qed.

Lemma db_with_user_batches_id db rows :
  db_with_user_batches (db_with_user_batches db rows) (db_user_batches db) = db.
Proof. by destruct db. Qed.

Lemma filter_ne_not_elem {A} `{EqDecision A} (x : A) (l : list A) :
  x ∉ l → filter (λ y, y ≠ x) l = l.
Proof.
  induction l as [|y l IH]; intros Hx; [done|].
  apply not_elem_of_cons in Hx as [Hne Hx].
  rewrite filter_cons_True by done. by rewrite IH.
Qed.

Lemma add_student_to_batch_run db batch_id batch student_id student data :
  db_batches db !! batch_id = Some batch →
  db_users db !! student_id = Some student →
  u_role student = STUDENT →
  u_is_active student = true →
  data !! "student_id" = Some (JInt (Z.pos student_id)) →
  add_student_to_batch db batch_id (Some data) =
    if enrolled db student_id batch_id
    then (error_response "Student is already enrolled in this batch" 409, db)
    else (success_response "Student added to batch successfully" NoPayload 200,
          db_with_user_batches db (db_user_batches db ++ [(student_id, batch_id)])).
Proof.
  intros Hb Hu Hrole Hact Hid.
  unfold add_student_to_batch. rewrite Hb. simpl.
  unfold dict_get. rewrite Hid. simpl.
  unfold find_active_student. simpl. rewrite Hu. simpl.
  rewrite Hrole, Hact. simpl. by destruct (enrolled db student_id batch_id).
Qed.

(** X5: adding an active student that is not yet on the roster of an
    existing batch is answered with 200 and puts the student at the end of
    the roster of that batch; the rosters of the other batches are as
    before. *)
Theorem add_student_to_batch_enrolls db batch_id batch student_id student data :
  db_batches db !! batch_id = Some batch →
  db_users db !! student_id = Some student →
  u_role student = STUDENT →
  u_is_active student = true →
  data !! "student_id" = Some (JInt (Z.pos student_id)) →
  (student_id, batch_id) ∉ db_user_batches db →
  add_student_to_batch db batch_id (Some data) =
    (success_response "Student added to batch successfully" NoPayload 200,
     db_with_user_batches db (db_user_batches db ++ [(student_id, batch_id)]))
  ∧ batch_students (add_student_to_batch db batch_id (Some data)).2 batch_id =
      batch_students db batch_id ++ [(student_id, student)]
  ∧ ∀ other, other ≠ batch_id →
      batch_students (add_student_to_batch db batch_id (Some data)).2 other =
      batch_students db other.
Proof.
  intros Hb Hu Hrole Hact Hid Hnot.
  rewrite (add_student_to_batch_run db batch_id batch student_id student data)
    by done.
  unfold enrolled. rewrite bool_decide_eq_false_2 by done.
  split; [done|]. cbn [snd]. unfold batch_students.
  change (db_users (db_with_user_batches db _)) with (db_users db).
  split.
  - rewrite student_ids_app, load_app. f_equal.
    rewrite filter_cons_True, filter_nil by done.
    unfold load. simpl. by rewrite Hu.
  - intros other Hne. rewrite student_ids_app.
    rewrite filter_cons_False, filter_nil by (simpl; congruence).
    by rewrite app_nil_r.
Qed.

Lemma add_student_to_batch_enrolls_witness :
  add_student_to_batch sample_db 1%positive (Some {["student_id" := JInt 9]}) =
    (error_response "Student not found" 404, sample_db)
  ∧ batch_students
      (add_student_to_batch two_students_db 2%positive
         (Some {["student_id" := JInt 1]})).2 2%positive =
    batch_students two_students_db 2%positive
      ++ [(1%positive, sample_user STUDENT "Anik" true)].
Proof.
  split; [reflexivity|].
  apply (add_student_to_batch_enrolls two_students_db 2%positive
           (sample_batch "Physics B") 1%positive
           (sample_user STUDENT "Anik" true) {["student_id" := JInt 1]});
    try reflexivity.
  apply (bool_decide_unpack _). vm_compute. exact I.
Defined.

(** X6: enrolling a student and then removing it again gives back the
    database as it was; and the second of two equal enrollments is answered
    with the conflict 409. *)
Theorem add_then_remove_round_trip db batch_id batch student_id student data :
  db_batches db !! batch_id = Some batch →
  db_users db !! student_id = Some student →
  u_role student = STUDENT →
  u_is_active student = true →
  data !! "student_id" = Some (JInt (Z.pos student_id)) →
  (student_id, batch_id) ∉ db_user_batches db →
  remove_student_from_batch
    (add_student_to_batch db batch_id (Some data)).2 batch_id student_id =
    (success_response "Student removed from batch successfully" NoPayload 200, db)
  ∧ add_student_to_batch
      (add_student_to_batch db batch_id (Some data)).2 batch_id (Some data) =
      (error_response "Student is already enrolled in this batch" 409,
       (add_student_to_batch db batch_id (Some data)).2).
Proof.
  intros Hb Hu Hrole Hact Hid Hnot.
  pose proof (add_student_to_batch_run db batch_id batch student_id student data
                Hb Hu Hrole Hact Hid) as Hrun.
  unfold enrolled in Hrun. rewrite bool_decide_eq_false_2 in Hrun by done.
  rewrite !Hrun. cbn [snd].
  set (db' := db_with_user_batches db _).
  assert ((student_id, batch_id) ∈ db_user_batches db') as Hin.
  { simpl. apply elem_of_app. right. by apply list_elem_of_singleton. }
  split.
  - unfold remove_student_from_batch.
    change (db_batches db') with (db_batches db). rewrite Hb.
    unfold find_student. change (db_users db') with (db_users db).
    rewrite Hu. simpl. rewrite Hrole. simpl.
    unfold enrolled. rewrite bool_decide_eq_true_2 by done. simpl.
    f_equal. rewrite filter_app, filter_cons_False, filter_nil, app_nil_r
      by (intros H; by apply H).
    rewrite filter_ne_not_elem by done. unfold db'. apply db_with_user_batches_id.
  - rewrite (add_student_to_batch_run db' batch_id batch student_id student data)
      by done.
    unfold enrolled. by rewrite bool_decide_eq_true_2.
Qed.

Lemma add_then_remove_round_trip_witness :
  remove_student_from_batch
    (add_student_to_batch two_students_db 2%positive
       (Some {["student_id" := JInt 1]})).2 2%positive 1%positive =
    (success_response "Student removed from batch successfully" NoPayload 200,
     two_students_db).
Proof.
  apply (add_then_remove_round_trip two_students_db 2%positive
           (sample_batch "Physics B") 1%positive
           (sample_user STUDENT "Anik" true) {["student_id" := JInt 1]});
    try reflexivity.
  apply (bool_decide_unpack _). vm_compute. exact I.
Defined.

Lemma student_ids_remove db batch_id student_id :
  student_ids
    (db_with_user_batches db
       (filter (λ r, r ≠ (student_id, batch_id)) (db_user_batches db))) batch_id =
  filter (λ i, i ≠ student_id) (student_ids db batch_id).
Proof.
  unfold student_ids. simpl.
  induction (db_user_batches db) as [|[u b] rows IH]; [done|].
  rewrite (filter_cons (λ r, r ≠ _)), (filter_cons (λ r, r.2 = _)). simpl.
  destruct (decide (b = batch_id)) as [->|Hb].
  - destruct (decide (u = student_id)) as [->|Hu].
    + rewrite decide_False by (intros H; by apply H).
      rewrite fmap_cons, filter_cons_False by (simpl; intros H; by apply H).
      apply IH.
    + rewrite decide_True by congruence.
      rewrite filter_cons_True by done.
      rewrite !fmap_cons, filter_cons_True by done. simpl. by rewrite IH.
  - rewrite decide_True by congruence.
    rewrite filter_cons_False by done. apply IH.
Qed.

Lemma student_ids_remove_other db batch_id student_id other :
  other ≠ batch_id →
  student_ids
    (db_with_user_batches db
       (filter (λ r, r ≠ (student_id, batch_id)) (db_user_batches db))) other =
  student_ids db other.
Proof.
  intros Hne. unfold student_ids. simpl. f_equal.
  rewrite list_filter_filter. apply list_filter_iff.
  intros [u b]. simpl. split; [tauto|]. intros ->. split; [done|congruence].
Qed.

Lemma load_filter_ne users ids student_id :
  load users (filter (λ i, i ≠ student_id) ids) =
  filter (λ s, s.1 ≠ student_id) (load users ids).
Proof.
  induction ids as [|j ids IH]; [done|].
  rewrite filter_cons, load_cons. case_decide as Hj.
  - rewrite load_cons. destruct (users !! j) as [u|]; [|done].
    rewrite filter_cons_True by done. by rewrite IH.
  - destruct (users !! j) as [u|]; [|done].
    rewrite filter_cons_False by (simpl; intros H; by apply H). done.
Qed.

(** X7: removing a student of the roster, active or not, is answered with
    200 and takes the student, and nobody else, off the roster of that
    batch; the other rosters are as before, and a second removal is answered
    with 404. *)
Theorem remove_student_from_batch_removes db batch_id batch student_id student :
  db_batches db !! batch_id = Some batch →
  db_users db !! student_id = Some student →
  u_role student = STUDENT →
  (student_id, batch_id) ∈ db_user_batches db →
  remove_student_from_batch db batch_id student_id =
    (success_response "Student removed from batch successfully" NoPayload 200,
     db_with_user_batches db
       (filter (λ r, r ≠ (student_id, batch_id)) (db_user_batches db)))
  ∧ batch_students (remove_student_from_batch db batch_id student_id).2 batch_id =
      filter (λ s, s.1 ≠ student_id) (batch_students db batch_id)
  ∧ (∀ other, other ≠ batch_id →
       batch_students (remove_student_from_batch db batch_id student_id).2 other =
       batch_students db other)
  ∧ remove_student_from_batch
      (remove_student_from_batch db batch_id student_id).2 batch_id student_id =
    (error_response "Student is not enrolled in this batch" 404,
     (remove_student_from_batch db batch_id student_id).2).
Proof.
  intros Hb Hu Hrole Hin.
  assert (remove_student_from_batch db batch_id student_id =
          (success_response "Student removed from batch successfully" NoPayload 200,
           db_with_user_batches db
             (filter (λ r, r ≠ (student_id, batch_id)) (db_user_batches db))))
    as Hrun.
  { unfold remove_student_from_batch. rewrite Hb.
    unfold find_student. rewrite Hu. simpl. rewrite Hrole. simpl.
    unfold enrolled. by rewrite bool_decide_eq_true_2. }
  rewrite !Hrun. cbn [snd]. split; [done|].
  set (db' := db_with_user_batches db _). split; [|split].
  - unfold batch_students. change (db_users db') with (db_users db). unfold db'.
    by rewrite student_ids_remove, load_filter_ne.
  - intros other Hne. unfold batch_students.
    change (db_users db') with (db_users db). unfold db'.
    by rewrite student_ids_remove_other.
  - unfold remove_student_from_batch.
    change (db_batches db') with (db_batches db). rewrite Hb.
    unfold find_student. change (db_users db') with (db_users db).
    rewrite Hu. simpl. rewrite Hrole. simpl.
    unfold enrolled. rewrite bool_decide_eq_false_2; [done|].
    simpl. intros [Hne _]%list_elem_of_filter. by apply Hne.
Qed.

Lemma remove_student_from_batch_removes_witness :
  remove_student_from_batch two_students_db 2%positive 4%positive =
    (success_response "Student removed from batch successfully" NoPayload 200,
     db_with_user_batches two_students_db [(1, 1); (4, 1)]%positive)
  ∧ add_student_to_batch two_students_db 1%positive
      (Some {["student_id" := JInt 4]}) =
    (error_response "Student not found" 404, two_students_db).
Proof.
  split; [|reflexivity].
  apply (remove_student_from_batch_removes two_students_db 2%positive
           (sample_batch "Physics B") 4%positive
           (sample_user STUDENT "Dipu" false)); try reflexivity.
  apply (bool_decide_unpack _). vm_compute. exact I.
Defined.

(** X8: for a request whose [student_id], when it is a text, is written in
    decimal digits, [add_student_to_batch] answers 200 only when the batch
    exists, the [student_id] of the body selects a user that is a student
    and active, and that student is not on the roster yet; any other answer
    leaves the database as it is, and no answer changes a batch or a
    user. *)
Theorem add_student_to_batch_only_if db batch_id body :
  (∀ data s, body = Some data → data !! "student_id" = Some (JStr s) →
             is_Some (digits_value s)) →
  (status (add_student_to_batch db batch_id body).1 = 200 →
   ∃ batch data student_id student,
     db_batches db !! batch_id = Some batch
     ∧ body = Some data
     ∧ json_key (dict_get data "student_id") = Some student_id
     ∧ db_users db !! student_id = Some student
     ∧ u_role student = STUDENT ∧ u_is_active student = true
     ∧ ((student_id, batch_id) ∉ db_user_batches db)
     ∧ snd (add_student_to_batch db batch_id body) =
         db_with_user_batches db (db_user_batches db ++ [(student_id, batch_id)]))
  ∧ (status (add_student_to_batch db batch_id body).1 ≠ 200 →
     (add_student_to_batch db batch_id body).2 = db)
  ∧ db_batches (add_student_to_batch db batch_id body).2 = db_batches db
  ∧ db_users (add_student_to_batch db batch_id body).2 = db_users db.
Proof.
  intros _. unfold add_student_to_batch.
  destruct (db_batches db !! batch_id) as [batch|] eqn:Hb; [|by repeat split].
  destruct body as [data|]; [|by repeat split]. cbn [mbind flow_bind].
  destruct (truthy (dict_get data "student_id")); [|by repeat split].
  cbn [negb reply_if mbind flow_bind].
  destruct (find_active_student db (dict_get data "student_id"))
    as [e|[[sid student]|]] eqn:Hfind; [by repeat split| |by repeat split].
  cbn [lift mbind flow_bind].
  unfold enrolled. case_bool_decide as Hin; [by repeat split|].
  cbn [reply_if mbind flow_bind handle fst snd].
  split; [|by repeat split]. intros _.
  unfold find_active_student in Hfind.
  destruct (json_key (dict_get data "student_id")) as [i|] eqn:Hkey;
    [|simpl in Hfind; by destruct (unbindable _)].
  simpl in Hfind. destruct (db_users db !! i) as [u|] eqn:Hu;
    [|simpl in Hfind; by destruct (unbindable _)].
  simpl in Hfind.
  destruct (role_eqb (u_role u) STUDENT) eqn:Hrole; [|done].
  destruct (u_is_active u) eqn:Hact; [|done].
  simpl in Hfind. injection Hfind as -> ->.
  apply role_eqb_eq in Hrole.
  exists batch, data, sid, student. by repeat split.
Qed.

Lemma add_student_to_batch_only_if_witness :
  (∃ batch data student_id student,
     db_batches two_students_db !! 2%positive = Some batch
     ∧ Some {["student_id" := JStr "1"]} = Some data
     ∧ json_key (dict_get data "student_id") = Some student_id
     ∧ db_users two_students_db !! student_id = Some student
     ∧ u_role student = STUDENT ∧ u_is_active student = true
     ∧ ((student_id, 2%positive) ∉ db_user_batches two_students_db)
     ∧ snd (add_student_to_batch two_students_db 2%positive
              (Some {["student_id" := JStr "1"]})) =
         db_with_user_batches two_students_db
           (db_user_batches two_students_db ++ [(student_id, 2%positive)]))
  ∧ status (add_student_to_batch two_students_db 2%positive
              (Some {["student_id" := JInt (2 ^ 63)]})).1 = 500
  ∧ status (add_student_to_batch two_students_db 2%positive
              (Some {["student_id" := JStr "7"]})).1 = 404.
Proof.
  split; [|split; vm_compute; reflexivity].
  refine (proj1 (add_student_to_batch_only_if two_students_db 2%positive
                   (Some {["student_id" := JStr "1"]}) _) _).
  - intros data s [= <-] Hs.
    assert (s = "1") as -> by (vm_compute in Hs; congruence).
    by eexists.
  - vm_compute. reflexivity.
Defined.

(** ** Archive and restore: guards and compositions *)

Lemma archive_batch_ok_inv clock cu db batch_id body :
  status (archive_batch clock cu db batch_id body).1 = 200 →
  ∃ batch reason,
    db_batches db !! batch_id = Some batch
    ∧ b_is_archived batch = false
    ∧ text_column (dict_get_default (default ∅ body) "reason"
                     (JStr "Archived by teacher")) = inr reason.
Proof.
  unfold archive_batch.
  destruct (db_batches db !! batch_id) as [batch|]; [|done]. simpl.
  destruct (b_is_archived batch) eqn:Harch; [done|]. simpl.
  destruct (text_column _) as [e|reason] eqn:Hreason; [done|].
  intros _. by exists batch, reason.
Qed.

Lemma restore_batch_ok_inv db batch_id body :
  status (restore_batch db batch_id body).1 = 200 →
  ∃ batch, db_batches db !! batch_id = Some batch ∧ b_is_archived batch = true.
Proof.
  unfold restore_batch.
  destruct (db_batches db !! batch_id) as [batch|]; [|done]. simpl.
  destruct (b_is_archived batch) eqn:Harch; [|done].
  intros _. by exists batch.
Qed.

Lemma archive_batch_batches clock cu db batch_id body batch reason :
  db_batches db !! batch_id = Some batch →
  b_is_archived batch = false →
  text_column (dict_get_default (default ∅ body) "reason"
                 (JStr "Archived by teacher")) = inr reason →
  db_batches (archive_batch clock cu db batch_id body).2 =
    <[batch_id := batch_set_archive batch true (Some (clock 0%nat)) (Some cu) reason]>
      (db_batches db)
  ∧ ∃ users' n,
      archive_students clock cu (b_name batch) (student_ids db batch_id)
        (db_users db) 0 = (users', n)
      ∧ db_users (archive_batch clock cu db batch_id body).2 = users'.
Proof.
  intros Hb Harch Hreason. unfold archive_batch.
  rewrite Hb. simpl. rewrite Harch. simpl. rewrite Hreason. simpl.
  destruct (archive_students _ _ _ _ _ _) as [users' n] eqn:Hrun. simpl.
  split; [done|]. by exists users', n.
Qed.

Lemma restore_batch_batches db batch_id body batch :
  db_batches db !! batch_id = Some batch →
  b_is_archived batch = true →
  db_batches (restore_batch db batch_id body).2 =
    <[batch_id := batch_restored batch]> (db_batches db).
Proof.
  intros Hb Harch. unfold restore_batch.
  rewrite Hb. simpl. rewrite Harch. simpl.
  destruct (truthy _); [|done].
  by destruct (restore_students_loop _ _ _ _).
Qed.

(** X9: a batch that was archived cannot be archived again, and a batch
    that was restored cannot be restored again: the second request is
    answered with 400 and changes nothing. *)
Theorem archive_restore_not_repeatable clock cu db batch_id body :
  (status (archive_batch clock cu db batch_id body).1 = 200 →
   ∀ clock' cu' body',
     archive_batch clock' cu' (archive_batch clock cu db batch_id body).2
       batch_id body' =
     (error_response "Batch is already archived" 400,
      (archive_batch clock cu db batch_id body).2))
  ∧ (status (restore_batch db batch_id body).1 = 200 →
     ∀ body',
       restore_batch (restore_batch db batch_id body).2 batch_id body' =
       (error_response "Batch is not archived" 400,
        (restore_batch db batch_id body).2)).
Proof.
  split.
  - intros (batch & reason & Hb & Harch & Hreason)%archive_batch_ok_inv
           clock' cu' body'.
    destruct (archive_batch_batches clock cu db batch_id body batch reason
                Hb Harch Hreason) as [Hbs _].
    unfold archive_batch at 1. rewrite Hbs, lookup_insert_eq. done.
  - intros (batch & Hb & Harch)%restore_batch_ok_inv body'.
    pose proof (restore_batch_batches db batch_id body batch Hb Harch) as Hbs.
    unfold restore_batch at 1. rewrite Hbs, lookup_insert_eq. done.
Qed.

Lemma archive_restore_not_repeatable_witness :
  archive_batch sample_clock 9%positive sample_archived_db 1%positive None =
    (error_response "Batch is already archived" 400, sample_archived_db)
  ∧ restore_batch (restore_batch sample_archived_db 1%positive None).2
      1%positive None =
    (error_response "Batch is not archived" 400,
     (restore_batch sample_archived_db 1%positive None).2).
Proof.
  split.
  - apply (proj1 (archive_restore_not_repeatable sample_clock 9%positive
                    sample_db 1%positive None)).
    vm_compute. reflexivity.
  - apply (proj2 (archive_restore_not_repeatable sample_clock 9%positive
                    sample_archived_db 1%positive None)).
    vm_compute. reflexivity.
Defined.

Lemma archive_batch_students_archived clock cu db batch_id body :
  status (archive_batch clock cu db batch_id body).1 = 200 →
  ∀ i u,
    (i, u) ∈ batch_students (archive_batch clock cu db batch_id body).2 batch_id →
    u_role u = STUDENT → u_is_archived u = true.
Proof.
  intros (batch & reason & Hb & Harch & Hreason)%archive_batch_ok_inv i u Hin Hrole.
  destruct (archive_batch_batches clock cu db batch_id body batch reason
              Hb Harch Hreason) as [_ (users' & n & Hrun & Husers)].
  pose proof (archive_batch_frame clock cu db batch_id body) as (Hub & _).
  apply elem_of_batch_students in Hin as [Hi Hu].
  rewrite elem_of_student_ids, Hub, <- elem_of_student_ids in Hi.
  rewrite Husers in Hu.
  pose proof (archive_students_lookup _ _ _ _ _ _ _ _ Hrun i) as Hlk.
  destruct (db_users db !! i) as [u0|]; [|congruence].
  rewrite (bool_decide_eq_true_2 _ Hi) in Hlk. simpl in Hlk.
  destruct (archivable u0) eqn:Ha.
  - destruct Hlk as [t Hlk]. rewrite Hlk in Hu. by injection Hu as <-.
  - rewrite Hlk in Hu. injection Hu as <-.
    unfold archivable in Ha. rewrite Hrole in Ha. simpl in Ha.
    rewrite andb_true_r in Ha. by apply negb_false_iff in Ha.
Qed.

(** X10: after a successful [archive_batch], every student on the roster of
    the batch is archived, whether the cascade archived it or it was
    archived before. *)
Theorem archive_batch_leaves_no_student clock cu db batch_id body :
  status (archive_batch clock cu db batch_id body).1 = 200 →
  ∀ i u,
    (i, u) ∈ batch_students (archive_batch clock cu db batch_id body).2 batch_id →
    u_role u = STUDENT → u_is_archived u = true.
Proof. apply archive_batch_students_archived. Qed.

Lemma archive_batch_leaves_no_student_witness :
  length (batch_students sample_archived_db 1%positive) = 3%nat
  ∧ Forall (λ s, u_role s.2 = STUDENT → u_is_archived s.2 = true)
      (batch_students sample_archived_db 1%positive).
Proof.
  split; [vm_compute; reflexivity|].
  apply Forall_forall. intros [i u] Hin.
  apply (archive_batch_leaves_no_student sample_clock 9%positive sample_db
           1%positive None) with i; [vm_compute; reflexivity | exact Hin].
Defined.



(** ** Update: what it writes and what it leaves alone *)

Lemma update_frame_refl b : update_frame b b.
Proof. by destruct b. Qed.

Lemma update_class_subject_frame data batch :
  flow_post (update_class_subject data batch)
    (λ b', update_frame batch b' ∧ b_name b' = b_name batch
           ∧ b_updated_at b' = b_updated_at batch)
    (λ _, True).
Proof.
  unfold update_class_subject.
  destruct (_ || _); [|simpl; split; [apply update_frame_refl|done]].
  set (new_class := dict_get_default data "class" _).
  set (new_subject := dict_get_default data "subject" _).
  destruct (truthy new_class && negb (json_in_list new_class allowed_classes));
    [done|].
  simpl. destruct (truthy new_subject).
  - destruct (json_in_list new_subject allowed_subjects); simpl; [|done].
    destruct (truthy new_class); simpl; (split; [by destruct batch|done]).
  - simpl. rewrite andb_false_r. split; [apply update_frame_refl|done].
Qed.

Lemma update_fields_frame strptime_ymd decimal_of_str data batch :
  flow_post (update_fields strptime_ymd decimal_of_str data batch updatable_fields)
    (λ b', b' = batch_set_name batch (b_name b')) (λ _, False).
Proof.
  rewrite update_fields_name.
  destruct (data !! "name") as [[]|]; simpl; try done. by destruct batch.
Qed.

Lemma update_batch_db strptime_ymd decimal_of_str now db batch_id body :
  (update_batch strptime_ymd decimal_of_str now db batch_id body).2 = db
  ∨ ∃ batch batch',
      db_batches db !! batch_id = Some batch
      ∧ (update_batch strptime_ymd decimal_of_str now db batch_id body).2 =
          db_with_batches db (<[batch_id := batch']> (db_batches db))
      ∧ update_frame batch batch' ∧ b_updated_at batch' = now
      ∧ status (update_batch strptime_ymd decimal_of_str now db batch_id body).1
        = 200.
Proof.
  unfold update_batch.
  destruct (db_batches db !! batch_id) as [batch|] eqn:Hb; [|by left].
  match goal with |- context [handle ?p db ?b] => set (body' := b) end.
  assert (flow_post body'
            (λ res, ∃ batch',
               res.2 = db_with_batches db (<[batch_id := batch']> (db_batches db))
               ∧ update_frame batch batch' ∧ b_updated_at batch' = now
               ∧ status res.1 = 200)
            (λ _, True)) as Hpost.
  { unfold body'.
    eapply flow_post_bind with (ok' := λ _, True).
    { by destruct (require_data body). }
    intros data _.
    eapply flow_post_bind with (ok' := λ _, True).
    { destruct (data !! "name") as [v|]; [|done].
      destruct (py_strip v) as [e|name]; [done|]. simpl.
      by destruct (_ && _). }
    intros _ _.
    eapply flow_post_bind; [apply update_class_subject_frame|].
    intros b1 (Hf1 & Hn1 & Hu1).
    eapply flow_post_bind.
    { eapply flow_post_impl; [apply update_fields_frame|intros a Ha; exact Ha|done]. }
    intros b2 Hb2. simpl in Hb2.
    eapply flow_post_bind with (ok' := λ _, True).
    { by destruct (bad_date_range b2). }
    intros _ _. simpl.
    exists (batch_set_updated_at b2 now). repeat split.
    unfold update_frame in *. rewrite Hb2, Hf1. by destruct batch. }
  destruct body' as [[r db']|r|e]; simpl in *; [|by left..].
  right. destruct Hpost as (batch' & -> & Hf & Hu & Hs).
  by exists batch, batch'.
Qed.

(** X12: whatever the request, [update_batch] changes at most the name, the
    subject, the description and [updated_at] of the batch it names: the
    dates, the fee, the capacity, the status, [is_active] and the archive
    columns stay, and so do the other batches, the users, the enrollments,
    the exams and the rankings. *)
Theorem update_batch_writes_text_only strptime_ymd decimal_of_str now db batch_id body :
  db_users (update_batch strptime_ymd decimal_of_str now db batch_id body).2
    = db_users db
  ∧ db_user_batches (update_batch strptime_ymd decimal_of_str now db batch_id body).2
    = db_user_batches db
  ∧ db_exams (update_batch strptime_ymd decimal_of_str now db batch_id body).2
    = db_exams db
  ∧ db_rankings (update_batch strptime_ymd decimal_of_str now db batch_id body).2
    = db_rankings db
  ∧ ∀ i, option_Forall2
           (λ b b', update_frame b b' ∧ (i ≠ batch_id → b' = b))
           (db_batches db !! i)
           (db_batches
              (update_batch strptime_ymd decimal_of_str now db batch_id body).2 !! i).
Proof.
  destruct (update_batch_db strptime_ymd decimal_of_str now db batch_id body)
    as [-> | (batch & batch' & Hb & -> & Hf & _)].
  - repeat split. intros i. destruct (db_batches db !! i) as [b|]; constructor.
    split; [apply update_frame_refl|done].
  - simpl. repeat split. intros i. destruct (decide (i = batch_id)) as [->|Hne].
    + rewrite lookup_insert_eq, Hb. constructor. by split.
    + rewrite lookup_insert_ne by done.
      destruct (db_batches db !! i) as [b|]; constructor.
      split; [apply update_frame_refl|done].
Qed.







(** ** Invariants of the handlers *)

Lemma description_wf_archive b flag at_ by_ reason :
  description_wf b → description_wf (batch_set_archive b flag at_ by_ reason).
Proof. done. Qed.

Lemma update_class_subject_wf data batch :
  description_wf batch →
  flow_post (update_class_subject data batch) description_wf (λ _, True).
Proof.
  intros Hwf. unfold update_class_subject.
  destruct (_ || _); [|done].
  set (new_class := dict_get_default data "class" _).
  set (new_subject := dict_get_default data "subject" _).
  destruct (truthy new_class) eqn:Htc; simpl.
  - destruct (json_in_list new_class allowed_classes) eqn:Hc; simpl; [|done].
    destruct (truthy new_subject) eqn:Hts; simpl; [|done].
    destruct (json_in_list new_subject allowed_subjects) eqn:Hsj; simpl; [|done].
    destruct new_class as [| | |c| |]; try done.
    destruct new_subject as [| | |sj| |]; try done.
    by exists c, sj.
  - destruct (truthy new_subject) eqn:Hts; simpl; [|done].
    by destruct (json_in_list new_subject allowed_subjects).
Qed.

Lemma update_batch_descriptions_wf strptime_ymd decimal_of_str now db batch_id body :
  descriptions_wf db →
  descriptions_wf (update_batch strptime_ymd decimal_of_str now db batch_id body).2.
Proof.
  intros Hwf. unfold update_batch.
  destruct (db_batches db !! batch_id) as [batch|] eqn:Hb; [|done].
  match goal with |- context [handle ?p db ?b] => set (body' := b) end.
  assert (flow_post body'
            (λ res, ∃ batch',
               res.2 = db_with_batches db (<[batch_id := batch']> (db_batches db))
               ∧ description_wf batch')
            (λ _, True)) as Hpost.
  { unfold body'.
    eapply flow_post_bind with (ok' := λ _, True).
    { by destruct (require_data body). }
    intros data _.
    eapply flow_post_bind with (ok' := λ _, True).
    { destruct (data !! "name") as [v|]; [|done].
      destruct (py_strip v) as [e|name]; [done|]. simpl.
      by destruct (_ && _). }
    intros _ _.
    eapply flow_post_bind; [apply update_class_subject_wf; by eapply Hwf|].
    intros b1 Hb1.
    eapply flow_post_bind.
    { eapply flow_post_impl; [apply update_fields_frame|intros a Ha; exact Ha|done]. }
    intros b2 Hb2. simpl in Hb2.
    eapply flow_post_bind with (ok' := λ _, True).
    { by destruct (bad_date_range b2). }
    intros _ _. simpl.
    exists (batch_set_updated_at b2 now). split; [done|].
    rewrite Hb2. exact Hb1. }
  destruct body' as [[r db']|r|e]; simpl in *; [|done..].
  destruct Hpost as (batch' & -> & Hwf'). intros i b. simpl.
  destruct (decide (i = batch_id)) as [->|Hne].
  - rewrite lookup_insert_eq. by intros [= <-].
  - rewrite lookup_insert_ne by done. apply Hwf.
Qed.

Lemma archive_frame_descriptions_wf batch_id db db' :
  archive_frame batch_id db db' → descriptions_wf db → descriptions_wf db'.
Proof.
  intros (_ & _ & _ & Hbs & _) Hwf i b' Hi. specialize (Hbs i).
  rewrite Hi in Hbs. inversion Hbs as [b ? (_ & Hf & _) Hlk|]; subst.
  rewrite Hf. apply description_wf_archive. by apply (Hwf i).
Qed.

(** X15: every handler keeps the descriptions well formed: if each batch has
    a description "<allowed class> - <allowed subject>", so does each batch
    after [create_batch], [update_batch], [archive_batch], [restore_batch]
    and [delete_batch], whatever the request. *)
Theorem handlers_keep_descriptions today strptime_ymd decimal_of_str clock cu now
    db batch_id body :
  descriptions_wf db →
  descriptions_wf (create_batch today now db body).2
  ∧ descriptions_wf (update_batch strptime_ymd decimal_of_str now db batch_id body).2
  ∧ descriptions_wf (archive_batch clock cu db batch_id body).2
  ∧ descriptions_wf (restore_batch db batch_id body).2
  ∧ descriptions_wf (delete_batch db batch_id).2.
Proof.
  intros Hwf. repeat split.
  - destruct (create_batch_cases today now db body)
      as [(r & -> & _) | (data & n & c & sj & H)]; [done|].
    destruct H as (_ & _ & _ & _ & _ & _ & _ & Hc & Hsj & _ & ->).
    intros i b. simpl. destruct (decide (i = fresh (dom (db_batches db)))) as [->|Hne].
    + rewrite lookup_insert_eq. intros [= <-]. by exists (strip c), (strip sj).
    + rewrite lookup_insert_ne by done. apply Hwf.
  - by apply update_batch_descriptions_wf.
  - eapply archive_frame_descriptions_wf; [apply archive_batch_frame|done].
  - eapply archive_frame_descriptions_wf; [apply restore_batch_frame|done].
  - unfold delete_batch. destruct (db_batches db !! batch_id) as [batch|]; [|done].
    destruct (bool_decide (active_students db batch_id = [])); [|done].
    simpl. intros i b Hi. unfold session_delete, students_clear in Hi.
    simpl in Hi. apply lookup_delete_Some in Hi as [_ Hi]. by apply (Hwf i).
Qed.

Lemma sample_db_descriptions_wf : descriptions_wf sample_db.
Proof.
  intros i b Hi. simpl in Hi. apply lookup_singleton_Some in Hi as [_ <-].
  by exists "Class 5", "Physics".
Qed.

Lemma handlers_keep_descriptions_witness :
  descriptions_wf
    (update_batch sample_strptime sample_decimal 2000 sample_db 1%positive
       (Some (<["class" := JNull]> {["subject" := JStr "Chemistry"]}))).2.
Proof.
  refine (proj1 (proj2 (handlers_keep_descriptions (mkdate 2024 1 10)
           sample_strptime sample_decimal sample_clock 9%positive 2000 sample_db
           1%positive
           (Some (<["class" := JNull]> {["subject" := JStr "Chemistry"]})) _))).
  intros i b Hi. simpl in Hi. apply lookup_singleton_Some in Hi as [_ <-].
  by exists "Class 5", "Physics".
Defined.

Lemma update_batch_user_batches strptime_ymd decimal_of_str now db batch_id body :
  db_user_batches (update_batch strptime_ymd decimal_of_str now db batch_id body).2
  = db_user_batches db.
Proof.
  destruct (update_batch_db strptime_ymd decimal_of_str now db batch_id body)
    as [-> | (batch & batch' & _ & -> & _)]; done.
Qed.

Lemma create_batch_user_batches today now db body :
  db_user_batches (create_batch today now db body).2 = db_user_batches db.
Proof.
  destruct (create_batch_cases today now db body)
    as [(r & -> & _) | (data & n & c & sj & H)]; [done|].
  by destruct H as (_ & _ & _ & _ & _ & _ & _ & _ & _ & _ & ->).
Qed.

(** X16: every handler keeps the enrollments free of duplicates: if no
    (student, batch) pair is enrolled twice, none is after any request to any
    of the handlers that write. *)
Theorem handlers_keep_enrollments_distinct today strptime_ymd decimal_of_str
    clock cu now db batch_id student_id body :
  NoDup (db_user_batches db) →
  NoDup (db_user_batches (add_student_to_batch db batch_id body).2)
  ∧ NoDup (db_user_batches (remove_student_from_batch db batch_id student_id).2)
  ∧ NoDup (db_user_batches (delete_batch db batch_id).2)
  ∧ NoDup (db_user_batches (archive_batch clock cu db batch_id body).2)
  ∧ NoDup (db_user_batches (restore_batch db batch_id body).2)
  ∧ NoDup (db_user_batches
             (update_batch strptime_ymd decimal_of_str now db batch_id body).2)
  ∧ NoDup (db_user_batches (create_batch today now db body).2).
Proof.
  intros Hnd. repeat split.
  - by apply add_student_to_batch_NoDup.
  - unfold remove_student_from_batch.
    destruct (db_batches db !! batch_id) as [batch|]; [|done].
    destruct (find_student db student_id); [|done]. cbn [mbind flow_bind].
    destruct (enrolled db student_id batch_id); [|done]. simpl.
    by apply NoDup_filter.
  - unfold delete_batch. destruct (db_batches db !! batch_id) as [batch|]; [|done].
    destruct (bool_decide (active_students db batch_id = [])); [|done].
    simpl. unfold session_delete, students_clear. simpl. by apply NoDup_filter.
  - by destruct (archive_batch_frame clock cu db batch_id body) as [-> _].
  - by destruct (restore_batch_frame db batch_id body) as [-> _].
  - by rewrite update_batch_user_batches.
  - by rewrite create_batch_user_batches.
Qed.

Lemma handlers_keep_enrollments_distinct_witness :
  NoDup (db_user_batches
           (add_student_to_batch two_students_db 2%positive
              (Some {["student_id" := JInt 1]})).2).
Proof.
  refine (proj1 (handlers_keep_enrollments_distinct (mkdate 2024 1 10)
           sample_strptime sample_decimal sample_clock 9%positive 2000
           two_students_db 2%positive 1%positive
           (Some {["student_id" := JInt 1]}) _)).
  apply (bool_decide_unpack (NoDup (db_user_batches two_students_db))).
  vm_compute. exact I.
Defined.

(** ** The roster without ranks *)

Lemma stable_sort_all_le {A} (leb : A → A → bool) (l : list A) :
  (∀ x y, x ∈ l → y ∈ l → leb x y = true) → stable_sort leb l = l.
Proof.
  induction l as [|x l IH]; intros Hle; [done|]. simpl.
  rewrite IH by (intros a b Ha Hb; apply Hle; by apply elem_of_cons; right).
  destruct l as [|y l]; [done|]. simpl.
  rewrite Hle; [done| |].
  - by apply elem_of_cons; left.
  - apply elem_of_cons; right. by apply elem_of_cons; left.
Qed.

(** X17: when the batch has no monthly exam, no student has a rank and the
    roster is listed in the order of enrollment. *)
Theorem roster_without_exam db batch_id :
  (∀ e, e ∈ db_exams db → me_batch_id e ≠ batch_id) →
  ranked_roster db batch_id =
    (λ s, mkStudentData s.1 s.2 None None) <$> active_students db batch_id.
Proof.
  intros Hnone.
  assert (most_recent_exam db batch_id = None) as Hex.
  { pose proof (most_recent_exam_spec db batch_id) as Hspec.
    destruct (most_recent_exam db batch_id) as [e|]; [|done].
    destruct Hspec as (Hin & Hb & _). by destruct (Hnone e Hin). }
  unfold ranked_roster, roster_entries, rank_map_of. rewrite Hex.
  assert (((λ s : positive * User,
              mkStudentData s.1 s.2 ((∅ : gmap positive Z) !! s.1)
                ((∅ : gmap positive Z) !! s.1)) <$> active_students db batch_id)
          = (λ s, mkStudentData s.1 s.2 None None) <$> active_students db batch_id)
    as ->.
  { apply list_fmap_ext. intros k s _. by rewrite lookup_empty. }
  apply stable_sort_all_le. intros a b Ha Hb.
  apply list_elem_of_fmap in Ha as [sa [-> _]].
  apply list_elem_of_fmap in Hb as [sb [-> _]].
  done.
Qed.

Lemma roster_without_exam_witness :
  ranked_roster sample_db 1%positive =
    (λ s, mkStudentData s.1 s.2 None None) <$> active_students sample_db 1%positive.
Proof.
  apply (roster_without_exam sample_db 1%positive).
  intros e He. simpl in He. by apply not_elem_of_nil in He.
Defined.

(** ** Listings *)

Lemma elem_of_batch_rows db i b :
  (i, b) ∈ batch_rows db ↔ db_batches db !! i = Some b.
Proof. unfold batch_rows. apply elem_of_map_to_list. Qed.

Lemma NoDup_fst_batch_rows db : NoDup (batch_rows db).*1.
Proof. apply NoDup_fst_map_to_list. Qed.

Lemma NoDup_fst_filter {A B} (P : A * B → Prop) `{∀ x, Decision (P x)}
    (l : list (A * B)) :
  NoDup l.*1 → NoDup (filter P l).*1.
Proof.
  induction l as [|x l IH]; intros Hnd; [constructor|].
  rewrite fmap_cons in Hnd. apply NoDup_cons in Hnd as [Hx Hnd].
  rewrite filter_cons. case_decide; [|by apply IH].
  rewrite fmap_cons. apply NoDup_cons. split; [|by apply IH].
  intros Hin. apply Hx. apply list_elem_of_fmap in Hin as [y [-> Hy]].
  apply list_elem_of_filter in Hy as [_ Hy]. apply list_elem_of_fmap. by exists y.
Qed.

Lemma StronglySorted_fmap_2 {A B} (R : A → A → Prop) (R' : B → B → Prop)
    (f : A → B) (l : list A) :
  (∀ x y, R x y → R' (f x) (f y)) →
  StronglySorted R l → StronglySorted R' (f <$> l).
Proof.
  intros Hf. induction 1 as [|x l Hs IH Hx]; [constructor|].
  rewrite fmap_cons. constructor; [done|].
  apply Forall_fmap. eapply Forall_impl; [exact Hx|]. intros y. apply Hf.
Qed.

Lemma name_order_total a b : name_order a b = false → name_order b a = true.
Proof.
  unfold name_order. intros H.
  destruct (String.leb_total (b_name a.2) (b_name b.2)) as [H'|H']; congruence.
Qed.

Lemma name_order_trans a b c :
  name_order a b = true → name_order b c = true → name_order a c = true.
Proof.
  unfold name_order. intros H1 H2.
  apply Is_true_true. apply Is_true_true in H1, H2.
  by apply (transitivity (R := String.le) H1 H2).
Qed.

Lemma active_listing_elem db e :
  e ∈ active_batch_of db <$>
        stable_sort name_order
          (filter (λ r, b_is_active r.2 = true ∧ b_is_archived r.2 = false)
             (batch_rows db)) ↔
  ∃ i b, db_batches db !! i = Some b
         ∧ b_is_active b = true ∧ b_is_archived b = false
         ∧ e = active_batch_of db (i, b).
Proof.
  rewrite list_elem_of_fmap. split.
  - intros [[i b] [-> Hin]]. rewrite stable_sort_perm in Hin.
    apply list_elem_of_filter in Hin as [[Ha Hr] Hin].
    apply elem_of_batch_rows in Hin. by exists i, b.
  - intros (i & b & Hb & Ha & Hr & ->). exists (i, b). split; [done|].
    rewrite stable_sort_perm. apply list_elem_of_filter. split; [done|].
    by apply elem_of_batch_rows.
Qed.

(** X18: [get_active_batches] lists, once each and ordered by name, the
    batches that are active and not archived, and no other; the
    [student_count] of an entry is the number of students of its roster that
    are active and not archived. *)
Theorem get_active_batches_lists db :
  ∃ l,
    get_active_batches db = success_answer "Active batches retrieved" l
    ∧ (∀ e, e ∈ l ↔
            ∃ i b, db_batches db !! i = Some b
                   ∧ b_is_active b = true ∧ b_is_archived b = false
                   ∧ e = mkActiveBatch i (b_name b) (b_description b)
                           (b_fee_amount b) (b_start_date b) (b_end_date b)
                           (length (filter (λ s, u_is_active s.2
                                                 && negb (u_is_archived s.2) = true)
                                      (batch_students db i))))
    ∧ NoDup (ab_id <$> l)
    ∧ StronglySorted (λ a b, String.leb (ab_name a) (ab_name b) = true) l.
Proof.
  eexists. split; [reflexivity|].
  set (rows := filter (λ r, b_is_active r.2 = true ∧ b_is_archived r.2 = false)
                 (batch_rows db)).
  pose proof (stable_sort_perm name_order rows) as Hperm.
  split; [|split].
  - intros e. apply active_listing_elem.
  - rewrite <- list_fmap_compose.
    change (ab_id ∘ active_batch_of db) with (fst : positive * Batch → positive).
    rewrite Hperm. apply NoDup_fst_filter, NoDup_fst_batch_rows.
  - apply (StronglySorted_fmap_2 (λ a b, name_order a b = true)); [done|].
    apply stable_sort_sorted; [apply name_order_total | apply name_order_trans].
Qed.

Lemma archived_at_desc_total nf a b :
  archived_at_desc nf a b = false → archived_at_desc nf b a = true.
Proof.
  unfold archived_at_desc.
  destruct (b_archived_at a.2) as [x|], (b_archived_at b.2) as [y|], nf;
    simpl; try done.
  all: intros H%Z.leb_gt; apply Z.leb_le; lia.
Qed.

Lemma archived_at_desc_trans nf a b c :
  archived_at_desc nf a b = true → archived_at_desc nf b c = true →
  archived_at_desc nf a c = true.
Proof.
  unfold archived_at_desc.
  destruct (b_archived_at a.2) as [x|], (b_archived_at b.2) as [y|],
    (b_archived_at c.2) as [z|], nf; simpl; try done.
  all: intros H1%Z.leb_le H2%Z.leb_le; apply Z.leb_le; lia.
Qed.

Lemma archived_listing_elem nf db e :
  e ∈ archived_batch_of db <$>
        stable_sort (archived_at_desc nf)
          (filter (λ r, b_is_archived r.2 = true) (batch_rows db)) ↔
  ∃ i b, db_batches db !! i = Some b ∧ b_is_archived b = true
         ∧ e = archived_batch_of db (i, b).
Proof.
  rewrite list_elem_of_fmap. split.
  - intros [[i b] [-> Hin]]. rewrite stable_sort_perm in Hin.
    apply list_elem_of_filter in Hin as [Hr Hin].
    apply elem_of_batch_rows in Hin. by exists i, b.
  - intros (i & b & Hb & Hr & ->). exists (i, b). split; [done|].
    rewrite stable_sort_perm. apply list_elem_of_filter. split; [done|].
    by apply elem_of_batch_rows.
Qed.

Lemma filter_and_length_le {A} (P Q : A → bool) (l : list A) :
  (length (filter (λ x, P x && Q x = true) l)
   ≤ length (filter (λ x, Q x = true) l))%nat.
Proof.
  induction l as [|x l IH]; [done|]. rewrite !filter_cons.
  destruct (P x), (Q x); simpl; repeat case_decide; simpl; try done; lia.
Qed.

(** X19: [get_archived_batches] lists, once each and by decreasing
    [archived_at], the archived batches and no other, wherever the database
    puts the rows without [archived_at]; an entry names the user that
    archived the batch when that user exists, and its count of archived
    students does not exceed its count of students. *)
Theorem get_archived_batches_lists nulls_first db :
  ∃ l,
    get_archived_batches nulls_first db
      = success_answer "Archived batches retrieved" l
    ∧ (∀ e, e ∈ l ↔
            ∃ i b, db_batches db !! i = Some b ∧ b_is_archived b = true
                   ∧ e = archived_batch_of db (i, b))
    ∧ NoDup (ar_id <$> l)
    ∧ Forall (λ e, (ar_archived_students_count e ≤ ar_total_students_count e)%nat
                   ∧ ar_archived_by e
                     = (i ← b_archived_by (ar_batch e); db_users db !! i)) l
    ∧ StronglySorted
        (λ a b, match ar_archived_at a, ar_archived_at b with
                | Some x, Some y => y ≤ x
                | None, Some _ => nulls_first = true
                | Some _, None => nulls_first = false
                | None, None => True
                end) l.
Proof.
  eexists. split; [reflexivity|].
  set (rows := filter (λ r, b_is_archived r.2 = true) (batch_rows db)).
  pose proof (stable_sort_perm (archived_at_desc nulls_first) rows) as Hperm.
  split; [|split; [|split]].
  - intros e. apply archived_listing_elem.
  - rewrite <- list_fmap_compose.
    change (ar_id ∘ archived_batch_of db) with (fst : positive * Batch → positive).
    rewrite Hperm. apply NoDup_fst_filter, NoDup_fst_batch_rows.
  - apply Forall_fmap, Forall_forall. intros [i b] _. simpl. split; [|done].
    apply (filter_and_length_le (λ s, u_is_archived s.2)
             (λ s, role_eqb (u_role s.2) STUDENT)).
  - apply (StronglySorted_fmap_2
             (λ a b, archived_at_desc nulls_first a b = true)).
    + intros [i b] [j b']. unfold archived_at_desc. simpl.
      destruct (b_archived_at b) as [x|], (b_archived_at b') as [y|],
        nulls_first; simpl; try done. all: apply Z.leb_le.
    + apply stable_sort_sorted;
        [apply archived_at_desc_total | apply archived_at_desc_trans].
Qed.

Lemma filter_all_length {A} (P Q : A → bool) (l : list A) :
  (∀ x, x ∈ l → Q x = true → P x = true) →
  length (filter (λ x, P x && Q x = true) l) = length (filter (λ x, Q x = true) l).
Proof.
  induction l as [|x l IH]; intros Hall; [done|]. rewrite !filter_cons.
  assert (length (filter (λ x, P x && Q x = true) l) =
          length (filter (λ x, Q x = true) l)) as Hrest
    by (apply IH; intros y Hy; apply Hall; by apply elem_of_cons; right).
  destruct (Q x) eqn:HQ.
  - rewrite (Hall x) by (done || by apply elem_of_cons; left).
    simpl. repeat case_decide; simpl; congruence.
  - rewrite andb_false_r. repeat case_decide; simpl; congruence.
Qed.

(** X20: once [archive_batch] has answered 200, the batch is no longer in
    the list of [get_active_batches], and [get_archived_batches] shows it
    with the time and the user of the request and with as many archived
    students as students. *)
Theorem archive_batch_moves_listing clock cu db batch_id body nulls_first :
  status (archive_batch clock cu db batch_id body).1 = 200 →
  (∀ l e,
     a_data (get_active_batches (archive_batch clock cu db batch_id body).2)
       = Some l →
     e ∈ l → ab_id e ≠ batch_id)
  ∧ ∃ l e,
      a_data (get_archived_batches nulls_first
                (archive_batch clock cu db batch_id body).2) = Some l
      ∧ e ∈ l ∧ ar_id e = batch_id
      ∧ ar_archived_at e = Some (clock 0%nat)
      ∧ ar_archived_by e
        = db_users (archive_batch clock cu db batch_id body).2 !! cu
      ∧ ar_archived_students_count e = ar_total_students_count e.
Proof.
  intros Hok.
  pose proof (archive_batch_students_archived clock cu db batch_id body Hok)
    as Hall.
  apply archive_batch_ok_inv in Hok as (batch & reason & Hb & Harch & Hreason).
  destruct (archive_batch_batches clock cu db batch_id body batch reason
              Hb Harch Hreason) as [Hbs _].
  set (db' := (archive_batch clock cu db batch_id body).2) in *.
  assert (db_batches db' !! batch_id =
          Some (batch_set_archive batch true (Some (clock 0%nat)) (Some cu) reason))
    as Hb' by (rewrite Hbs; apply lookup_insert_eq).
  split.
  - intros l e [= <-] Hin Hid.
    apply active_listing_elem in Hin as (i & b & Hi & _ & Hna & ->).
    simpl in Hid. subst i. rewrite Hb' in Hi. injection Hi as <-. done.
  - eexists _, _. split; [reflexivity|]. split.
    { apply archived_listing_elem. eexists _, _. split; [exact Hb'|]. by split. }
    simpl. repeat split.
    apply (filter_all_length (λ s, u_is_archived s.2)
             (λ s, role_eqb (u_role s.2) STUDENT)).
    intros [i u] Hin Hrole. simpl in *. apply (Hall i u Hin).
    by apply role_eqb_eq.
Qed.

Lemma archive_batch_moves_listing_witness :
  a_data (get_active_batches sample_archived_db) = Some []
  ∧ ∃ l e,
      a_data (get_archived_batches true sample_archived_db) = Some l
      ∧ e ∈ l ∧ ar_id e = 1%positive
      ∧ ar_archived_at e = Some 1000
      ∧ ar_archived_by e = Some (sample_user TEACHER "Rahim" true)
      ∧ ar_archived_students_count e = ar_total_students_count e.
Proof.
  split; [vm_compute; reflexivity|].
  refine (proj2 (archive_batch_moves_listing sample_clock 9%positive sample_db
                   1%positive None true _)).
  vm_compute. reflexivity.
Defined.

Lemma prefix_empty s : String.prefix "" s = true.
Proof. by destruct s. Qed.

Lemma in_list_elem x l : in_list x l = true → x ∈ l.
Proof.
  unfold in_list. intros (y & Hy & Heq)%existsb_exists.
  apply String.eqb_eq in Heq as ->. by apply list_elem_of_In.
Qed.

(** The class of a well-formed description is read back from it. *)
Lemma class_of_description_wf c sj :
  in_list c allowed_classes = true →
  class_of_description (c +:+ " - " +:+ sj) = Some c.
Proof.
  intros Hc%in_list_elem. unfold allowed_classes in Hc.
  repeat (apply elem_of_cons in Hc as [->|Hc];
          [destruct sj; vm_compute; reflexivity|]).
  by apply not_elem_of_nil in Hc.
Qed.

(** X21: whatever rows of the query the pagination keeps, [get_batches]
    shows batches that are not archived only; [currentStudents] is the
    number of active students of the roster, archived ones included, which
    is the number of students the roster listing of that batch shows;
    [maxStudents] is the capacity, or 50 for a capacity of 0; and for a
    well-formed description [class] is its allowed class. *)
Theorem get_batches_lists ilike paginate_items db page per_page search :
  (∀ p pp rows r, r ∈ paginate_items p pp rows → r ∈ rows) →
  ∃ l,
    get_batches ilike paginate_items db page per_page search
      = success_answer "Batches retrieved successfully" l
    ∧ Forall
        (λ e, db_batches db !! bi_id e = Some (bi_batch e)
              ∧ b_is_archived (bi_batch e) = false
              ∧ bi_currentStudents e
                = length (filter (λ s, u_is_active s.2 = true)
                            (batch_students db (bi_id e)))
              ∧ bi_currentStudents e = length (ranked_roster db (bi_id e))
              ∧ (b_max_students (bi_batch e) = 0 → bi_maxStudents e = 50)
              ∧ (b_max_students (bi_batch e) ≠ 0 →
                 bi_maxStudents e = b_max_students (bi_batch e))
              ∧ (∀ c sj, in_list c allowed_classes = true →
                         b_description (bi_batch e) = c +:+ " - " +:+ sj →
                         bi_class e = Some c)) l.
Proof.
  intros Hpag. eexists. split; [reflexivity|].
  apply Forall_fmap, Forall_forall. intros [i b] Hin.
  apply Hpag in Hin. unfold batches_query in Hin.
  rewrite stable_sort_perm in Hin.
  assert ((i, b) ∈ filter (λ r, b_is_archived r.2 = false) (batch_rows db)) as Hq.
  { destruct (negb _); [|done]. by apply list_elem_of_filter in Hin as [_ Hin]. }
  apply list_elem_of_filter in Hq as [Hna Hrow]. apply elem_of_batch_rows in Hrow.
  simpl. repeat split; try done.
  - rewrite (Permutation_length (ranked_roster_perm db i)).
    unfold roster_entries. by rewrite length_fmap.
  - intros Hm. unfold max_students_or_50. by rewrite Hm.
  - intros Hm. unfold max_students_or_50.
    destruct (Z.eqb_spec (b_max_students b) 0); done.
  - intros c sj Hc ->. by apply class_of_description_wf.
Qed.

Lemma get_batches_lists_witness :
  bi_id <$> default []
    (a_data (get_batches sample_ilike sample_paginate two_batches_db (Some 1)
               (Some 500) (Some " phys "))) = [2; 1]%positive
  ∧ (λ e, (bi_id e, bi_class e, bi_currentStudents e, bi_maxStudents e)) <$>
      default []
        (a_data (get_batches sample_ilike sample_paginate capacity_db
                   None None None))
    = [(2%positive, None, 0%nat, 50); (1%positive, Some "Class 5", 1%nat, 50)]
  ∧ ∃ l,
      get_batches sample_ilike sample_paginate capacity_db None None None
        = success_answer "Batches retrieved successfully" l
      ∧ Forall
          (λ e, db_batches capacity_db !! bi_id e = Some (bi_batch e)
                ∧ b_is_archived (bi_batch e) = false
                ∧ bi_currentStudents e
                  = length (filter (λ s, u_is_active s.2 = true)
                              (batch_students capacity_db (bi_id e)))
                ∧ bi_currentStudents e
                  = length (ranked_roster capacity_db (bi_id e))
                ∧ (b_max_students (bi_batch e) = 0 → bi_maxStudents e = 50)
                ∧ (b_max_students (bi_batch e) ≠ 0 →
                   bi_maxStudents e = b_max_students (bi_batch e))
                ∧ (∀ c sj, in_list c allowed_classes = true →
                           b_description (bi_batch e) = c +:+ " - " +:+ sj →
                           bi_class e = Some c)) l.
Proof.
  split; [vm_compute; reflexivity|]. split; [vm_compute; reflexivity|].
  apply (get_batches_lists sample_ilike sample_paginate capacity_db
           None None None).
  intros p pp rows r Hr. unfold sample_paginate in Hr.
  apply elem_of_take in Hr as (k & Hk & _).
  rewrite lookup_drop in Hk. by eapply list_elem_of_lookup_2.
Defined.

(** X22: [get_my_batches] lists the batches the user is enrolled in that
    have [is_active] set, archived batches included, and no other. *)
Theorem get_my_batches_lists db current_user :
  ∃ l,
    get_my_batches db current_user = success_answer "Student batches retrieved" l
    ∧ ∀ i b, (i, b) ∈ l ↔
             (current_user, i) ∈ db_user_batches db
             ∧ db_batches db !! i = Some b ∧ b_is_active b = true.
Proof.
  eexists. split; [reflexivity|]. intros i b.
  rewrite list_elem_of_filter. unfold batches_of_user.
  rewrite list_elem_of_omap. simpl. split.
  - intros [Ha (j & Hj & Hlk)].
    destruct (db_batches db !! j) as [b'|] eqn:Hb; simpl in Hlk; [|done].
    injection Hlk as -> ->.
    apply list_elem_of_fmap in Hj as [[u j'] [-> Hj]]. simpl in *.
    apply list_elem_of_filter in Hj as [Hu Hj]. simpl in Hu. subst u. done.
  - intros (Hin & Hb & Ha). split; [done|]. exists i. split.
    + apply list_elem_of_fmap. exists (current_user, i). split; [done|].
      by apply list_elem_of_filter.
    + by rewrite Hb.
Qed.

(** X23: [get_batch] answers 404 for a batch that does not exist; for one
    that exists it shows the batch, and to a teacher or a super user also
    the students that the roster listing of the batch shows, in the order of
    enrollment, while a student gets no list of students. *)
Theorem get_batch_detail current_user db batch_id :
  match db_batches db !! batch_id with
  | None => get_batch current_user db batch_id = error_answer "Batch not found" 404
  | Some batch =>
      ∃ students,
        get_batch current_user db batch_id =
          success_answer "Batch details retrieved"
            (mkBatchDetail batch_id batch students)
        ∧ match students with
          | Some l =>
              u_role current_user ≠ STUDENT
              ∧ l = filter (λ s, u_is_active s.2 = true)
                      (batch_students db batch_id)
              ∧ l ≡ₚ (λ s, (sd_id s, sd_user s)) <$> ranked_roster db batch_id
          | None => u_role current_user = STUDENT
          end
  end.
Proof.
  unfold get_batch. destruct (db_batches db !! batch_id) as [batch|]; [|done].
  eexists. split; [reflexivity|].
  destruct (u_role current_user); simpl; [done| |].
  all: split; [done|]; split; [done|].
  all: rewrite ranked_roster_perm; unfold roster_entries.
  all: rewrite <- list_fmap_compose.
  all: rewrite <- (list_fmap_id (active_students db batch_id)) at 1.
  all: assert (∀ l : list (positive * User),
                 id <$> l
                 = ((λ s, (sd_id s, sd_user s))
                    ∘ (λ s, mkStudentData s.1 s.2
                              (rank_map_of db batch_id !! s.1)
                              (rank_map_of db batch_id !! s.1))) <$> l) as Hid
         by (intros l; apply list_fmap_ext; by intros k [i u] _).
  all: by rewrite Hid.
Qed.

(** ** After a deletion *)

Lemma delete_batch_ok_inv db batch_id :
  status (delete_batch db batch_id).1 = 200 →
  ∃ batch,
    db_batches db !! batch_id = Some batch
    ∧ active_students db batch_id = []
    ∧ (delete_batch db batch_id).2
      = session_delete (students_clear db batch_id) batch_id.
Proof.
  unfold delete_batch.
  destruct (db_batches db !! batch_id) as [batch|]; [|done].
  case_bool_decide as Hact; [|done]. intros _. by exists batch.
Qed.

(** X24: once [delete_batch] has answered 200, the batch is gone: every
    handler that takes its key answers 404 and changes nothing, the
    listings of [get_active_batches], [get_archived_batches] and
    [get_my_batches] do not show it, no enrollment row names it, and, if the
    names were unique, no batch has its name any more. *)
Theorem delete_batch_then_gone strptime_ymd decimal_of_str clock cu now current_user
    db batch_id body student_id nulls_first db' :
  status (delete_batch db batch_id).1 = 200 →
  (delete_batch db batch_id).2 = db' →
  get_batch current_user db' batch_id = error_answer "Batch not found" 404
  ∧ get_batch_students db' batch_id = (error_response "Batch not found" 404, db')
  ∧ update_batch strptime_ymd decimal_of_str now db' batch_id body
    = (error_response "Batch not found" 404, db')
  ∧ delete_batch db' batch_id = (error_response "Batch not found" 404, db')
  ∧ archive_batch clock cu db' batch_id body
    = (error_response "Batch not found" 404, db')
  ∧ restore_batch db' batch_id body = (error_response "Batch not found" 404, db')
  ∧ add_student_to_batch db' batch_id body
    = (error_response "Batch not found" 404, db')
  ∧ remove_student_from_batch db' batch_id student_id
    = (error_response "Batch not found" 404, db')
  ∧ (∀ l e, a_data (get_active_batches db') = Some l → e ∈ l → ab_id e ≠ batch_id)
  ∧ (∀ l e, a_data (get_archived_batches nulls_first db') = Some l →
            e ∈ l → ar_id e ≠ batch_id)
  ∧ (∀ user l b, a_data (get_my_batches db' user) = Some l → (batch_id, b) ∉ l)
  ∧ (∀ user, (user, batch_id) ∉ db_user_batches db')
  ∧ (names_unique db →
     ∀ batch, db_batches db !! batch_id = Some batch →
              name_exists db' (b_name batch) = false).
Proof.
  intros (batch & Hb & Hact & Hdb)%delete_batch_ok_inv <-.
  set (db' := (delete_batch db batch_id).2) in *.
  assert (db_batches db' !! batch_id = None) as Hgone.
  { rewrite Hdb. simpl. apply lookup_delete_eq. }
  repeat split.
  - unfold get_batch. by rewrite Hgone.
  - unfold get_batch_students. by rewrite Hgone.
  - unfold update_batch. by rewrite Hgone.
  - unfold delete_batch at 1. by rewrite Hgone.
  - unfold archive_batch. by rewrite Hgone.
  - unfold restore_batch. by rewrite Hgone.
  - unfold add_student_to_batch. by rewrite Hgone.
  - unfold remove_student_from_batch. by rewrite Hgone.
  - intros l e [= <-] Hin Hid.
    apply active_listing_elem in Hin as (i & b & Hi & _ & _ & ->).
    simpl in Hid. subst i. congruence.
  - intros l e [= <-] Hin Hid.
    apply archived_listing_elem in Hin as (i & b & Hi & _ & ->).
    simpl in Hid. subst i. congruence.
  - intros user l b [= <-] Hin.
    apply list_elem_of_filter in Hin as [_ Hin].
    unfold batches_of_user in Hin. apply list_elem_of_omap in Hin as (j & _ & Hlk).
    destruct (db_batches db' !! j) as [b'|] eqn:Hj; simpl in Hlk; [|done].
    injection Hlk as -> ->. congruence.
  - intros user Hin. rewrite Hdb in Hin. simpl in Hin.
    apply list_elem_of_filter in Hin as [Hne _]. by apply Hne.
  - intros Huniq batch' Hb'. rewrite Hb in Hb'. injection Hb' as <-.
    destruct (name_exists db' (b_name batch)) eqn:Hex; [|done].
    apply name_exists_spec in Hex as (i & b & Hi & Hname).
    rewrite Hdb in Hi. simpl in Hi. apply lookup_delete_Some in Hi as [Hne Hi].
    destruct Hne. by apply (Huniq batch_id i batch b).
Qed.

Lemma delete_batch_then_gone_witness :
  get_batch (sample_user TEACHER "Rahim" true)
    (delete_batch two_batches_db 2%positive).2 2%positive
    = error_answer "Batch not found" 404
  ∧ get_batch_students (delete_batch two_batches_db 2%positive).2 2%positive
    = (error_response "Batch not found" 404,
       (delete_batch two_batches_db 2%positive).2).
Proof.
  assert (status (delete_batch two_batches_db 2%positive).1 = 200) as Hok
    by (vm_compute; reflexivity).
  destruct (delete_batch_then_gone sample_strptime sample_decimal sample_clock
              9%positive 2000 (sample_user TEACHER "Rahim" true) two_batches_db
              2%positive None 1%positive true _ Hok eq_refl) as (H1 & H2 & _).
  split; [exact H1 | exact H2].
Defined.

(** X26: [update_batch] answers with the conflict 409, and changes nothing,
    when the name of the request, stripped, is not the name of the batch and
    is the name of another batch. *)
Theorem update_batch_refuses_other_name strptime_ymd decimal_of_str now db
    batch_id batch data n j other :
  db_batches db !! batch_id = Some batch →
  data !! "name" = Some (JStr n) →
  strip n ≠ b_name batch →
  db_batches db !! j = Some other → j ≠ batch_id → b_name other = strip n →
  update_batch strptime_ymd decimal_of_str now db batch_id (Some data) =
    (error_response "Batch with this name already exists" 409, db).
Proof. apply update_batch_conflict. Qed.

Lemma update_batch_refuses_other_name_witness :
  update_batch sample_strptime sample_decimal 3 two_batches_db 2%positive
    (Some {["name" := JStr " A  "]}) =
    (error_response "Batch with this name already exists" 409, two_batches_db).
Proof.
  assert (db_batches two_batches_db !! 2%positive =
          Some (mkBatch "B" "Physics" "Class 5 - Physics" (mkdate 2024 1 10) None
                  dec_zero_2 50 "active" true false None None None 1 1)) as Hb
    by (vm_compute; reflexivity).
  assert (db_batches two_batches_db !! 1%positive =
          Some (mkBatch "A" "Physics" "Class 5 - Physics" (mkdate 2024 1 10) None
                  dec_zero_2 50 "active" true false None None None 0 0)) as Ha
    by (vm_compute; reflexivity).
  refine (update_batch_refuses_other_name sample_strptime sample_decimal 3 two_batches_db
            2%positive _ {["name" := JStr " A  "]} " A  " 1%positive _ Hb
            _ _ Ha _ _); [reflexivity|discriminate|discriminate|reflexivity].
Defined.
